(** * Attendance_System: liveness tracking, identity matching, attendance ledger

    A shallow embedding of the decision core of [recognize_v2.py]
    (classes [LivenessDetector] and [AttendanceSystem]) together with the
    defaults of [config.py], and the properties of that core.

    Conventions of the embedding.
    - A grayscale face patch (the result of [cv2.cvtColor] on the crop
      [frame[top:bottom, left:right]]) is a shape and a row-major list of
      pixel intensities.  Cropping, colour conversion and [cv2.resize] belong
      to OpenCV; the crop is an input and [resize] is a parameter.
    - Python floats are the rationals they denote, a float literal being
      the double nearest to the decimal written; integer counts are [Z].
    - A Python [str] is the bytes of its UTF-8 encoding.
    - The ledger file is the sequence of its records, each the sequence of
      its fields, as the csv layer reads and writes them.
    - Mutable objects are passed and returned explicitly; what the
      environment decides (the clock, whether a read or a write goes
      through) is an input of the call. *)

From Stdlib Require Import ZArith QArith Qabs List String Ascii Bool Lia.
From stdpp Require Import gmap strings list.
Import ListNotations.

Local Open Scope Z_scope.

(** ** config.py *)

Record LivenessConfig := {
  motion_history_size : Z;
  liveness_threshold : Z;
  min_face_presence : Z;
  motion_pixel_threshold : Z
}.

Record RecognitionConfig := {
  recognition_threshold : Q;
  confidence_threshold : Q;
  duplicate_detection_window : Z
}.

Definition default_LivenessConfig : LivenessConfig :=
  {| motion_history_size := 10;
     liveness_threshold := 15;
     min_face_presence := 5;
     motion_pixel_threshold := 10 |}.

(** The floats written [0.6], [0.55] and [0.15] in the sources: the doubles
    nearest to these decimals, as the rationals they are. *)
Definition double_0_6 : Q := 5404319552844595 # 9007199254740992.
Definition double_0_55 : Q := 2476979795053773 # 4503599627370496.
Definition double_0_15 : Q := 5404319552844595 # 36028797018963968.

Definition default_RecognitionConfig : RecognitionConfig :=
  {| recognition_threshold := double_0_6;
     confidence_threshold := double_0_55;
     duplicate_detection_window := 5 |}.

Record SystemConfig := {
  liveness : LivenessConfig;
  recognition : RecognitionConfig
}.

Definition DEFAULT_CONFIG : SystemConfig :=
  {| liveness := default_LivenessConfig;
     recognition := default_RecognitionConfig |}.

(** Strict comparison of rationals as a boolean ([a < b] on floats). *)
Definition Qltb (a b : Q) : bool := negb (Qle_bool b a).

(** ** Grayscale patches *)

Record Gray := {
  shape : nat * nat;      (* (rows, columns), as numpy's [.shape] *)
  pixels : list Z         (* row-major intensities, 0..255 *)
}.

(** numpy's [.size]: the number of elements. *)
Definition size (g : Gray) : nat := (fst (shape g) * snd (shape g))%nat.

Definition shape_eqb (a b : nat * nat) : bool :=
  Nat.eqb (fst a) (fst b) && Nat.eqb (snd a) (snd b).

(** [cv2.absdiff] on two 8-bit images: the pointwise absolute difference. *)
Fixpoint absdiff (a b : list Z) : list Z :=
  match a, b with
  | x :: a', y :: b' => Z.abs (x - y) :: absdiff a' b'
  | _, _ => []
  end.

(** [np.sum(diff > threshold)]: how many entries exceed the threshold. *)
Fixpoint count_above (threshold : Z) (diff : list Z) : Z :=
  match diff with
  | [] => 0
  | d :: diff' => (if threshold <? d then 1 else 0) + count_above threshold diff'
  end.

Definition empty_gray : Gray := {| shape := (0%nat, 0%nat); pixels := [] |}.

Module Liveness.

Record LivenessDetector := {
  motion_history : list Gray;
  face_presence_count : Z;
  is_alive : bool
}.

(** [LivenessDetector.__init__] *)
Definition init : LivenessDetector :=
  {| motion_history := []; face_presence_count := 0; is_alive := false |}.

(** [LivenessDetector.reset] *)
Definition reset (self : LivenessDetector) : LivenessDetector :=
  {| motion_history := []; face_presence_count := 0; is_alive := false |}.

Section Detector.

(** [cv2.resize src (width, height)], an OpenCV primitive. *)
Variable resize : Gray -> nat * nat -> Gray.
Variable config : LivenessConfig.

(** Motion between two stored frames, the body of the loop of
    [_calculate_total_motion]: the current frame is resized to the previous
    one's shape when the shapes differ. *)
Definition frame_motion (prev_frame curr_frame : Gray) : Z :=
  let curr_frame :=
    if negb (shape_eqb (shape prev_frame) (shape curr_frame))
    then resize curr_frame (snd (shape prev_frame), fst (shape prev_frame))
    else curr_frame in
  let frame_diff := absdiff (pixels prev_frame) (pixels curr_frame) in
  count_above (motion_pixel_threshold config) frame_diff.

(** [LivenessDetector._calculate_total_motion]:
    [for i in range(1, len(self.motion_history))], with the loop body as a
    function of the running total and the index. *)
Definition loop_body (history : list Gray) (total_motion : Z) (i : nat) : Z :=
  let prev_frame := nth (i - 1)%nat history empty_gray in
  let curr_frame := nth i history empty_gray in
  total_motion + frame_motion prev_frame curr_frame.

Definition _calculate_total_motion (history : list Gray) : Z :=
  fold_left (loop_body history) (seq 1 (length history - 1)) 0.

(** [avg_motion = total_motion / (len(self.motion_history) - 1)] *)
Definition avg_motion (history : list Gray) : Q :=
  (inject_Z (_calculate_total_motion history)
   / inject_Z (Z.of_nat (length history - 1)))%Q.

(** [LivenessDetector.detect_motion].  The argument is [None] when
    [face_location is None], and otherwise the grayscale crop of the face
    region.  The result is the returned verdict and the updated detector. *)
Definition detect_motion (self : LivenessDetector) (face : option Gray)
  : bool * LivenessDetector :=
  match face with
  | None =>
      (false,
       {| motion_history := [];
          face_presence_count := 0;
          is_alive := is_alive self |})
  | Some gray =>
      let count := face_presence_count self + 1 in
      if Nat.eqb (size gray) 0 then
        (false,
         {| motion_history := motion_history self;
            face_presence_count := count;
            is_alive := is_alive self |})
      else if Nat.eqb (length (motion_history self)) 0 then
        (false,
         {| motion_history := motion_history self ++ [gray];
            face_presence_count := count;
            is_alive := is_alive self |})
      else
        let prev_gray := List.last (motion_history self) empty_gray in
        let prev_gray :=
          if negb (shape_eqb (shape prev_gray) (shape gray))
          then resize prev_gray (snd (shape gray), fst (shape gray))
          else prev_gray in
        let diff := absdiff (pixels prev_gray) (pixels gray) in
        let motion_pixels := count_above (motion_pixel_threshold config) diff in
        let history := motion_history self ++ [gray] in
        let history :=
          if Z.of_nat (length history) >? motion_history_size config
          then tl history else history in
        let alive :=
          if (3 <=? length history)%nat
          then Qltb (inject_Z (liveness_threshold config)) (avg_motion history)
          else is_alive self in
        (alive,
         {| motion_history := history;
            face_presence_count := count;
            is_alive := alive |})
  end.

(** The window is within the configured capacity. *)
Definition window_ok (self : LivenessDetector) : Prop :=
  0 <= Z.of_nat (length (motion_history self)) <= motion_history_size config.

(** Feeding a sequence of frames; the verdicts are collected in order. *)
Fixpoint run (self : LivenessDetector) (frames : list (option Gray))
  : list bool * LivenessDetector :=
  match frames with
  | [] => ([], self)
  | f :: frames' =>
      let '(v, self') := detect_motion self f in
      let '(vs, self'') := run self' frames' in
      (v :: vs, self'')
  end.

End Detector.
End Liveness.

(** ** The reading of the liveness rule in the specification

    The average motion of a window is the sum, over every adjacent pair of
    patches, of the number of pixels whose absolute difference exceeds the
    pixel threshold, divided by the window length minus one; the subject is
    alive when that average exceeds the liveness threshold. *)
Module LivenessSpec.
Section Spec.

Variable resize : Gray -> nat * nat -> Gray.
Variable config : LivenessConfig.

(** Both patches brought to a common shape (that of the earlier one). *)
Definition common_shape (earlier later : Gray) : list (Z * Z) :=
  let later' :=
    if shape_eqb (shape earlier) (shape later) then later
    else resize later (snd (shape earlier), fst (shape earlier)) in
  combine (pixels earlier) (pixels later').

Definition exceeds (pq : Z * Z) : bool :=
  motion_pixel_threshold config <? Z.abs (fst pq - snd pq).

Definition pair_motion (earlier later : Gray) : Z :=
  Z.of_nat (length (List.filter exceeds (common_shape earlier later))).

Fixpoint adjacent_motion (window : list Gray) : Z :=
  match window with
  | p :: ((q :: _) as rest) => pair_motion p q + adjacent_motion rest
  | _ => 0
  end.

Definition average_motion (window : list Gray) : Q :=
  (inject_Z (adjacent_motion window)
   / inject_Z (Z.of_nat (length window) - 1))%Q.

Definition verdict (window : list Gray) : bool :=
  Qltb (inject_Z (liveness_threshold config)) (average_motion window).

End Spec.
End LivenessSpec.

(** ** Python's [datetime] *)

Record datetime := {
  year : Z; month : Z; day : Z;
  hour : Z; minute : Z; second : Z; microsecond : Z
}.

Definition digit (n : Z) : ascii := ascii_of_nat (48 + Z.to_nat (n mod 10)).

Definition pad2 (n : Z) : string :=
  String (digit (n / 10)) (String (digit n) EmptyString).

Definition pad4 (n : Z) : string :=
  String (digit (n / 1000)) (String (digit (n / 100)) (pad2 n)).

(** [now.strftime("%Y-%m-%d")] *)
Definition strftime_date (d : datetime) : string :=
  pad4 (year d) +:+ "-" +:+ pad2 (month d) +:+ "-" +:+ pad2 (day d).

(** [now.strftime("%H:%M:%S")] *)
Definition strftime_time (d : datetime) : string :=
  pad2 (hour d) +:+ ":" +:+ pad2 (minute d) +:+ ":" +:+ pad2 (second d).

Definition is_leap (y : Z) : bool :=
  (y mod 4 =? 0) && (negb (y mod 100 =? 0) || (y mod 400 =? 0)).

Definition days_before_year (y : Z) : Z :=
  let y := y - 1 in y * 365 + y / 4 - y / 100 + y / 400.

Definition days_before_month (y m : Z) : Z :=
  nth (Z.to_nat m) [-1; 0; 31; 59; 90; 120; 151; 181; 212; 243; 273; 304; 334] 0
  + (if (2 <? m) && is_leap y then 1 else 0).

(** [datetime.toordinal] *)
Definition toordinal (d : datetime) : Z :=
  days_before_year (year d) + days_before_month (year d) (month d) + day d.

(** Microseconds since the start of day 0 of the proleptic calendar. *)
Definition to_microseconds (d : datetime) : Z :=
  ((toordinal d * 86400 + hour d * 3600 + minute d * 60 + second d) * 1000000)
  + microsecond d.

(** [(a - b).total_seconds()] *)
Definition total_seconds (a b : datetime) : Q :=
  Qmake (to_microseconds a - to_microseconds b) 1000000.

(** ** Python's [str.strip]

    A Python [str] is rendered by the bytes of its UTF-8 encoding, which is
    also how a string literal is read here.  The characters removed are
    those for which [str.isspace] holds: tab to carriage return, the four
    separators 28 to 31 and the space, each one byte; U+0085 and U+00A0, two
    bytes each; U+1680, U+2000 to U+200A, U+2028, U+2029, U+202F, U+205F and
    U+3000, three bytes each. *)

Definition is_space (c : ascii) : bool :=
  let n := nat_of_ascii c in
  ((9 <=? n) && (n <=? 13) || (28 <=? n) && (n <=? 32))%nat.

(** The two-byte white space, given its bytes in reading order. *)
Definition is_space2 (c1 c2 : ascii) : bool :=
  let n1 := nat_of_ascii c1 in
  let n2 := nat_of_ascii c2 in
  ((n1 =? 194) && ((n2 =? 133) || (n2 =? 160)))%nat.

(** The three-byte white space, given its bytes in reading order. *)
Definition is_space3 (c1 c2 c3 : ascii) : bool :=
  let n1 := nat_of_ascii c1 in
  let n2 := nat_of_ascii c2 in
  let n3 := nat_of_ascii c3 in
  ((n1 =? 225) && (n2 =? 154) && (n3 =? 128)
   || (n1 =? 226) && (n2 =? 128)
      && ((128 <=? n3) && (n3 <=? 138)
          || (n3 =? 168) || (n3 =? 169) || (n3 =? 175))
   || (n1 =? 226) && (n2 =? 129) && (n3 =? 159)
   || (n1 =? 227) && (n2 =? 128) && (n3 =? 128))%nat.

(** White space is dropped from the head of the list.  With [forwards] the
    list is the text; without, it is the text reversed, and the bytes of a
    character come last byte first. *)
Fixpoint drop_spaces (forwards : bool) (l : list ascii) : list ascii :=
  match l with
  | [] => []
  | c1 :: l1 =>
      if is_space c1 then drop_spaces forwards l1
      else
        match l1 with
        | [] => l
        | c2 :: l2 =>
            if (if forwards then is_space2 c1 c2 else is_space2 c2 c1)
            then drop_spaces forwards l2
            else
              match l2 with
              | [] => l
              | c3 :: l3 =>
                  if (if forwards then is_space3 c1 c2 c3
                      else is_space3 c3 c2 c1)
                  then drop_spaces forwards l3
                  else l
              end
        end
  end.

Definition lstrip (l : list ascii) : list ascii := drop_spaces true l.

Definition strip (s : string) : string :=
  string_of_list_ascii
    (rev (drop_spaces false (rev (lstrip (list_ascii_of_string s))))).

(** ** The attendance table

    A row has the six columns of the ledger file.  The file is taken as the
    csv layer presents it: a sequence of records, each a sequence of fields,
    every field a string.  In a DataFrame read with [dtype=str] a field is a
    string too, unless it is spelled as a missing value: it is then NaN. *)

Record Row (A : Type) := {
  Name : A; Date : A; Punch_In : A; Punch_Out : A;
  Confidence : A; Liveness_Check : A
}.
Arguments Name {A} _.
Arguments Date {A} _.
Arguments Punch_In {A} _.
Arguments Punch_Out {A} _.
Arguments Confidence {A} _.
Arguments Liveness_Check {A} _.

(** A cell of the DataFrame. *)
Inductive cell := NaN | Str (s : string).

(** The spellings that [pd.read_csv] reads as a missing value when it is
    called, as here, with its default [na_values] and [keep_default_na]:
    [STR_NA_VALUES] of pandas 2. *)
Definition STR_NA_VALUES : list string :=
  [ ""; "#N/A"; "#N/A N/A"; "#NA"; "-1.#IND"; "-1.#QNAN"; "-NaN"; "-nan";
    "1.#IND"; "1.#QNAN"; "<NA>"; "N/A"; "NA"; "NULL"; "NaN"; "None"; "n/a";
    "nan"; "null" ]%string.

Definition is_na (s : string) : bool := existsb (String.eqb s) STR_NA_VALUES.

Definition map_row {A B : Type} (f : A -> B) (r : Row A) : Row B :=
  {| Name := f (Name r); Date := f (Date r);
     Punch_In := f (Punch_In r); Punch_Out := f (Punch_Out r);
     Confidence := f (Confidence r); Liveness_Check := f (Liveness_Check r) |}.

Definition parse_cell (s : string) : cell :=
  if is_na s then NaN else Str s.

(** A cell as [to_csv] writes it: NaN is the empty field ([na_rep=""]). *)
Definition render_cell (c : cell) : string :=
  match c with NaN => "" | Str s => s end.

(** Python's [str(x)] of a cell. *)
Definition str (c : cell) : string :=
  match c with NaN => "nan" | Str s => s end.

(** [df["Col"] == value]: NaN equals nothing. *)
Definition cell_eqb (c : cell) (v : string) : bool :=
  match c with NaN => false | Str s => String.eqb s v end.

Abbreviation DataFrame := (list (Row cell)).
Abbreviation CsvFile := (list (Row string)).

(** What becomes of a write of the ledger file.  [to_csv] opens the file
    for writing, which empties it, and then writes the table: the call goes
    through, or it raises before the file is opened, or it raises after,
    and the file is left with what had reached it by then. *)
Inductive WriteOutcome :=
  | Written
  | NotOpened
  | Torn (remains : CsvFile).

(** The outcome of the environment at one call of [mark_attendance]: the
    three readings of [datetime.now()] in program order, whether the read
    of the ledger file goes through, and what becomes of the write. *)
Record CallEnv := {
  now_entry : datetime;     (* now = datetime.now() *)
  now_check : datetime;     (* datetime.now() - self.last_marked[key] *)
  now_stamp : datetime;     (* self.last_marked[key] = datetime.now() *)
  read_ok : bool;
  write : WriteOutcome
}.

Definition write_ok (env : CallEnv) : bool :=
  match write env with Written => true | _ => false end.

(** [pd.read_csv(file, dtype=str)]; [None] when it raises. *)
Definition read_csv (file : CsvFile) (env : CallEnv) : option DataFrame :=
  if read_ok env then Some (map (map_row parse_cell) file) else None.

(** [df.to_csv(file, index=False)]: whether it returned, and the file it
    leaves. *)
Definition to_csv (file : CsvFile) (env : CallEnv) (df : DataFrame)
  : bool * CsvFile :=
  match write env with
  | Written => (true, map (map_row render_cell) df)
  | NotOpened => (false, file)
  | Torn remains => (false, remains)
  end.

(** The file that [to_csv] writes for the table just read from it: a field
    spelled as a missing value comes back empty. *)
Definition resave (file : CsvFile) : CsvFile :=
  map (map_row (fun s => render_cell (parse_cell s))) file.

Inductive Status :=
  PUNCH_IN | PUNCH_OUT | DUPLICATE | ALREADY_MARKED | REJECTED_SPOOF | ERROR.

Definition status_str (s : Status) : string :=
  match s with
  | PUNCH_IN => "PUNCH_IN" | PUNCH_OUT => "PUNCH_OUT"
  | DUPLICATE => "DUPLICATE" | ALREADY_MARKED => "ALREADY_MARKED"
  | REJECTED_SPOOF => "REJECTED_SPOOF" | ERROR => "ERROR"
  end.

(** ** numpy's [min] and [argmin] on a non-empty vector of distances *)

(** A left-to-right scan that keeps the best value seen so far and replaces
    it only by a strictly smaller one, so the first minimum is kept. *)
Fixpoint scan_min (best : Q) (best_index next_index : nat) (rest : list Q)
  : nat * Q :=
  match rest with
  | [] => (best_index, best)
  | d :: rest' =>
      if Qltb d best
      then scan_min d next_index (S next_index) rest'
      else scan_min best best_index (S next_index) rest'
  end.

Definition np_argmin (distances : list Q) : nat :=
  match distances with
  | [] => 0%nat
  | d :: rest => fst (scan_min d 0%nat 1%nat rest)
  end.

Definition np_min (distances : list Q) : Q :=
  match distances with
  | [] => 0%Q
  | d :: rest => snd (scan_min d 0%nat 1%nat rest)
  end.

(** ** recognize_v2.py: [RecognitionResult] and [AttendanceSystem] *)

Definition Embedding := list Q.

Module RecognitionResult.
Record t := {
  name : option string;
  distance : Q;
  is_alive : bool;
  confidence : Q
}.
End RecognitionResult.

Module Attendance.

Record AttendanceSystem := {
  config : SystemConfig;
  known_encodings : list Embedding;
  known_names : list string;
  liveness_detector : Liveness.LivenessDetector;
  last_marked : gmap string datetime
}.

Definition set_liveness_detector (self : AttendanceSystem)
  (d : Liveness.LivenessDetector) : AttendanceSystem :=
  {| config := config self;
     known_encodings := known_encodings self;
     known_names := known_names self;
     liveness_detector := d;
     last_marked := last_marked self |}.

Definition set_last_marked (self : AttendanceSystem)
  (m : gmap string datetime) : AttendanceSystem :=
  {| config := config self;
     known_encodings := known_encodings self;
     known_names := known_names self;
     liveness_detector := liveness_detector self;
     last_marked := m |}.

(** [AttendanceSystem.load_known_faces]: one entry per encoding file, in
    directory order; a file that fails to load ([None]) is skipped. *)
Fixpoint load_known_faces (self : AttendanceSystem)
  (files : list (string * option Embedding)) : AttendanceSystem :=
  match files with
  | [] => self
  | (stem, Some encoding) :: files' =>
      load_known_faces
        {| config := config self;
           known_encodings := known_encodings self ++ [encoding];
           known_names := known_names self ++ [stem];
           liveness_detector := liveness_detector self;
           last_marked := last_marked self |}
        files'
  | (_, None) :: files' => load_known_faces self files'
  end.

(** [AttendanceSystem.__init__] followed by [load_known_faces]. *)
Definition init (cfg : SystemConfig) (files : list (string * option Embedding))
  : AttendanceSystem :=
  load_known_faces
    {| config := cfg; known_encodings := []; known_names := [];
       liveness_detector := Liveness.init; last_marked := ∅ |}
    files.

(** What the face-recognition library reports for one frame: the located
    faces (each given by the grayscale crop of its box) and the encodings
    extracted for them. *)
Record Scene := {
  faces : list Gray;
  face_encodings : list Embedding
}.

Section Recognition.

Variable resize : Gray -> nat * nat -> Gray.
(** The metric of [face_recognition.face_distance], for one known encoding. *)
Variable face_distance : Embedding -> Embedding -> Q.
(** Subtraction of floats, [1.0 - min_distance]. *)
Variable float_sub : Q -> Q -> Q.

(** [AttendanceSystem.recognize_face] *)
Definition recognize_face (self : AttendanceSystem) (scene : Scene)
  : RecognitionResult.t * AttendanceSystem :=
  match faces scene with
  | [] => (RecognitionResult.Build_t None 1 false 0, self)
  | _ :: _ :: _ =>
      (RecognitionResult.Build_t (Some "MULTIPLE_FACES") 1 false 0, self)
  | [face_location] =>
      let '(is_alive, detector) :=
        Liveness.detect_motion resize (liveness (config self))
          (liveness_detector self) (Some face_location) in
      let self := set_liveness_detector self detector in
      match face_encodings scene with
      | [] => (RecognitionResult.Build_t None 1 is_alive 0, self)
      | face_encoding :: _ =>
          match known_encodings self with
          | [] => (RecognitionResult.Build_t (Some "UNKNOWN") 1 is_alive 0, self)
          | _ :: _ =>
              let distances :=
                map (fun known => face_distance known face_encoding)
                    (known_encodings self) in
              let min_distance := np_min distances in
              let min_index := np_argmin distances in
              let confidence := float_sub 1 min_distance in
              if Qltb min_distance (recognition_threshold (recognition (config self)))
                 && Qltb (confidence_threshold (recognition (config self))) confidence
              then
                match nth_error (known_names self) min_index with
                | Some name =>
                    (RecognitionResult.Build_t (Some name) min_distance
                       is_alive confidence, self)
                | None =>
                    (* IndexError, caught by [except Exception] *)
                    (RecognitionResult.Build_t None 1 false 0, self)
                end
              else
                (RecognitionResult.Build_t (Some "UNKNOWN") min_distance
                   is_alive confidence, self)
          end
      end
  end.

End Recognition.

(** The mask [(df["Name"] == name) & (df["Date"] == date)] on one row. *)
Definition selects (name date : string) (r : Row cell) : bool :=
  cell_eqb (Name r) name && cell_eqb (Date r) date.

(** The rows selected by the mask: the position and the content of the
    first of them, as [record.index[0]] and [record.iloc[0]]. *)
Fixpoint find_record_from (i : nat) (df : DataFrame) (name date : string)
  : option (nat * Row cell) :=
  match df with
  | [] => None
  | r :: df' =>
      if selects name date r
      then Some (i, r)
      else find_record_from (S i) df' name date
  end.

Definition find_record (df : DataFrame) (name date : string)
  : option (nat * Row cell) :=
  find_record_from 0 df name date.

(** The record appended on a punch-in. *)
Definition new_record (name date time_str : string) : Row cell :=
  {| Name := Str name; Date := Str date;
     Punch_In := Str time_str; Punch_Out := Str "";
     Confidence := Str "HIGH"; Liveness_Check := Str "VERIFIED" |}.

(** [df.loc[i, "Punch_Out"] = time_str; df.loc[i, "Liveness_Check"] = "VERIFIED"] *)
Definition punch_out_row {A : Type} (time_str verified : A) (r : Row A) : Row A :=
  {| Name := Name r; Date := Date r;
     Punch_In := Punch_In r; Punch_Out := time_str;
     Confidence := Confidence r; Liveness_Check := verified |}.

(** [punch_out_val == "" or punch_out_val == "nan"] after
    [str(...).strip()]. *)
Definition punch_out_blank (c : cell) : bool :=
  let punch_out_val := strip (str c) in
  String.eqb punch_out_val "" || String.eqb punch_out_val "nan".

(** [f"{name}_{date}"] *)
Definition key_of (name date : string) : string := name +:+ "_" +:+ date.

(** [AttendanceSystem.mark_attendance].  The ledger file is passed in and
    returned.  When a library call raises, the system and the file are the
    ones reached at that point and the status is [ERROR]. *)
Definition mark_attendance (self : AttendanceSystem) (file : CsvFile)
  (env : CallEnv) (name : string) (is_alive : bool)
  : Status * AttendanceSystem * CsvFile :=
  if negb is_alive then (REJECTED_SPOOF, self, file)
  else
    let now := now_entry env in
    let date := strftime_date now in
    let time_str := strftime_time now in
    match read_csv file env with
    | None => (ERROR, self, file)
    | Some df =>
        match find_record df name date with
        | None =>
            let key := key_of name date in
            let duplicate :=
              match last_marked self !! key with
              | Some last =>
                  let time_diff := total_seconds (now_check env) last in
                  Qltb time_diff
                    (inject_Z (duplicate_detection_window
                                 (recognition (config self))))
              | None => false
              end in
            if duplicate then (DUPLICATE, self, file)
            else
              let df := df ++ [new_record name date time_str] in
              let self :=
                set_last_marked self (<[key := now_stamp env]> (last_marked self)) in
              let '(written, file') := to_csv file env df in
              (if written then PUNCH_IN else ERROR, self, file')
        | Some (index, record) =>
            if punch_out_blank (Punch_Out record) then
              let df :=
                alter (punch_out_row (Str time_str) (Str "VERIFIED")) index df in
              let key := key_of name date in
              let self := set_last_marked self (delete key (last_marked self)) in
              let '(written, file') := to_csv file env df in
              (if written then PUNCH_OUT else ERROR, self, file')
            else (ALREADY_MARKED, self, file)
        end
    end.

(** A session: successive calls of [mark_attendance], each in its own
    environment, the system and the file being handed on. *)
Fixpoint mark_all (self : AttendanceSystem) (file : CsvFile)
  (calls : list (CallEnv * string * bool))
  : list Status * AttendanceSystem * CsvFile :=
  match calls with
  | [] => ([], self, file)
  | (env, name, is_alive) :: calls' =>
      let '(status, self', file') :=
        mark_attendance self file env name is_alive in
      let '(statuses, self'', file'') := mark_all self' file' calls' in
      (status :: statuses, self'', file'')
  end.

(** The handler of key 'a' in [main]: attendance is attempted only for a
    recognized, live subject.  [None] is the branch that reports that
    attendance cannot be marked. *)
Definition on_key_a (self : AttendanceSystem) (file : CsvFile) (env : CallEnv)
  (result : RecognitionResult.t)
  : option Status * AttendanceSystem * CsvFile :=
  match RecognitionResult.name result with
  | Some name =>
      if negb (String.eqb name "")
         && negb (String.eqb name "UNKNOWN" || String.eqb name "MULTIPLE_FACES")
         && RecognitionResult.is_alive result
      then
        let '(status, self', file') :=
          mark_attendance self file env name (RecognitionResult.is_alive result) in
        (Some status, self', file')
      else (None, self, file)
  | None => (None, self, file)
  end.

End Attendance.

(** ** recognize.py: the first version of the same two classes

    It reads its thresholds from module-level constants and has neither the
    guard on an empty face region nor the [try] around the body of
    [mark_attendance]: an exception raised by a library call leaves the
    method, which is rendered by the result [None]. *)

Module V1.

Definition RECOGNITION_THRESHOLD : Q := double_0_6.
Definition CONFIDENCE_THRESHOLD : Q := double_0_55.
Definition LIVENESS_THRESHOLD : Z := 15.
Definition MOTION_HISTORY_SIZE : Z := 10.
Definition MIN_FACE_PRESENCE : Z := 5.

Section Detector.

Variable resize : Gray -> nat * nat -> Gray.
(** [LivenessDetector.__init__(history_size=MOTION_HISTORY_SIZE)] *)
Variable history_size : Z.

(** The body of the loop [for i in range(1, len(self.motion_history))]. *)
Definition loop_body (history : list Gray) (total_motion : Z) (i : nat) : Z :=
  let prev_frame := nth (i - 1)%nat history empty_gray in
  let curr_frame := nth i history empty_gray in
  let curr_frame :=
    if negb (shape_eqb (shape prev_frame) (shape curr_frame))
    then resize curr_frame (snd (shape prev_frame), fst (shape prev_frame))
    else curr_frame in
  let frame_diff := absdiff (pixels prev_frame) (pixels curr_frame) in
  total_motion + count_above 10 frame_diff.

(** [LivenessDetector.detect_motion].  [cv2.cvtColor] is applied to the
    face region on every path that has a face location, and raises on an
    empty image. *)
Definition detect_motion (self : Liveness.LivenessDetector)
  (face : option Gray) : option (bool * Liveness.LivenessDetector) :=
  match face with
  | None =>
      Some (false,
            {| Liveness.motion_history := [];
               Liveness.face_presence_count := 0;
               Liveness.is_alive := Liveness.is_alive self |})
  | Some gray =>
      let count := Liveness.face_presence_count self + 1 in
      if Nat.eqb (size gray) 0 then None
      else if Nat.eqb (length (Liveness.motion_history self)) 0 then
        Some (false,
              {| Liveness.motion_history := Liveness.motion_history self ++ [gray];
                 Liveness.face_presence_count := count;
                 Liveness.is_alive := Liveness.is_alive self |})
      else
        let prev_gray := List.last (Liveness.motion_history self) empty_gray in
        let prev_gray :=
          if negb (shape_eqb (shape prev_gray) (shape gray))
          then resize prev_gray (snd (shape gray), fst (shape gray))
          else prev_gray in
        let diff := absdiff (pixels prev_gray) (pixels gray) in
        let motion_pixels := count_above 10 diff in
        let history := Liveness.motion_history self ++ [gray] in
        let history :=
          if Z.of_nat (length history) >? history_size
          then tl history else history in
        let alive :=
          if (3 <=? length history)%nat then
            let total_motion :=
              fold_left (loop_body history) (seq 1 (length history - 1)) 0 in
            let avg_motion :=
              (inject_Z total_motion
               / inject_Z (Z.of_nat (length history - 1)))%Q in
            Qltb (inject_Z LIVENESS_THRESHOLD) avg_motion
          else Liveness.is_alive self in
        Some (alive,
              {| Liveness.motion_history := history;
                 Liveness.face_presence_count := count;
                 Liveness.is_alive := alive |})
  end.

End Detector.

(** [AttendanceSystem.mark_attendance] *)
Definition mark_attendance (self : Attendance.AttendanceSystem)
  (file : CsvFile) (env : CallEnv) (name : string) (is_alive : bool)
  : option (Status * Attendance.AttendanceSystem * CsvFile) :=
  if negb is_alive then Some (REJECTED_SPOOF, self, file)
  else
    let now := now_entry env in
    let date := strftime_date now in
    let time_str := strftime_time now in
    match read_csv file env with
    | None => None
    | Some df =>
        match Attendance.find_record df name date with
        | None =>
            let key := Attendance.key_of name date in
            let duplicate :=
              match Attendance.last_marked self !! key with
              | Some last =>
                  let time_diff := total_seconds (now_check env) last in
                  Qltb time_diff 5
              | None => false
              end in
            if duplicate then Some (DUPLICATE, self, file)
            else
              let df :=
                df ++ [ {| Name := Str name; Date := Str date;
                           Punch_In := Str time_str; Punch_Out := Str "";
                           Confidence := Str "HIGH";
                           Liveness_Check := Str "VERIFIED" |} ] in
              let self :=
                Attendance.set_last_marked self
                  (<[key := now_stamp env]> (Attendance.last_marked self)) in
              let '(written, file') := to_csv file env df in
              if written then Some (PUNCH_IN, self, file') else None
        | Some (index, record) =>
            if Attendance.punch_out_blank (Punch_Out record) then
              let df :=
                alter (Attendance.punch_out_row (Str time_str) (Str "VERIFIED"))
                  index df in
              let key := Attendance.key_of name date in
              let self :=
                Attendance.set_last_marked self
                  (delete key (Attendance.last_marked self)) in
              let '(written, file') := to_csv file env df in
              if written then Some (PUNCH_OUT, self, file') else None
            else Some (ALREADY_MARKED, self, file)
        end
    end.

End V1.

(** ** The state of one (name, date) key, as [mark_attendance] sees it *)

Inductive LedgerState := NoRecord | PunchedIn | PunchedOut.

(** The state is read off the first row that [read_csv] yields for the
    key. *)
Definition ledger_state (file : CsvFile) (name date : string) : LedgerState :=
  match Attendance.find_record (map (map_row parse_cell) file) name date with
  | None => NoRecord
  | Some (_, record) =>
      if Attendance.punch_out_blank (Punch_Out record)
      then PunchedIn else PunchedOut
  end.

(** The debounce window has lapsed: no punch-in is remembered for the key,
    or the remembered one is at least [duplicate_detection_window] seconds
    old at the time of the check. *)
Definition debounce_lapsed (self : Attendance.AttendanceSystem) (env : CallEnv)
  (name date : string) : Prop :=
  match Attendance.last_marked self !! (name +:+ "_" +:+ date) with
  | Some last =>
      (inject_Z (duplicate_detection_window
                   (recognition (Attendance.config self)))
       <= total_seconds (now_check env) last)%Q
  | None => True
  end.

(** The row that a punch-in adds to the file. *)
Definition punch_in_row (name date time_str : string) : Row string :=
  {| Name := name; Date := date;
     Punch_In := time_str; Punch_Out := "";
     Confidence := "HIGH"; Liveness_Check := "VERIFIED" |}.

(** ** Sample data

    A nearest-neighbour resampling as a stand-in for [cv2.resize], and two
    uniform 4x4 patches. *)

Definition resize_nearest (src : Gray) (width_height : nat * nat) : Gray :=
  let '(w, h) := width_height in
  let '(sh, sw) := shape src in
  {| shape := (h, w);
     pixels :=
       flat_map
         (fun i =>
            map (fun j => nth ((i * sh / h) * sw + j * sw / w)%nat (pixels src) 0)
                (seq 0 w))
         (seq 0 h) |}.

Definition uniform (rows cols : nat) (v : Z) : Gray :=
  {| shape := (rows, cols); pixels := repeat v (rows * cols) |}.

Definition dark : Gray := uniform 4 4 0.
Definition bright : Gray := uniform 4 4 255.

(** A configuration whose window capacity is zero, the other values being
    the defaults. *)
Definition no_history_config : LivenessConfig :=
  {| motion_history_size := 0;
     liveness_threshold := 15;
     min_face_presence := 5;
     motion_pixel_threshold := 10 |}.

(** A detector that has seen a face change from dark to bright and back,
    under the default configuration. *)
Definition moving_face : Liveness.LivenessDetector :=
  snd (Liveness.run resize_nearest default_LivenessConfig Liveness.init
         [Some dark; Some bright; Some dark]).

(** A detector that has seen the same dark patch twice. *)
Definition still_face : Liveness.LivenessDetector :=
  snd (Liveness.run resize_nearest default_LivenessConfig Liveness.init
         [Some dark; Some dark]).

(** A kiosk with two enrolled identities, and the environment of a call at
    a given instant with the file readable and writable as stated. *)
Definition kiosk : Attendance.AttendanceSystem :=
  Attendance.init DEFAULT_CONFIG
    [("alice"%string, Some [0 # 1; 0 # 1]%Q);
     ("bob"%string, Some [1 # 1; 1 # 1]%Q)].

Definition nine_o_clock (seconds : Z) : datetime :=
  {| year := 2024; month := 3; day := 5;
     hour := 9; minute := 0; second := seconds; microsecond := 0 |}.

Definition call_at (t : datetime) (reads writes : bool) : CallEnv :=
  {| now_entry := t; now_check := t; now_stamp := t;
     read_ok := reads;
     write := if writes then Written else NotOpened |}.


(** A call whose write raises once the file has been opened and emptied. *)
Definition torn_call_at (t : datetime) : CallEnv :=
  {| now_entry := t; now_check := t; now_stamp := t;
     read_ok := true; write := Torn [] |}.

(** A metric on embeddings for the examples (the sum of the coordinate
    distances), and a frame showing one face whose encoding is that of the
    first enrolled identity. *)
Fixpoint manhattan (a b : Embedding) : Q :=
  match a, b with
  | x :: a', y :: b' => Qred (Qabs (x - y) + manhattan a' b')
  | _, _ => 0%Q
  end.

Definition alice_in_view : Attendance.Scene :=
  {| Attendance.faces := [dark];
     Attendance.face_encodings := [[0 # 1; 0 # 1]%Q] |}.

From Stdlib Require Import Lqa DecimalString.

(** ** Further definitions: windows of patches *)

(** The consecutive pairs of a window, oldest first. *)
Fixpoint adjacent_pairs (window : list Gray) : list (Gray * Gray) :=
  match window with
  | p :: ((q :: _) as rest) => (p, q) :: adjacent_pairs rest
  | _ => []
  end.

(** A stored positive verdict is backed by at least three patches. *)
Definition verdict_backed (self : Liveness.LivenessDetector) : Prop :=
  Liveness.is_alive self = true ->
  (3 <= length (Liveness.motion_history self))%nat.

(** ** Further definitions: config.py, validation on construction *)

(** [RecognitionConfig.__post_init__]: [None] stands for the [ValueError]
    raised when a threshold lies outside [0, 1]. *)
Definition RecognitionConfig_post_init (self : RecognitionConfig)
  : option RecognitionConfig :=
  if negb (Qle_bool 0 (recognition_threshold self)
           && Qle_bool (recognition_threshold self) 1)
  then None
  else if negb (Qle_bool 0 (confidence_threshold self)
                && Qle_bool (confidence_threshold self) 1)
  then None
  else Some self.

Record BrightnessConfig := {
  low_threshold : Z;
  medium_threshold : Z
}.

Definition default_BrightnessConfig : BrightnessConfig :=
  {| low_threshold := 85; medium_threshold := 170 |}.

(** [BrightnessConfig.__post_init__]: [None] stands for the [ValueError]
    raised when [low_threshold >= medium_threshold]. *)
Definition BrightnessConfig_post_init (self : BrightnessConfig)
  : option BrightnessConfig :=
  if low_threshold self >=? medium_threshold self then None else Some self.

(** [AttendanceSystem.get_brightness_status], on the brightness computed by
    [get_brightness_level] (the mean of the gray levels, a float) and the
    [brightness] section of the configuration. *)
Definition get_brightness_status (brightness_config : BrightnessConfig)
  (brightness : Q) : string :=
  if Qltb brightness (inject_Z (low_threshold brightness_config)) then "Low"
  else if Qltb brightness (inject_Z (medium_threshold brightness_config))
  then "Medium"
  else "High".

(** ** Further definitions: the ledger file seen as a table *)

(** The rows of the file that are read as records of a name on a date. *)
Definition rows_for (file : CsvFile) (name date : string) : list (Row string) :=
  List.filter
    (fun r => Attendance.selects name date (map_row parse_cell r)) file.

(** No name is read with two records on one date. *)
Definition one_row_per_day (file : CsvFile) : Prop :=
  forall name date : string, (length (rows_for file name date) <= 1)%nat.

(** Every debounce entry of a name that is read back as text is backed by
    a record of that name and date on file. *)
Definition debounce_backed (self : Attendance.AttendanceSystem)
  (file : CsvFile) : Prop :=
  forall (name : string) (d : datetime),
    is_na name = false ->
    is_Some (Attendance.last_marked self
               !! (name +:+ "_" +:+ strftime_date d)) ->
    ledger_state file name (strftime_date d) <> NoRecord.

(** A call made on a given date while the file can be read and written. *)
Definition same_day_call (date : string) (env : CallEnv) : Prop :=
  read_ok env = true /\ write env = Written
  /\ strftime_date (now_entry env) = date.

(** The write of the call, if it fails, fails before the file is opened. *)
Definition not_torn (env : CallEnv) : bool :=
  match write env with Torn _ => false | _ => true end.

(** How a branch that writes ends: with its own status and the new file,
    or with [ERROR] and what the failed write leaves. *)
Definition write_result (env : CallEnv) (file new : CsvFile)
  (done status : Status) (file' : CsvFile) : Prop :=
  match write env with
  | Written => status = done /\ file' = new
  | NotOpened => status = ERROR /\ file' = file
  | Torn remains => status = ERROR /\ file' = remains
  end.

(** A field once the file has been written back: as it was, or empty if it
    was a spelling of a missing value. *)
Definition kept (old new : string) : Prop :=
  new = old \/ (is_na old = true /\ new = EmptyString).

(** ** Further definitions: the loop of [main] in recognize_v2.py *)

Section MainLoop.

Variable resize : Gray -> nat * nat -> Gray.
Variable face_distance : Embedding -> Embedding -> Q.
Variable float_sub : Q -> Q -> Q.

(** One iteration of [while True] in [main], from [recognize_face] to the
    handling of [key = cv2.waitKey(1) & 0xFF]; drawing and printing are left
    out.  The components of the result are: whether the loop goes on, the
    status of the attendance call if one was made, the system and the
    file. *)
Definition main_iteration (self : Attendance.AttendanceSystem)
  (file : CsvFile) (env : CallEnv) (scene : Attendance.Scene) (key : Z)
  : bool * option Status * Attendance.AttendanceSystem * CsvFile :=
  let '(result, self) :=
    Attendance.recognize_face resize face_distance float_sub self scene in
  if key =? 97 (* ord('a') *) then
    let '(status, self', file') := Attendance.on_key_a self file env result in
    (true, status, self', file')
  else if key =? 114 (* ord('r') *) then
    (true, None,
     Attendance.set_liveness_detector self
       (Liveness.reset (Attendance.liveness_detector self)),
     file)
  else if key =? 113 (* ord('q') *) then (false, None, self, file)
  else (true, None, self, file).

End MainLoop.

(** The kiosk while it has been watching a face that moved. *)
Definition kiosk_watching : Attendance.AttendanceSystem :=
  Attendance.set_liveness_detector kiosk
    (snd (Liveness.run resize_nearest default_LivenessConfig Liveness.init
            [Some dark; Some bright])).

(** ** Further definitions: register_v2.py *)

(** Python's [str(n)] of an integer, as in an f-string. *)
Definition str_int (n : Z) : string := NilZero.string_of_int (Z.to_int n).

(** The test [response.lower() == 'y'].  The strings that lower to "y"
    are "y" and "Y": no other character has y for its lower case, and none
    lowers to nothing. *)
Definition lowers_to_y (response : string) : bool :=
  String.eqb response "y" || String.eqb response "Y".

Module Register.

Definition MIN_SAMPLES : Z := 15.
Definition MAX_SAMPLES : Z := 30.
Definition FACE_SIZE_MIN : Z := 50.
Definition DUPLICATE_THRESHOLD : Q := double_0_15.

(** The slice [l[-3:]]. *)
Definition last_three {A : Type} (l : list A) : list A :=
  drop (length l - 3) l.

(** [FaceQualityValidator.get_brightness_status], on the mean gray level of
    the frame. *)
Definition get_brightness_status (brightness_config : BrightnessConfig)
  (brightness : Q) : string :=
  if Qltb brightness (inject_Z (low_threshold brightness_config)) then "low"
  else if Qltb brightness (inject_Z (medium_threshold brightness_config))
  then "medium"
  else "high".

Section Validator.

Variable face_distance : Embedding -> Embedding -> Q.

(** [FaceQualityValidator.validate]; a face location is
    [(top, right, bottom, left)]. *)
Definition validate (face_location : Z * Z * Z * Z)
  (face_encoding : Embedding) (previous_encodings : list Embedding)
  : bool * string :=
  let '(top, right', bottom, left') := face_location in
  let face_width := right' - left' in
  let face_height := bottom - top in
  if (face_width <? FACE_SIZE_MIN) || (face_height <? FACE_SIZE_MIN) then
    (false,
     "Face too small (" +:+ str_int face_width +:+ "x"
       +:+ str_int face_height +:+ ")")
  else
    let too_similar :=
      match previous_encodings with
      | [] => false
      | _ :: _ =>
          let distances :=
            map (fun previous => face_distance previous face_encoding)
                (last_three previous_encodings) in
          (0 <? length distances)%nat
          && Qltb (np_min distances) DUPLICATE_THRESHOLD
      end in
    if too_similar then (false, "Face too similar to recent sample")
    else (true, "Quality sample accepted").

(** The state of the capture loop of [register_face]: the encodings kept
    and the statistics that the loop updates.  A key of
    [brightness_levels] is always one of the three that [__post_init__]
    puts there. *)
Record Registration := {
  encodings : list Embedding;
  quality_samples : Z;
  brightness_levels : gmap string Z
}.

Definition start : Registration :=
  {| encodings := [];
     quality_samples := 0;
     brightness_levels :=
       <["low"%string := 0]> (<["medium"%string := 0]>
         (<["high"%string := 0]> ∅)) |}.

(** What one pass of the loop sees: whether the camera delivered a frame,
    the faces located in it, the encodings extracted for them, the mean
    gray level of the frame and the key pressed. *)
Record Capture := {
  ret : bool;
  capture_faces : list (Z * Z * Z * Z);
  capture_encodings : list Embedding;
  capture_brightness : Q;
  capture_key : Z
}.

Variable brightness_config : BrightnessConfig.

(** One pass of [while True]; the first component tells whether the loop
    goes on. *)
Definition capture_step (st : Registration) (c : Capture)
  : bool * Registration :=
  if negb (ret c) then (false, st)
  else if capture_key c =? 115 (* ord('s') *) then
    match capture_faces c with
    | [face] =>
        if quality_samples st >=? MAX_SAMPLES then (false, st)
        else
          match capture_encodings c with
          | [] => (true, st)  (* IndexError, caught *)
          | face_encoding :: _ =>
              let '(is_valid, message) :=
                validate face face_encoding (encodings st) in
              if is_valid then
                let brightness_status :=
                  get_brightness_status brightness_config
                    (capture_brightness c) in
                (true,
                 {| encodings := encodings st ++ [face_encoding];
                    quality_samples := quality_samples st + 1;
                    brightness_levels :=
                      alter (fun n => n + 1) brightness_status
                        (brightness_levels st) |})
              else (true, st)
          end
    | _ => (true, st)
    end
  else if capture_key c =? 113 (* ord('q') *) then (false, st)
  else (true, st).

(** The loop over the frames that the camera delivers; it also ends when
    the frames run out, as it does when a read fails. *)
Fixpoint capture_loop (st : Registration) (frames : list Capture)
  : Registration :=
  match frames with
  | [] => st
  | c :: frames' =>
      let '(go_on, st') := capture_step st c in
      if go_on then capture_loop st' frames' else st'
  end.

(** [np.mean(encodings, axis=0)], a numpy primitive. *)
Variable np_mean : list Embedding -> Embedding.

(** What becomes of the block that averages the encodings, saves the
    result and reports: it runs through; it raises before the file is
    opened for writing; it raises while the file, emptied on opening, is
    written; or it raises after the file is written, in the report. *)
Inductive SaveOutcome := Saved | NotSaved | SavedTorn | SavedThenRaised.

(** [register_face].  The directory of encodings maps a file name to what
    [np.load] makes of the file: a vector, or [None] when it does not load.
    The inputs are the name typed, the answer to the question asked when
    the name is already registered, whether the camera opens, the frames,
    and what becomes of the saving. *)
Definition register_face (directory : gmap string (option Embedding))
  (typed_name response : string) (camera_opens : bool)
  (frames : list Capture) (save : SaveOutcome)
  : bool * gmap string (option Embedding) :=
  let user_name := strip typed_name in
  if String.eqb user_name "" then (false, directory)
  else
    let encoding_file := user_name +:+ ".npy" in
    if match directory !! encoding_file with
       | Some _ => negb (lowers_to_y response)
       | None => false
       end
    then (false, directory)
    else if negb camera_opens then (false, directory)
    else
      let st := capture_loop start frames in
      if quality_samples st <? MIN_SAMPLES then (false, directory)
      else
        let avg_encoding := np_mean (encodings st) in
        match save with
        | Saved => (true, <[encoding_file := Some avg_encoding]> directory)
        | NotSaved => (false, directory)
        | SavedTorn => (false, <[encoding_file := None]> directory)
        | SavedThenRaised =>
            (false, <[encoding_file := Some avg_encoding]> directory)
        end.

End Validator.
End Register.

(** ** Further definitions: register.py *)

Module RegisterV1.

(** [is_good_face_sample] *)
Definition is_good_face_sample (face_distance : Embedding -> Embedding -> Q)
  (face_location : Z * Z * Z * Z) (face_encoding : Embedding)
  (previous_encodings : list Embedding) : bool * string :=
  let '(top, right', bottom, left') := face_location in
  let face_width := right' - left' in
  let face_height := bottom - top in
  if (face_width <? 50) || (face_height <? 50) then
    (false, "Face too small - move closer to camera")
  else if (0 <? length previous_encodings)%nat then
    let distances :=
      map (fun previous => face_distance previous face_encoding)
          (Register.last_three previous_encodings) in
    if (0 <? length distances)%nat && Qltb (np_min distances) double_0_15
    then (false, "Face too similar to previous - try different angle")
    else (true, "Good sample")
  else (true, "Good sample").

End RegisterV1.

(** Every kept encoding is at least [DUPLICATE_THRESHOLD] away from each of
    the three kept before it. *)
Definition well_spread (face_distance : Embedding -> Embedding -> Q)
  (kept : list Embedding) : Prop :=
  forall (k : nat) (e : Embedding),
    kept !! k = Some e ->
    Forall (fun previous =>
              (Register.DUPLICATE_THRESHOLD <= face_distance previous e)%Q)
           (Register.last_three (take k kept)).

(** What the capture loop keeps true. *)
Definition capture_invariant (face_distance : Embedding -> Embedding -> Q)
  (st : Register.Registration) : Prop :=
  Register.quality_samples st = Z.of_nat (length (Register.encodings st))
  /\ Register.quality_samples st <= Register.MAX_SAMPLES
  /\ well_spread face_distance (Register.encodings st).

(** ** Further definitions: loading the enrolled identities *)

(** The entries of the directory that load, with their names, in order. *)
Fixpoint loaded (files : list (string * option Embedding))
  : list (string * Embedding) :=
  match files with
  | [] => []
  | (stem, Some encoding) :: files' => (stem, encoding) :: loaded files'
  | (_, None) :: files' => loaded files'
  end.

(** Python's [s.replace(".npy", "")] on the characters of [s]: every
    occurrence is removed, scanning from the left. *)
Fixpoint remove_npy_chars (l : list ascii) : list ascii :=
  match l with
  | [] => []
  | c1 :: r1 =>
      match r1 with
      | c2 :: c3 :: c4 :: r4 =>
          if Ascii.eqb c1 "." && Ascii.eqb c2 "n"
             && Ascii.eqb c3 "p" && Ascii.eqb c4 "y"
          then remove_npy_chars r4
          else c1 :: remove_npy_chars r1
      | _ => c1 :: remove_npy_chars r1
      end
  end.

Definition remove_npy (s : string) : string :=
  string_of_list_ascii (remove_npy_chars (list_ascii_of_string s)).

(** Python's [s.endswith(".npy")]. *)
Definition endswith_npy (s : string) : bool :=
  match rev (list_ascii_of_string s) with
  | c4 :: c3 :: c2 :: c1 :: _ =>
      Ascii.eqb c1 "." && Ascii.eqb c2 "n" && Ascii.eqb c3 "p" && Ascii.eqb c4 "y"
  | _ => false
  end.

(** The loop of [AttendanceSystem.load_known_faces] of recognize.py over
    [os.listdir]: a file name and what [np.load] gives for it ([None] when
    it raises). *)
Fixpoint V1_load_loop (self : Attendance.AttendanceSystem)
  (listing : list (string * option Embedding)) : Attendance.AttendanceSystem :=
  match listing with
  | [] => self
  | (file, content) :: listing' =>
      if endswith_npy file then
        match content with
        | Some encoding =>
            V1_load_loop
              {| Attendance.config := Attendance.config self;
                 Attendance.known_encodings :=
                   Attendance.known_encodings self ++ [encoding];
                 Attendance.known_names :=
                   Attendance.known_names self ++ [remove_npy file];
                 Attendance.liveness_detector :=
                   Attendance.liveness_detector self;
                 Attendance.last_marked := Attendance.last_marked self |}
              listing'
        | None => V1_load_loop self listing'
        end
      else V1_load_loop self listing'
  end.

(** [load_known_faces] of recognize.py; [directory] is [None] when the
    encodings directory does not exist. *)
Definition V1_load_known_faces (self : Attendance.AttendanceSystem)
  (directory : option (list (string * option Embedding)))
  : Attendance.AttendanceSystem :=
  match directory with
  | None => self
  | Some listing => V1_load_loop self listing
  end.

(** The file names the loop keeps, under the names it gives them. *)
Definition V1_listing (listing : list (string * option Embedding))
  : list (string * option Embedding) :=
  map (fun entry => (remove_npy (fst entry), snd entry))
      (List.filter (fun entry => endswith_npy (fst entry)) listing).

(** ** recognize.py over a session: the first exception ends the program *)

Fixpoint V1_run (resize : Gray -> nat * nat -> Gray)
  (self : Liveness.LivenessDetector) (frames : list (option Gray))
  : option (list bool * Liveness.LivenessDetector) :=
  match frames with
  | [] => Some ([], self)
  | f :: frames' =>
      match V1.detect_motion resize V1.MOTION_HISTORY_SIZE self f with
      | None => None
      | Some (v, self') =>
          match V1_run resize self' frames' with
          | None => None
          | Some (vs, self'') => Some (v :: vs, self'')
          end
      end
  end.

Fixpoint V1_mark_all (self : Attendance.AttendanceSystem) (file : CsvFile)
  (calls : list (CallEnv * string * bool))
  : option (list Status * Attendance.AttendanceSystem * CsvFile) :=
  match calls with
  | [] => Some ([], self, file)
  | (env, name, is_alive) :: calls' =>
      match V1.mark_attendance self file env name is_alive with
      | None => None
      | Some (status, self', file') =>
          match V1_mark_all self' file' calls' with
          | None => None
          | Some (statuses, self'', file'') =>
              Some (status :: statuses, self'', file'')
          end
      end
  end.

Definition empty_patch (face : option Gray) : bool :=
  match face with
  | Some gray => Nat.eqb (size gray) 0
  | None => false
  end.

Definition is_ERROR (status : Status) : bool :=
  match status with
  | ERROR => true
  | _ => false
  end.

(** * Properties *)

(** ** Rational comparisons *)

Lemma Qltb_lt (a b : Q) : Qltb a b = true <-> (a < b)%Q.
Proof.
  unfold Qltb. rewrite negb_true_iff. split.
  - intros H. apply Qnot_le_lt. intros Hle.
    apply Qle_bool_iff in Hle. congruence.
  - intros H. destruct (Qle_bool b a) eqn:E; [|reflexivity].
    apply Qle_bool_iff in E. exfalso. exact (Qlt_not_le _ _ H E).
Qed.

Lemma Qltb_ge (a b : Q) : Qltb a b = false <-> (b <= a)%Q.
Proof.
  unfold Qltb. rewrite negb_false_iff. apply Qle_bool_iff.
Qed.

(** ** LivenessDetector *)

Section LivenessFacts.

Variable resize : Gray -> nat * nat -> Gray.
Variable config : LivenessConfig.

Abbreviation detect_motion := (Liveness.detect_motion resize config).
Abbreviation run := (Liveness.run resize config).
Abbreviation total_motion := (Liveness._calculate_total_motion resize config).
Abbreviation frame_motion := (Liveness.frame_motion resize config).
Abbreviation loop_body := (Liveness.loop_body resize config).
Abbreviation window_ok := (Liveness.window_ok config).

Lemma count_above_filter (a b : list Z) :
  count_above (motion_pixel_threshold config) (absdiff a b)
  = Z.of_nat (length (List.filter (LivenessSpec.exceeds config) (combine a b))).
Proof.
  revert b. induction a as [|x a IH]; intros [|y b]; simpl; try reflexivity.
  rewrite IH. unfold LivenessSpec.exceeds at 2. simpl.
  destruct (motion_pixel_threshold config <? Z.abs (x - y)); simpl length; lia.
Qed.

Lemma frame_motion_pair (p q : Gray) :
  frame_motion p q = LivenessSpec.pair_motion resize config p q.
Proof.
  unfold Liveness.frame_motion, LivenessSpec.pair_motion,
    LivenessSpec.common_shape.
  destruct (shape_eqb (shape p) (shape q)); simpl; apply count_above_filter.
Qed.

Lemma loop_acc (history : list Gray) (idx : list nat) (acc : Z) :
  fold_left (loop_body history) idx acc
  = acc + fold_left (loop_body history) idx 0.
Proof.
  revert acc. induction idx as [|i idx IH]; intros acc; simpl.
  - lia.
  - rewrite IH. rewrite (IH (loop_body history 0 i)).
    unfold Liveness.loop_body. lia.
Qed.

Lemma loop_shift (p : Gray) (history : list Gray) (n s : nat) (acc : Z) :
  (1 <= s)%nat ->
  fold_left (loop_body (p :: history)) (seq (S s) n) acc
  = fold_left (loop_body history) (seq s n) acc.
Proof.
  revert s acc. induction n as [|n IH]; intros s acc Hs; simpl.
  - reflexivity.
  - rewrite <- (IH (S s)) by lia. f_equal.
    unfold Liveness.loop_body. destruct s as [|s]; [lia|].
    simpl. rewrite Nat.sub_0_r. reflexivity.
Qed.

Lemma adjacent_motion_step (p q : Gray) (rest : list Gray) :
  LivenessSpec.adjacent_motion resize config (p :: q :: rest)
  = LivenessSpec.pair_motion resize config p q
    + LivenessSpec.adjacent_motion resize config (q :: rest).
Proof. reflexivity. Qed.

Lemma total_motion_adjacent (history : list Gray) :
  total_motion history = LivenessSpec.adjacent_motion resize config history.
Proof.
  unfold Liveness._calculate_total_motion.
  induction history as [|p [|q rest] IH].
  - reflexivity.
  - reflexivity.
  - replace (length (p :: q :: rest) - 1)%nat
      with (S (length (q :: rest) - 1)) by (simpl; lia).
    cbn [seq fold_left]. rewrite loop_shift by lia.
    rewrite loop_acc. rewrite IH.
    unfold Liveness.loop_body at 1. cbn [nth Nat.sub]. rewrite frame_motion_pair.
    rewrite adjacent_motion_step. lia.
Qed.

Lemma avg_motion_average (history : list Gray) :
  (1 <= length history)%nat ->
  Liveness.avg_motion resize config history
  = LivenessSpec.average_motion resize config history.
Proof.
  intros H. unfold Liveness.avg_motion, LivenessSpec.average_motion.
  rewrite total_motion_adjacent. do 2 f_equal. lia.
Qed.

(** Identical patches show no motion. *)
Lemma absdiff_self (a : list Z) (threshold : Z) :
  0 <= threshold -> count_above threshold (absdiff a a) = 0.
Proof.
  intros Ht. induction a as [|x a IH]; simpl; [reflexivity|].
  rewrite IH. replace (x - x) with 0 by lia. change (Z.abs 0) with 0.
  destruct (threshold <? 0) eqn:E; [apply Z.ltb_lt in E; lia | reflexivity].
Qed.

Lemma shape_eqb_refl (s : nat * nat) : shape_eqb s s = true.
Proof. unfold shape_eqb. rewrite !Nat.eqb_refl. reflexivity. Qed.

Lemma adjacent_motion_identical (p : Gray) (window : list Gray) :
  0 <= motion_pixel_threshold config ->
  Forall (eq p) window ->
  LivenessSpec.adjacent_motion resize config window = 0.
Proof.
  intros Ht Hall. induction Hall as [|q window Hq Hall IH]; [reflexivity|].
  subst q. destruct window as [|q rest]; [reflexivity|].
  rewrite adjacent_motion_step, IH.
  inversion Hall; subst. rewrite <- frame_motion_pair.
  unfold Liveness.frame_motion. rewrite shape_eqb_refl. simpl.
  rewrite absdiff_self by assumption. reflexivity.
Qed.

(** The window after an update with a non-empty patch. *)
Lemma detect_motion_window (self : Liveness.LivenessDetector) (gray : Gray) :
  size gray <> 0%nat ->
  Liveness.motion_history (snd (detect_motion self (Some gray)))
  = if Nat.eqb (length (Liveness.motion_history self)) 0 then [gray]
    else if Z.of_nat (length (Liveness.motion_history self ++ [gray]))
            >? motion_history_size config
         then tl (Liveness.motion_history self ++ [gray])
         else Liveness.motion_history self ++ [gray].
Proof.
  intros Hsize. unfold Liveness.detect_motion.
  destruct (Nat.eqb (size gray) 0) eqn:Es.
  { apply Nat.eqb_eq in Es. contradiction. }
  destruct (Nat.eqb (length (Liveness.motion_history self)) 0) eqn:El.
  - apply Nat.eqb_eq in El.
    destruct (Liveness.motion_history self); [reflexivity | discriminate].
  - reflexivity.
Qed.

(** The verdict once the window holds three patches. *)
Lemma detect_motion_verdict (self : Liveness.LivenessDetector) (gray : Gray) :
  size gray <> 0%nat ->
  (3 <= length (Liveness.motion_history (snd (detect_motion self (Some gray)))))%nat ->
  fst (detect_motion self (Some gray))
  = Qltb (inject_Z (liveness_threshold config))
      (Liveness.avg_motion resize config
         (Liveness.motion_history (snd (detect_motion self (Some gray)))))
  /\ Liveness.is_alive (snd (detect_motion self (Some gray)))
     = fst (detect_motion self (Some gray)).
Proof.
  intros Hsize. unfold Liveness.detect_motion.
  destruct (Nat.eqb (size gray) 0) eqn:Es.
  { apply Nat.eqb_eq in Es. contradiction. }
  destruct (Nat.eqb (length (Liveness.motion_history self)) 0) eqn:El.
  - apply Nat.eqb_eq in El.
    destruct (Liveness.motion_history self); [|discriminate].
    simpl. lia.
  - cbn [fst snd Liveness.motion_history Liveness.is_alive].
    intros H3. apply Nat.leb_le in H3. rewrite H3. split; reflexivity.
Qed.

Lemma Forall_tl {A : Type} (P : A -> Prop) (l : list A) :
  Forall P l -> Forall P (tl l).
Proof. intros H. destruct H; [constructor | assumption]. Qed.

(** C5.  Whenever the window holds at least three patches after an update,
    the returned verdict (also stored in [is_alive]) is the rule of the
    specification: the number of pixels differing by more than
    [motion_pixel_threshold], summed over the adjacent pairs of the window
    and divided by the window length minus one, compared strictly with
    [liveness_threshold].  With non-negative thresholds, a window of
    identical patches has average motion zero and is judged not alive. *)
Theorem C5_verdict_is_average_motion_rule
  (self : Liveness.LivenessDetector) (gray : Gray) :
  size gray <> 0%nat ->
  (3 <= length (Liveness.motion_history (snd (detect_motion self (Some gray)))))%nat ->
  let window := Liveness.motion_history (snd (detect_motion self (Some gray))) in
  let returned := fst (detect_motion self (Some gray)) in
  returned = LivenessSpec.verdict resize config window
  /\ Liveness.is_alive (snd (detect_motion self (Some gray))) = returned
  /\ (0 <= motion_pixel_threshold config ->
      0 <= liveness_threshold config ->
      Forall (eq gray) (Liveness.motion_history self) ->
      (LivenessSpec.average_motion resize config window == 0)%Q
      /\ returned = false).
Proof.
  intros Hsize H3 window returned.
  destruct (detect_motion_verdict self gray Hsize H3) as [Hv Ha].
  assert (Hrule : returned = LivenessSpec.verdict resize config window).
  { unfold returned, window, LivenessSpec.verdict. rewrite Hv.
    rewrite avg_motion_average by lia. reflexivity. }
  split; [exact Hrule|]. split; [exact Ha|].
  intros Hpix Hlive Hsame.
  assert (Hall : Forall (eq gray) window).
  { unfold window. rewrite detect_motion_window by assumption.
    assert (Forall (eq gray) (Liveness.motion_history self ++ [gray])).
    { apply Forall_app. split; [assumption | repeat constructor]. }
    destruct (Nat.eqb (length (Liveness.motion_history self)) 0).
    - repeat constructor.
    - destruct (Z.of_nat (length (Liveness.motion_history self ++ [gray]))
                >? motion_history_size config);
        [apply Forall_tl|]; assumption. }
  assert (Hzero : (LivenessSpec.average_motion resize config window == 0)%Q).
  { unfold LivenessSpec.average_motion.
    rewrite (adjacent_motion_identical gray window Hpix Hall).
    unfold Qdiv. apply Qmult_0_l. }
  split; [exact Hzero|].
  rewrite Hrule. unfold LivenessSpec.verdict. apply Qltb_ge.
  rewrite Hzero. change 0%Q with (inject_Z 0). rewrite <- Zle_Qle. exact Hlive.
Qed.

(** What holds of an update without a face: the window is emptied and the
    returned verdict is negative. *)
Lemma detect_motion_none (self : Liveness.LivenessDetector) :
  detect_motion self None
  = (false,
     {| Liveness.motion_history := [];
        Liveness.face_presence_count := 0;
        Liveness.is_alive := Liveness.is_alive self |}).
Proof. reflexivity. Qed.

(** From the initial detector, a run of updates without a face changes
    nothing: every verdict is negative and the detector stays as created. *)
Lemma run_none_from_init (n : nat) :
  run Liveness.init (repeat None n) = (repeat false n, Liveness.init).
Proof.
  induction n as [|n IH]; [reflexivity|].
  cbn [repeat Liveness.run]. rewrite detect_motion_none.
  change {| Liveness.motion_history := [];
            Liveness.face_presence_count := 0;
            Liveness.is_alive := Liveness.is_alive Liveness.init |}
    with Liveness.init.
  rewrite IH. reflexivity.
Qed.

Lemma empty_patch_keeps_window
  (self : Liveness.LivenessDetector) (gray : Gray) :
  size gray = 0%nat ->
  Liveness.motion_history (snd (detect_motion self (Some gray)))
  = Liveness.motion_history self.
Proof.
  intros Hsize. unfold Liveness.detect_motion.
  rewrite Hsize. reflexivity.
Qed.

(** C7 (as amended).  An update with a zero-area patch leaves the motion
    window and the stored [is_alive] flag as they were, returns the negative
    verdict for that frame, and counts the frame in
    [face_presence_count]. *)
Theorem C7_empty_patch_skips_window
  (self : Liveness.LivenessDetector) (gray : Gray) :
  size gray = 0%nat ->
  detect_motion self (Some gray)
  = (false,
     {| Liveness.motion_history := Liveness.motion_history self;
        Liveness.face_presence_count := Liveness.face_presence_count self + 1;
        Liveness.is_alive := Liveness.is_alive self |}).
Proof.
  intros Hsize. unfold Liveness.detect_motion.
  rewrite Hsize. reflexivity.
Qed.

Lemma detect_motion_window_ok
  (self : Liveness.LivenessDetector) (face : option Gray) :
  1 <= motion_history_size config ->
  window_ok self -> window_ok (snd (detect_motion self face)).
Proof.
  intros Hcap [_ Hle]. unfold Liveness.window_ok.
  destruct face as [gray|]; [|simpl; lia].
  destruct (Nat.eqb (size gray) 0) eqn:Es.
  - apply Nat.eqb_eq in Es. rewrite (empty_patch_keeps_window self gray Es).
    simpl. lia.
  - apply Nat.eqb_neq in Es. rewrite (detect_motion_window self gray Es).
    destruct (Nat.eqb (length (Liveness.motion_history self)) 0); [simpl; lia|].
    destruct (Z.of_nat (length (Liveness.motion_history self ++ [gray]))
              >? motion_history_size config) eqn:Eo.
    + destruct (Liveness.motion_history self) as [|p rest]; simpl in *.
      * lia.
      * rewrite length_app in *. simpl in *. lia.
    + rewrite Z.gtb_ltb in Eo. apply Z.ltb_ge in Eo. lia.
Qed.

(** C9 (as amended).  With a capacity [motion_history_size] of at least
    one, every sequence of updates keeps the window length between zero and
    the capacity; an update with a non-empty patch appends it, after the
    oldest patch has made room when the window was full. *)
Theorem C9_window_bounded_by_capacity
  (self : Liveness.LivenessDetector) (frames : list (option Gray)) :
  1 <= motion_history_size config ->
  window_ok self ->
  window_ok (snd (run self frames))
  /\ (forall gray : Gray,
        size gray <> 0%nat ->
        Liveness.motion_history (snd (detect_motion self (Some gray)))
        = (if Z.of_nat (length (Liveness.motion_history self))
              <? motion_history_size config
           then Liveness.motion_history self
           else tl (Liveness.motion_history self)) ++ [gray]).
Proof.
  intros Hcap Hok. split.
  - revert self Hok. induction frames as [|f frames IH]; intros self Hok.
    + exact Hok.
    + cbn [Liveness.run].
      pose proof (detect_motion_window_ok self f Hcap Hok) as Hstep.
      destruct (detect_motion self f) as [v self'].
      specialize (IH self' Hstep).
      destruct (run self' frames) as [vs self'']. exact IH.
  - intros gray Hsize. rewrite detect_motion_window by assumption.
    destruct Hok as [_ Hle].
    destruct (Liveness.motion_history self) as [|p rest] eqn:Eh.
    + simpl. destruct (_ <? motion_history_size config); reflexivity.
    + cbn [length Nat.eqb]. rewrite length_app. cbn [length].
      destruct (Z.of_nat (S (length rest) + 1) >? motion_history_size config) eqn:Eo.
      * rewrite Z.gtb_ltb in Eo. apply Z.ltb_lt in Eo.
        destruct (Z.of_nat (S (length rest)) <? motion_history_size config) eqn:E.
        { apply Z.ltb_lt in E. lia. }
        reflexivity.
      * rewrite Z.gtb_ltb in Eo. apply Z.ltb_ge in Eo.
        destruct (Z.of_nat (S (length rest)) <? motion_history_size config) eqn:E.
        { reflexivity. }
        apply Z.ltb_ge in E. lia.
Qed.

End LivenessFacts.

(** ** LivenessDetector on sample data *)

Lemma C5_verdict_is_average_motion_rule_witness :
  size dark <> 0%nat
  /\ (3 <= length (Liveness.motion_history
                    (snd (Liveness.detect_motion resize_nearest
                            default_LivenessConfig still_face (Some dark)))))%nat
  /\ fst (Liveness.detect_motion resize_nearest default_LivenessConfig
            still_face (Some dark))
     = LivenessSpec.verdict resize_nearest default_LivenessConfig
         (Liveness.motion_history
            (snd (Liveness.detect_motion resize_nearest
                    default_LivenessConfig still_face (Some dark))))
  /\ fst (Liveness.detect_motion resize_nearest default_LivenessConfig
            still_face (Some dark)) = false.
Proof.
  assert (Hsize : size dark <> 0%nat) by (vm_compute; lia).
  assert (H3 : (3 <= length (Liveness.motion_history
                   (snd (Liveness.detect_motion resize_nearest
                           default_LivenessConfig still_face (Some dark)))))%nat)
    by (vm_compute; lia).
  destruct (C5_verdict_is_average_motion_rule resize_nearest
              default_LivenessConfig still_face dark Hsize H3)
    as [Hrule [_ Hsame]].
  split; [exact Hsize|]. split; [exact H3|]. split; [exact Hrule|].
  apply Hsame.
  - simpl; lia.
  - simpl; lia.
  - vm_compute. repeat constructor.
Defined.

(** C6.  Losing the face does not clear the stored verdict.  A detector
    that has judged a moving face alive keeps [is_alive] set when updated
    without a face, although [reset] clears it; the second patch after the
    loss is then reported alive from a window of only two patches. *)
Theorem C6_stale_verdict_after_face_loss :
  Liveness.is_alive moving_face = true
  /\ fst (Liveness.run resize_nearest default_LivenessConfig moving_face
            [None; Some dark; Some dark])
     = [false; false; true]
  /\ length (Liveness.motion_history
               (snd (Liveness.run resize_nearest default_LivenessConfig
                       moving_face [None; Some dark; Some dark]))) = 2%nat
  /\ Liveness.is_alive
       (snd (Liveness.detect_motion resize_nearest default_LivenessConfig
               moving_face None)) = true
  /\ Liveness.is_alive (Liveness.reset moving_face) = false.
Proof. vm_compute. repeat split; reflexivity. Qed.

(** The claim C7 as stated fails: after an update with a zero-area patch
    the detector differs from the one before (the frame is counted), and
    the returned verdict is negative although the standing one is
    positive. *)
Lemma C7_empty_patch_counterexample :
  size empty_gray = 0%nat
  /\ snd (Liveness.detect_motion resize_nearest default_LivenessConfig
            moving_face (Some empty_gray)) <> moving_face
  /\ fst (Liveness.detect_motion resize_nearest default_LivenessConfig
            moving_face (Some empty_gray)) <> Liveness.is_alive moving_face.
Proof.
  split; [reflexivity|]. split; vm_compute; intros H; discriminate H.
Qed.

Lemma C7_empty_patch_skips_window_witness :
  size empty_gray = 0%nat
  /\ Liveness.detect_motion resize_nearest default_LivenessConfig
       moving_face (Some empty_gray)
     = (false,
        {| Liveness.motion_history := Liveness.motion_history moving_face;
           Liveness.face_presence_count :=
             Liveness.face_presence_count moving_face + 1;
           Liveness.is_alive := Liveness.is_alive moving_face |}).
Proof.
  split; [reflexivity|].
  apply (C7_empty_patch_skips_window resize_nearest default_LivenessConfig
           moving_face empty_gray).
  reflexivity.
Defined.

(** The claim C9 as stated fails for a capacity of zero: the first patch
    is stored without any eviction, so the window outgrows the capacity. *)
Lemma C9_capacity_zero_counterexample :
  Liveness.window_ok no_history_config Liveness.init
  /\ ~ Liveness.window_ok no_history_config
         (snd (Liveness.detect_motion resize_nearest no_history_config
                 Liveness.init (Some dark))).
Proof.
  split.
  - unfold Liveness.window_ok. simpl. lia.
  - unfold Liveness.window_ok. vm_compute. intros [_ H]. apply H. reflexivity.
Qed.

Lemma C9_window_bounded_by_capacity_witness :
  1 <= motion_history_size default_LivenessConfig
  /\ Liveness.window_ok default_LivenessConfig Liveness.init
  /\ Liveness.window_ok default_LivenessConfig
       (snd (Liveness.run resize_nearest default_LivenessConfig Liveness.init
               [Some dark; None; Some bright; Some dark]))
  /\ Liveness.motion_history
       (snd (Liveness.detect_motion resize_nearest default_LivenessConfig
               Liveness.init (Some dark)))
     = [dark].
Proof.
  assert (Hcap : 1 <= motion_history_size default_LivenessConfig)
    by (simpl; lia).
  assert (Hok : Liveness.window_ok default_LivenessConfig Liveness.init)
    by (unfold Liveness.window_ok; simpl; lia).
  split; [exact Hcap|]. split; [exact Hok|]. split.
  - exact (proj1 (C9_window_bounded_by_capacity resize_nearest
                    default_LivenessConfig Liveness.init
                    [Some dark; None; Some bright; Some dark] Hcap Hok)).
  - apply (proj2 (C9_window_bounded_by_capacity resize_nearest
                    default_LivenessConfig Liveness.init [] Hcap Hok) dark).
    vm_compute. lia.
Defined.

(** ** The ledger file and the DataFrame *)

Lemma is_na_In (s : string) : is_na s = true <-> In s STR_NA_VALUES.
Proof.
  unfold is_na. rewrite existsb_exists. split.
  - intros (v & Hin & E). apply String.eqb_eq in E. subst v. exact Hin.
  - intros H. exists s. split; [exact H | apply String.eqb_refl].
Qed.

(** A string that passes a test which every spelling of a missing value
    fails is read as text. *)
Lemma not_na_by (test : string -> bool) (s : string) :
  test s = true ->
  forallb (fun v => negb (test v)) STR_NA_VALUES = true ->
  is_na s = false.
Proof.
  intros Hs Hall. destruct (is_na s) eqn:E; [|reflexivity].
  apply is_na_In in E. rewrite forallb_forall in Hall.
  specialize (Hall s E). rewrite Hs in Hall. discriminate Hall.
Qed.

Lemma parse_cell_text (s : string) : is_na s = false -> parse_cell s = Str s.
Proof. intros H. unfold parse_cell. rewrite H. reflexivity. Qed.

(** What has been read once is read the same after it is written back. *)
Lemma parse_render_parse (s : string) :
  parse_cell (render_cell (parse_cell s)) = parse_cell s.
Proof.
  unfold parse_cell. destruct (is_na s) eqn:E; cbn [render_cell].
  - reflexivity.
  - rewrite E. reflexivity.
Qed.

Lemma render_parse_cell (s : string) :
  render_cell (parse_cell s) = if is_na s then EmptyString else s.
Proof. unfold parse_cell. destruct (is_na s); reflexivity. Qed.

Lemma render_read (file : CsvFile) :
  map (map_row render_cell) (map (map_row parse_cell) file) = resave file.
Proof.
  unfold resave. rewrite map_map. apply map_ext. intros []. reflexivity.
Qed.

Lemma read_resave (file : CsvFile) :
  map (map_row parse_cell) (resave file) = map (map_row parse_cell) file.
Proof.
  unfold resave. rewrite map_map. apply map_ext. intros [].
  unfold map_row. cbn. rewrite !parse_render_parse. reflexivity.
Qed.

Lemma resave_length (file : CsvFile) : length (resave file) = length file.
Proof. unfold resave. apply length_map. Qed.

Lemma render_punch_out (time_str verified : string) (index : nat) (df : DataFrame) :
  map (map_row render_cell)
      (alter (Attendance.punch_out_row (Str time_str) (Str verified)) index df)
  = alter (Attendance.punch_out_row time_str verified) index
      (map (map_row render_cell) df).
Proof.
  revert index. induction df as [|r df IH]; intros [|index]; simpl;
    try reflexivity.
  f_equal. apply IH.
Qed.

Lemma cell_eqb_parse (s : string) :
  is_na s = false -> cell_eqb (parse_cell s) s = true.
Proof.
  intros Hs. rewrite (parse_cell_text s Hs). apply String.eqb_refl.
Qed.

(** ** Formatted dates and times *)

Lemma digit_not_space (n : Z) : is_space (digit n) = false.
Proof.
  unfold digit.
  assert (H : (Z.to_nat (n mod 10) < 10)%nat).
  { pose proof (Z.mod_pos_bound n 10 ltac:(lia)). lia. }
  revert H. generalize (Z.to_nat (n mod 10)). intros k Hk.
  do 10 (destruct k as [|k]; [reflexivity|]). lia.
Qed.

Lemma strftime_date_nonempty (d : datetime) : strftime_date d <> EmptyString.
Proof. unfold strftime_date, pad4. simpl. discriminate. Qed.

(** A formatted date has ten characters and is read as text. *)
Lemma strftime_date_text (d : datetime) : is_na (strftime_date d) = false.
Proof.
  apply (not_na_by (fun s => Nat.eqb (String.length s) 10)); reflexivity.
Qed.

Lemma strftime_time_length (d : datetime) :
  String.length (strftime_time d) = 8%nat.
Proof. reflexivity. Qed.

Lemma strftime_time_chars (d : datetime) :
  strftime_time d
  = string_of_list_ascii
      [digit (hour d / 10); digit (hour d); ":"%char;
       digit (minute d / 10); digit (minute d); ":"%char;
       digit (second d / 10); digit (second d)].
Proof. reflexivity. Qed.

Lemma digit_code (n : Z) : (48 <= nat_of_ascii (digit n) <= 57)%nat.
Proof.
  unfold digit.
  assert (H : (Z.to_nat (n mod 10) < 10)%nat).
  { pose proof (Z.mod_pos_bound n 10 ltac:(lia)). lia. }
  rewrite nat_ascii_embedding; lia.
Qed.

(** A list that starts with a printable ASCII character has no white space
    at its head, in either reading direction. *)
Lemma drop_spaces_printable (forwards : bool) (c : ascii) (l : list ascii) :
  (32 < nat_of_ascii c < 128)%nat ->
  drop_spaces forwards (c :: l) = c :: l.
Proof.
  intros Hc.
  assert (H1 : is_space c = false).
  { unfold is_space. cbv zeta.
    destruct (Nat.leb_spec 9 (nat_of_ascii c)), (Nat.leb_spec (nat_of_ascii c) 13),
      (Nat.leb_spec 28 (nat_of_ascii c)), (Nat.leb_spec (nat_of_ascii c) 32);
      cbn; try reflexivity; lia. }
  assert (H2 : forall c2, is_space2 c c2 = false).
  { intros c2. unfold is_space2. cbv zeta.
    destruct (Nat.eqb_spec (nat_of_ascii c) 194); [lia | reflexivity]. }
  assert (H2' : forall c2, is_space2 c2 c = false).
  { intros c2. unfold is_space2. cbv zeta.
    destruct (Nat.eqb_spec (nat_of_ascii c) 133); [lia|].
    destruct (Nat.eqb_spec (nat_of_ascii c) 160); [lia|].
    apply andb_false_r. }
  assert (H3 : forall c2 c3, is_space3 c c2 c3 = false).
  { intros c2 c3. unfold is_space3. cbv zeta.
    destruct (Nat.eqb_spec (nat_of_ascii c) 225); [lia|].
    destruct (Nat.eqb_spec (nat_of_ascii c) 226); [lia|].
    destruct (Nat.eqb_spec (nat_of_ascii c) 227); [lia|].
    reflexivity. }
  assert (H3' : forall c2 c3, is_space3 c3 c2 c = false).
  { intros c2 c3. unfold is_space3. cbv zeta.
    destruct (Nat.eqb_spec (nat_of_ascii c) 128); [lia|].
    destruct (Nat.eqb_spec (nat_of_ascii c) 159); [lia|].
    destruct (Nat.eqb_spec (nat_of_ascii c) 168); [lia|].
    destruct (Nat.eqb_spec (nat_of_ascii c) 169); [lia|].
    destruct (Nat.eqb_spec (nat_of_ascii c) 175); [lia|].
    destruct (Nat.leb_spec 128 (nat_of_ascii c)); [lia|].
    cbn [andb orb]. rewrite !andb_false_r. reflexivity. }
  cbn [drop_spaces]. rewrite H1.
  destruct l as [|c2 [|c3 l3]]; [reflexivity| |].
  - destruct forwards; [rewrite H2 | rewrite H2']; reflexivity.
  - destruct forwards; [rewrite H2, H3 | rewrite H2', H3']; reflexivity.
Qed.

Lemma digit_printable (n : Z) : (32 < nat_of_ascii (digit n) < 128)%nat.
Proof. pose proof (digit_code n). lia. Qed.

Lemma strip_strftime_time (d : datetime) :
  strip (strftime_time d) = strftime_time d.
Proof.
  rewrite strftime_time_chars. unfold strip, lstrip.
  rewrite list_ascii_of_string_of_list_ascii.
  rewrite drop_spaces_printable by apply digit_printable.
  cbn [rev app].
  rewrite drop_spaces_printable by apply digit_printable.
  reflexivity.
Qed.

(** A formatted time has eight characters, the third a colon, and is read
    as text. *)
Lemma strftime_time_text (d : datetime) : is_na (strftime_time d) = false.
Proof.
  apply (not_na_by
           (fun s => match String.get 2 s with
                     | Some c => Ascii.eqb c ":"
                     | None => false
                     end)); reflexivity.
Qed.

(** A formatted time is never taken for a missing punch-out. *)
Lemma strftime_time_not_blank (d : datetime) :
  Attendance.punch_out_blank (parse_cell (strftime_time d)) = false.
Proof.
  rewrite (parse_cell_text _ (strftime_time_text d)).
  unfold Attendance.punch_out_blank, str.
  rewrite strip_strftime_time.
  assert (Hlen := strftime_time_length d).
  apply orb_false_iff. split; apply String.eqb_neq; intros H;
    rewrite H in Hlen; discriminate Hlen.
Qed.

(** ** Looking a record up *)

Lemma map_alter_commute {A B : Type} (g : A -> B) (f : A -> A) (f' : B -> B)
  (index : nat) (l : list A) :
  (forall x, g (f x) = f' (g x)) ->
  map g (alter f index l) = alter f' index (map g l).
Proof.
  intros Hfg. revert index.
  induction l as [|x l IH]; intros [|index]; simpl; try reflexivity.
  - rewrite Hfg. reflexivity.
  - f_equal. apply IH.
Qed.

Section FindRecord.

Variables name date : string.

Lemma find_record_from_app (i : nat) (df : DataFrame) (r : Row cell) :
  Attendance.find_record_from i (df ++ [r]) name date
  = match Attendance.find_record_from i df name date with
    | Some found => Some found
    | None =>
        if Attendance.selects name date r
        then Some ((i + length df)%nat, r) else None
    end.
Proof.
  revert i. induction df as [|x df IH]; intros i; simpl.
  - rewrite Nat.add_0_r. reflexivity.
  - destruct (Attendance.selects name date x); [reflexivity|].
    rewrite IH. replace (S i + length df)%nat with (i + S (length df))%nat by lia.
    reflexivity.
Qed.

Lemma find_record_from_alter (f : Row cell -> Row cell) (df : DataFrame)
  (i j : nat) (r : Row cell) :
  (forall x, Name (f x) = Name x /\ Date (f x) = Date x) ->
  Attendance.find_record_from i df name date = Some (j, r) ->
  (i <= j < i + length df)%nat
  /\ Attendance.find_record_from i (alter f (j - i)%nat df) name date
     = Some (j, f r).
Proof.
  intros Hf. revert i. induction df as [|x df IH]; intros i; simpl.
  - discriminate.
  - destruct (Attendance.selects name date x) eqn:E.
    + intros H. injection H as <- <-. split; [lia|].
      rewrite Nat.sub_diag. simpl.
      unfold Attendance.selects in *.
      destruct (Hf x) as [-> ->]. rewrite E. reflexivity.
    + intros H. destruct (IH (S i) H) as [Hrange Hfind]. split; [lia|].
      replace (j - i)%nat with (S (j - S i)) by lia. simpl.
      rewrite E. exact Hfind.
Qed.

End FindRecord.

(** ** AttendanceSystem.mark_attendance *)

(** C2.  Without liveness the call answers [REJECTED_SPOOF] and returns the
    system (with its [last_marked]) and the ledger file untouched, whatever
    the ledger, the clock and the state of the file system: the check comes
    before the file is even read.  Hence no series of such calls, for any
    names at any times, changes anything. *)
Theorem C2_spoof_rejected_before_anything_else
  (self : Attendance.AttendanceSystem) (file : CsvFile) (env : CallEnv)
  (name : string) :
  Attendance.mark_attendance self file env name false
  = (REJECTED_SPOOF, self, file)
  /\ forall attempts : list (CallEnv * string),
       Attendance.mark_all self file
         (map (fun attempt => (fst attempt, snd attempt, false)) attempts)
       = (map (fun _ => REJECTED_SPOOF) attempts, self, file).
Proof.
  split; [reflexivity|].
  induction attempts as [|[env' name'] attempts IH]; [reflexivity|].
  cbn [map Attendance.mark_all fst snd].
  change (Attendance.mark_attendance self file env' name' false)
    with (REJECTED_SPOOF, self, file).
  cbv beta iota. rewrite IH. reflexivity.
Qed.

Lemma debounce_lapsed_not_duplicate
  (self : Attendance.AttendanceSystem) (env : CallEnv) (name date : string) :
  debounce_lapsed self env name date ->
  match Attendance.last_marked self !! Attendance.key_of name date with
  | Some last =>
      Qltb (total_seconds (now_check env) last)
        (inject_Z (duplicate_detection_window
                     (recognition (Attendance.config self))))
  | None => false
  end = false.
Proof.
  unfold debounce_lapsed.
  change (Attendance.key_of name date) with (name +:+ "_" +:+ date).
  destruct (Attendance.last_marked self !! (name +:+ "_" +:+ date));
    [|reflexivity].
  intros H. apply Qltb_ge. exact H.
Qed.

Lemma parse_punch_out (time_str verified : string) (r : Row string) :
  map_row parse_cell (Attendance.punch_out_row time_str verified r)
  = Attendance.punch_out_row (parse_cell time_str) (parse_cell verified)
      (map_row parse_cell r).
Proof. destruct r. reflexivity. Qed.

Lemma render_punch_out_row (time_str verified : string) (r : Row cell) :
  map_row render_cell
    (Attendance.punch_out_row (Str time_str) (Str verified) r)
  = Attendance.punch_out_row time_str verified (map_row render_cell r).
Proof. destruct r. reflexivity. Qed.

(** *** The branches of [mark_attendance], one lemma each *)

Section MarkBranches.

Variable self : Attendance.AttendanceSystem.
Variable file : CsvFile.
Variable env : CallEnv.
Variable name : string.

Let date := strftime_date (now_entry env).
Let time_str := strftime_time (now_entry env).
Let key := Attendance.key_of name date.

Lemma ledger_state_NoRecord :
  ledger_state file name date = NoRecord ->
  Attendance.find_record (map (map_row parse_cell) file) name date = None.
Proof.
  unfold ledger_state.
  destruct (Attendance.find_record _ name date) as [[i r]|]; [|reflexivity].
  destruct (Attendance.punch_out_blank (Punch_Out r)); discriminate.
Qed.

Lemma ledger_state_found (st : LedgerState) :
  ledger_state file name date = st -> st <> NoRecord ->
  exists (index : nat) (record : Row cell),
    Attendance.find_record (map (map_row parse_cell) file) name date
    = Some (index, record)
    /\ Attendance.punch_out_blank (Punch_Out record)
       = match st with PunchedIn => true | _ => false end.
Proof.
  unfold ledger_state.
  destruct (Attendance.find_record _ name date) as [[i r]|].
  - intros <- _. exists i, r. split; [reflexivity|].
    destruct (Attendance.punch_out_blank (Punch_Out r)); reflexivity.
  - intros <- H. contradiction.
Qed.

(** The file that [to_csv] writes after a punch-out. *)
Lemma punch_out_file (index : nat) :
  map (map_row render_cell)
    (alter (Attendance.punch_out_row (Str time_str) (Str "VERIFIED"))
       index (map (map_row parse_cell) file))
  = alter (Attendance.punch_out_row time_str "VERIFIED"%string) index
      (resave file).
Proof.
  rewrite (map_alter_commute (map_row render_cell) _
             (Attendance.punch_out_row time_str "VERIFIED"%string))
    by apply render_punch_out_row.
  rewrite render_read. reflexivity.
Qed.

Lemma mark_read_error :
  read_ok env = false ->
  Attendance.mark_attendance self file env name true = (ERROR, self, file).
Proof.
  intros Hr. unfold Attendance.mark_attendance, read_csv.
  rewrite Hr. reflexivity.
Qed.

Lemma mark_duplicate (last : datetime) :
  read_ok env = true ->
  ledger_state file name date = NoRecord ->
  Attendance.last_marked self !! key = Some last ->
  (total_seconds (now_check env) last
   < inject_Z (duplicate_detection_window
                 (recognition (Attendance.config self))))%Q ->
  Attendance.mark_attendance self file env name true = (DUPLICATE, self, file).
Proof.
  intros Hr Hstate Hlast Hyoung.
  apply ledger_state_NoRecord in Hstate.
  unfold Attendance.mark_attendance, read_csv.
  rewrite Hr. cbn [negb]. fold date. rewrite Hstate. fold key. rewrite Hlast.
  apply Qltb_lt in Hyoung. rewrite Hyoung. reflexivity.
Qed.

Lemma mark_new_record :
  read_ok env = true ->
  ledger_state file name date = NoRecord ->
  debounce_lapsed self env name date ->
  Attendance.mark_attendance self file env name true
  = (if write_ok env then PUNCH_IN else ERROR,
     Attendance.set_last_marked self
       (<[key := now_stamp env]> (Attendance.last_marked self)),
     match write env with
     | Written => resave file ++ [punch_in_row name date time_str]
     | NotOpened => file
     | Torn remains => remains
     end).
Proof.
  intros Hr Hstate Hlapsed.
  apply ledger_state_NoRecord in Hstate.
  unfold Attendance.mark_attendance, read_csv, to_csv, write_ok.
  rewrite Hr. cbn [negb]. fold date. rewrite Hstate.
  rewrite (debounce_lapsed_not_duplicate self env name date Hlapsed).
  destruct (write env); try reflexivity.
  rewrite map_app, render_read. reflexivity.
Qed.

Lemma mark_open_record (index : nat) (record : Row cell) :
  read_ok env = true ->
  Attendance.find_record (map (map_row parse_cell) file) name date
  = Some (index, record) ->
  Attendance.punch_out_blank (Punch_Out record) = true ->
  Attendance.mark_attendance self file env name true
  = (if write_ok env then PUNCH_OUT else ERROR,
     Attendance.set_last_marked self (delete key (Attendance.last_marked self)),
     match write env with
     | Written =>
         alter (Attendance.punch_out_row time_str "VERIFIED"%string) index
           (resave file)
     | NotOpened => file
     | Torn remains => remains
     end).
Proof.
  intros Hr Hfind Hblank.
  unfold Attendance.mark_attendance, read_csv, to_csv, write_ok.
  rewrite Hr. cbn [negb]. fold date. rewrite Hfind, Hblank.
  destruct (write env); try reflexivity.
  fold time_str. rewrite punch_out_file. reflexivity.
Qed.

Lemma mark_closed_record :
  read_ok env = true ->
  ledger_state file name date = PunchedOut ->
  Attendance.mark_attendance self file env name true
  = (ALREADY_MARKED, self, file).
Proof.
  intros Hr Hstate.
  destruct (ledger_state_found PunchedOut Hstate ltac:(discriminate))
    as (index & record & Hfind & Hblank).
  unfold Attendance.mark_attendance, read_csv.
  rewrite Hr. cbn [negb]. fold date. rewrite Hfind, Hblank. reflexivity.
Qed.

(** A punch-in moves the key to PunchedIn when the name is read back as
    text. *)
Lemma punch_in_reaches_PunchedIn :
  is_na name = false ->
  ledger_state file name date = NoRecord ->
  ledger_state (resave file ++ [punch_in_row name date time_str]) name date
  = PunchedIn.
Proof.
  intros Hname Hstate. apply ledger_state_NoRecord in Hstate.
  unfold ledger_state. rewrite map_app, read_resave.
  unfold Attendance.find_record in *.
  cbn [map]. rewrite find_record_from_app, Hstate.
  unfold Attendance.selects, punch_in_row, map_row. cbn [Name Date Punch_Out].
  rewrite (cell_eqb_parse name Hname).
  rewrite (cell_eqb_parse date (strftime_date_text _)).
  reflexivity.
Qed.

(** A punch-out moves the key to PunchedOut. *)
Lemma punch_out_reaches_PunchedOut (index : nat) (record : Row cell) :
  Attendance.find_record (map (map_row parse_cell) file) name date
  = Some (index, record) ->
  ledger_state
    (alter (Attendance.punch_out_row time_str "VERIFIED"%string) index
       (resave file))
    name date = PunchedOut.
Proof.
  intros Hfind. unfold ledger_state.
  rewrite (map_alter_commute (map_row parse_cell) _
             (Attendance.punch_out_row (parse_cell time_str)
                (parse_cell "VERIFIED")))
    by apply parse_punch_out.
  rewrite read_resave.
  unfold Attendance.find_record in *.
  destruct (find_record_from_alter name date
              (Attendance.punch_out_row (parse_cell time_str)
                 (parse_cell "VERIFIED"))
              _ _ _ _ ltac:(intros []; split; reflexivity) Hfind)
    as [_ Hfound].
  rewrite Nat.sub_0_r in Hfound. rewrite Hfound.
  cbn [Punch_Out Attendance.punch_out_row].
  unfold time_str. rewrite strftime_time_not_blank. reflexivity.
Qed.

End MarkBranches.


(** After an accepted punch-in under a name that is read back as text the
    record is on file, so the next call for the same name on the same date
    takes the punch-out branch whatever the time elapsed: the debounce test
    is not reached. *)
Lemma second_mark_is_punch_out
  (self : Attendance.AttendanceSystem) (file : CsvFile) (env1 env2 : CallEnv)
  (name : string) :
  is_na name = false ->
  read_ok env1 = true -> write env1 = Written ->
  read_ok env2 = true -> write env2 = Written ->
  strftime_date (now_entry env2) = strftime_date (now_entry env1) ->
  ledger_state file name (strftime_date (now_entry env1)) = NoRecord ->
  debounce_lapsed self env1 name (strftime_date (now_entry env1)) ->
  exists self1 file1 self2 file2,
    Attendance.mark_attendance self file env1 name true
    = (PUNCH_IN, self1, file1)
    /\ Attendance.mark_attendance self1 file1 env2 name true
       = (PUNCH_OUT, self2, file2).
Proof.
  intros Hname Hr1 Hw1 Hr2 Hw2 Hdate Hstate Hlapsed.
  pose proof (mark_new_record self file env1 name Hr1 Hstate Hlapsed)
    as Hfirst.
  unfold write_ok in Hfirst. rewrite Hw1 in Hfirst.
  pose proof (punch_in_reaches_PunchedIn file env1 name Hname Hstate) as Hin.
  revert Hfirst Hin. rewrite <- Hdate. intros Hfirst Hin.
  destruct (ledger_state_found _ env2 name PunchedIn Hin ltac:(discriminate))
    as (index & record & Hfind & Hblank).
  eexists _, _, _, _. split; [exact Hfirst|].
  rewrite (mark_open_record _ _ env2 name index record Hr2 Hfind Hblank).
  unfold write_ok. rewrite Hw2. reflexivity.
Qed.

(** The answer [DUPLICATE] and what it takes. *)
Lemma mark_duplicate_iff
  (self : Attendance.AttendanceSystem) (file : CsvFile) (env : CallEnv)
  (name : string) :
  read_ok env = true ->
  fst (fst (Attendance.mark_attendance self file env name true)) = DUPLICATE
  <-> ledger_state file name (strftime_date (now_entry env)) = NoRecord
      /\ exists last : datetime,
           Attendance.last_marked self
             !! (name +:+ "_" +:+ strftime_date (now_entry env))
           = Some last
           /\ (total_seconds (now_check env) last
               < inject_Z (duplicate_detection_window
                             (recognition (Attendance.config self))))%Q.
Proof.
  intros Hr. split.
  - unfold Attendance.mark_attendance, read_csv, to_csv, ledger_state.
    rewrite Hr. cbn [negb].
    destruct (Attendance.find_record _ name _) as [[index record]|].
    + destruct (Attendance.punch_out_blank (Punch_Out record));
        [destruct (write env)|]; discriminate.
    + change (Attendance.key_of name (strftime_date (now_entry env)))
        with (name +:+ "_" +:+ strftime_date (now_entry env)).
      destruct (Attendance.last_marked self !! _) as [last|].
      * destruct (Qltb _ _) eqn:Hyoung.
        -- intros _. split; [reflexivity|]. exists last.
           split; [reflexivity | apply Qltb_lt; exact Hyoung].
        -- destruct (write env); discriminate.
      * destruct (write env); discriminate.
  - intros (Hstate & last & Hlast & Hyoung).
    rewrite (mark_duplicate self file env name last Hr Hstate Hlast Hyoung).
    reflexivity.
Qed.

(** C3 (as amended).  With the file readable, [DUPLICATE] is the answer
    exactly when no record is found for [(name, today)] and [last_marked]
    holds, under the key [name_date], an entry younger than the window;
    the system and the file are then left as they are.  With no record and
    no such entry the answer, the write going through, is [PUNCH_IN].  A
    call that finds a record is never answered [DUPLICATE], however young
    the entry. *)
Theorem C3_duplicate_only_without_record
  (self : Attendance.AttendanceSystem) (file : CsvFile) (env : CallEnv)
  (name : string) :
  read_ok env = true ->
  let date := strftime_date (now_entry env) in
  let outcome := Attendance.mark_attendance self file env name true in
  (fst (fst outcome) = DUPLICATE
   <-> ledger_state file name date = NoRecord
       /\ exists last : datetime,
            Attendance.last_marked self !! (name +:+ "_" +:+ date) = Some last
            /\ (total_seconds (now_check env) last
                < inject_Z (duplicate_detection_window
                              (recognition (Attendance.config self))))%Q)
  /\ (fst (fst outcome) = DUPLICATE -> outcome = (DUPLICATE, self, file))
  /\ (ledger_state file name date = NoRecord ->
      debounce_lapsed self env name date ->
      write env = Written ->
      fst (fst outcome) = PUNCH_IN)
  /\ (ledger_state file name date <> NoRecord ->
      fst (fst outcome) = PUNCH_OUT \/ fst (fst outcome) = ALREADY_MARKED
      \/ fst (fst outcome) = ERROR).
Proof.
  intros Hr date outcome. subst outcome.
  split; [exact (mark_duplicate_iff self file env name Hr)|].
  split; [|split].
  - intros Hdup.
    apply (mark_duplicate_iff self file env name Hr) in Hdup.
    destruct Hdup as (Hstate & last & Hlast & Hyoung).
    exact (mark_duplicate self file env name last Hr Hstate Hlast Hyoung).
  - intros Hstate Hlapsed Hw.
    rewrite (mark_new_record self file env name Hr Hstate Hlapsed).
    unfold write_ok. rewrite Hw. reflexivity.
  - intros Hstate.
    destruct (ledger_state file name date) eqn:E; [contradiction| |].
    + destruct (ledger_state_found file env name PunchedIn E ltac:(discriminate))
        as (index & record & Hfind & Hblank).
      rewrite (mark_open_record self file env name index record Hr Hfind Hblank).
      cbn [fst]. destruct (write_ok env); auto.
    + rewrite (mark_closed_record self file env name Hr E). auto.
Qed.

(** The claim C3 as stated fails: on an empty ledger the first call for
    "alice" is a punch-in that stamps the debounce entry; the second call
    one second later, well inside the window of five seconds, finds the
    record, is answered [PUNCH_OUT] and closes it. *)
Lemma C3_immediate_second_mark_counterexample :
  let first :=
    Attendance.mark_attendance kiosk []
      (call_at (nine_o_clock 0) true true) "alice" true in
  let second :=
    Attendance.mark_attendance (snd (fst first)) (snd first)
      (call_at (nine_o_clock 1) true true) "alice" true in
  fst (fst first) = PUNCH_IN
  /\ Attendance.last_marked (snd (fst first)) !! "alice_2024-03-05"%string
     = Some (nine_o_clock 0)
  /\ (total_seconds (nine_o_clock 1) (nine_o_clock 0)
      < inject_Z (duplicate_detection_window
                    (recognition (Attendance.config kiosk))))%Q
  /\ fst (fst second) = PUNCH_OUT
  /\ fst (fst second) <> DUPLICATE
  /\ snd second
     = [ {| Name := "alice"; Date := "2024-03-05";
            Punch_In := "09:00:00"; Punch_Out := "09:00:01";
            Confidence := "HIGH"; Liveness_Check := "VERIFIED" |} ]%string.
Proof. vm_compute. repeat split; try reflexivity. discriminate. Qed.

(** C8 (as amended).  A failed read is answered [ERROR] with the system and
    the file unchanged.  A failed write is answered [ERROR] as well, but
    [last_marked] has by then received the update of the transition that
    was attempted (the stamp of a punch-in, or the removal made by a
    punch-out), and the file is the old one only when the write failed
    before the file was opened: opened, it holds what had been written
    when the call raised.  The branches that write nothing answer as
    usual. *)
Theorem C8_io_failure_is_error
  (self : Attendance.AttendanceSystem) (file : CsvFile) (env : CallEnv)
  (name : string) :
  read_ok env = false \/ write env <> Written ->
  let date := strftime_date (now_entry env) in
  let outcome := Attendance.mark_attendance self file env name true in
  (read_ok env = false -> outcome = (ERROR, self, file))
  /\ (read_ok env = true ->
      match ledger_state file name date with
      | NoRecord =>
          debounce_lapsed self env name date ->
          fst (fst outcome) = ERROR
          /\ Attendance.last_marked (snd (fst outcome))
             = <[name +:+ "_" +:+ date := now_stamp env]>
                 (Attendance.last_marked self)
          /\ snd outcome
             = match write env with Torn remains => remains | _ => file end
      | PunchedIn =>
          fst (fst outcome) = ERROR
          /\ Attendance.last_marked (snd (fst outcome))
             = delete (name +:+ "_" +:+ date) (Attendance.last_marked self)
          /\ snd outcome
             = match write env with Torn remains => remains | _ => file end
      | PunchedOut => outcome = (ALREADY_MARKED, self, file)
      end).
Proof.
  intros Hfail date outcome. subst outcome.
  split; [apply mark_read_error|].
  intros Hr.
  assert (Hw : write_ok env = false).
  { destruct Hfail as [H|H]; [congruence|].
    unfold write_ok. destruct (write env); [contradiction | reflexivity..]. }
  destruct (ledger_state file name date) eqn:Hstate.
  - intros Hlapsed.
    rewrite (mark_new_record self file env name Hr Hstate Hlapsed).
    rewrite Hw. cbn [fst snd]. unfold write_ok in Hw.
    destruct (write env); [discriminate Hw | |]; repeat split; reflexivity.
  - destruct (ledger_state_found file env name PunchedIn Hstate
                ltac:(discriminate))
      as (index & record & Hfind & Hblank).
    rewrite (mark_open_record self file env name index record Hr Hfind Hblank).
    rewrite Hw. cbn [fst snd]. unfold write_ok in Hw.
    destruct (write env); [discriminate Hw | |]; repeat split; reflexivity.
  - exact (mark_closed_record self file env name Hr Hstate).
Qed.

(** C10.  A call answered [PUNCH_IN] has written the file back with exactly
    one more row, whose [Confidence] is the literal "HIGH" and whose
    [Liveness_Check] is "VERIFIED".  The handler of key 'a' hands only the
    name and the liveness verdict of the recognition result to
    [mark_attendance]: two results that agree on these have the same
    effect, whatever their distance and confidence. *)
Theorem C10_punch_in_row_has_literal_confidence
  (self self' : Attendance.AttendanceSystem) (file file' : CsvFile)
  (env : CallEnv) (name : string) (is_alive : bool) :
  Attendance.mark_attendance self file env name is_alive
  = (PUNCH_IN, self', file') ->
  (exists row : Row string,
      file' = resave file ++ [row]
      /\ Confidence row = "HIGH"%string
      /\ Liveness_Check row = "VERIFIED"%string
      /\ Name row = name
      /\ Date row = strftime_date (now_entry env)
      /\ Punch_In row = strftime_time (now_entry env)
      /\ Punch_Out row = EmptyString)
  /\ (forall r1 r2 : RecognitionResult.t,
        RecognitionResult.name r1 = RecognitionResult.name r2 ->
        RecognitionResult.is_alive r1 = RecognitionResult.is_alive r2 ->
        Attendance.on_key_a self file env r1
        = Attendance.on_key_a self file env r2).
Proof.
  intros Hmark. split.
  - unfold Attendance.mark_attendance, read_csv, to_csv in Hmark.
    destruct is_alive; [|discriminate]. cbn [negb] in Hmark.
    destruct (read_ok env); [|discriminate].
    destruct (Attendance.find_record _ name _) as [[index record]|].
    + destruct (Attendance.punch_out_blank (Punch_Out record));
        [destruct (write env)|]; discriminate.
    + destruct (match Attendance.last_marked self !! _ with
                | Some _ => _ | None => _ end); [discriminate|].
      destruct (write env); [|discriminate..].
      injection Hmark as _ <-.
      rewrite map_app, render_read.
      eexists. split; [reflexivity|]. repeat split; reflexivity.
  - intros r1 r2 Hn Ha. unfold Attendance.on_key_a.
    rewrite Hn, Ha. reflexivity.
Qed.

(** ** mark_attendance on sample data *)



(** The claim C8 as stated fails when the write fails after the file has
    been opened: the call for "alice" answers [ERROR], the row that was on
    file for "bob" is gone, and the debounce entry of the key, absent
    before, is set. *)
Lemma C8_failed_write_counterexample :
  let file :=
    [ {| Name := "bob"; Date := "2024-03-05";
         Punch_In := "08:00:00"; Punch_Out := "";
         Confidence := "HIGH"; Liveness_Check := "VERIFIED" |} ]%string in
  let outcome :=
    Attendance.mark_attendance kiosk file
      (torn_call_at (nine_o_clock 0)) "alice" true in
  write (torn_call_at (nine_o_clock 0)) = Torn []
  /\ fst (fst outcome) = ERROR
  /\ snd outcome = []
  /\ snd outcome <> file
  /\ Attendance.last_marked kiosk !! "alice_2024-03-05"%string = None
  /\ Attendance.last_marked (snd (fst outcome)) !! "alice_2024-03-05"%string
     = Some (nine_o_clock 0)
  /\ snd (fst outcome) <> kiosk.
Proof.
  cbv zeta.
  repeat split; try (vm_compute; reflexivity).
  - vm_compute. discriminate.
  - intros H.
    apply (f_equal (fun s => Attendance.last_marked s
                             !! "alice_2024-03-05"%string)) in H.
    vm_compute in H. discriminate H.
Qed.

(** After a write that failed before the file was opened nothing is on
    file, and a retry within the window is answered [DUPLICATE]. *)
Lemma retry_after_failed_write_is_duplicate :
  Attendance.mark_attendance
    (snd (fst (Attendance.mark_attendance kiosk []
                 (call_at (nine_o_clock 0) true false) "alice" true)))
    [] (call_at (nine_o_clock 1) true true) "alice" true
  = (DUPLICATE,
     snd (fst (Attendance.mark_attendance kiosk []
                 (call_at (nine_o_clock 0) true false) "alice" true)),
     []).
Proof. vm_compute. reflexivity. Qed.

Lemma C3_duplicate_only_without_record_witness :
  read_ok (call_at (nine_o_clock 1) true true) = true
  /\ fst (fst (Attendance.mark_attendance
                 (snd (fst (Attendance.mark_attendance kiosk []
                              (call_at (nine_o_clock 0) true false)
                              "alice" true)))
                 [] (call_at (nine_o_clock 1) true true) "alice" true))
     = DUPLICATE
  /\ ledger_state [] "alice" "2024-03-05" = NoRecord.
Proof.
  split; [reflexivity|].
  pose proof (C3_duplicate_only_without_record
                (snd (fst (Attendance.mark_attendance kiosk []
                             (call_at (nine_o_clock 0) true false)
                             "alice" true)))
                [] (call_at (nine_o_clock 1) true true) "alice" eq_refl) as H.
  cbv zeta in H. destruct H as (Hiff & _).
  assert (Hdup :
    fst (fst (Attendance.mark_attendance
                (snd (fst (Attendance.mark_attendance kiosk []
                             (call_at (nine_o_clock 0) true false)
                             "alice" true)))
                [] (call_at (nine_o_clock 1) true true) "alice" true))
    = DUPLICATE) by (vm_compute; reflexivity).
  split; [exact Hdup|].
  exact (proj1 (proj1 Hiff Hdup)).
Defined.

Lemma C8_io_failure_is_error_witness :
  (read_ok (torn_call_at (nine_o_clock 0)) = false
   \/ write (torn_call_at (nine_o_clock 0)) <> Written)
  /\ fst (fst (Attendance.mark_attendance kiosk []
                 (torn_call_at (nine_o_clock 0)) "alice" true)) = ERROR.
Proof.
  assert (Hfail : read_ok (torn_call_at (nine_o_clock 0)) = false
                  \/ write (torn_call_at (nine_o_clock 0)) <> Written)
    by (right; discriminate).
  split; [exact Hfail|].
  pose proof (C8_io_failure_is_error kiosk []
                (torn_call_at (nine_o_clock 0)) "alice" Hfail) as H.
  cbv zeta in H. destruct H as [_ H]. specialize (H eq_refl).
  assert (Hstate : ledger_state [] "alice"
                     (strftime_date (now_entry (torn_call_at (nine_o_clock 0))))
                   = NoRecord) by reflexivity.
  rewrite Hstate in H.
  assert (Hlapsed : debounce_lapsed kiosk (torn_call_at (nine_o_clock 0))
                      "alice"
                      (strftime_date
                         (now_entry (torn_call_at (nine_o_clock 0))))).
  { vm_compute. exact I. }
  exact (proj1 (H Hlapsed)).
Defined.

Lemma C10_punch_in_row_has_literal_confidence_witness :
  Attendance.mark_attendance kiosk []
    (call_at (nine_o_clock 0) true true) "alice" true
  = (PUNCH_IN,
     Attendance.set_last_marked kiosk
       (<[Attendance.key_of "alice" "2024-03-05" := nine_o_clock 0]>
          (Attendance.last_marked kiosk)),
     [punch_in_row "alice" "2024-03-05" "09:00:00"])
  /\ exists row : Row string,
       [punch_in_row "alice" "2024-03-05" "09:00:00"] = resave [] ++ [row]
       /\ Confidence row = "HIGH"%string
       /\ Liveness_Check row = "VERIFIED"%string.
Proof.
  assert (Hmark :
    Attendance.mark_attendance kiosk []
      (call_at (nine_o_clock 0) true true) "alice" true
    = (PUNCH_IN,
       Attendance.set_last_marked kiosk
         (<[Attendance.key_of "alice" "2024-03-05" := nine_o_clock 0]>
            (Attendance.last_marked kiosk)),
       [punch_in_row "alice" "2024-03-05" "09:00:00"]))
    by (vm_compute; reflexivity).
  split; [exact Hmark|].
  destruct (proj1 (C10_punch_in_row_has_literal_confidence _ _ _ _ _ _ _ Hmark))
    as (row & Hfile & Hconf & Hlive & _).
  exists row. repeat split; assumption.
Defined.

(** ** numpy's [min] and [argmin] *)

Lemma scan_min_spec (rest : list Q) :
  forall (pre : list Q) (best : Q) (best_index : nat) (i : nat) (m : Q),
    nth_error pre best_index = Some best ->
    (forall j d, nth_error pre j = Some d -> (best <= d)%Q) ->
    (forall j d, (j < best_index)%nat -> nth_error pre j = Some d ->
                 (best < d)%Q) ->
    scan_min best best_index (length pre) rest = (i, m) ->
    nth_error (pre ++ rest) i = Some m
    /\ (forall j d, nth_error (pre ++ rest) j = Some d -> (m <= d)%Q)
    /\ (forall j d, (j < i)%nat -> nth_error (pre ++ rest) j = Some d ->
                    (m < d)%Q).
Proof.
  induction rest as [|x rest IH]; intros pre best best_index i m Hat Hmin Hfirst.
  - simpl. intros H. injection H as <- <-. rewrite app_nil_r. auto.
  - assert (Hlt : (best_index < length pre)%nat).
    { apply nth_error_Some. rewrite Hat. discriminate. }
    assert (Hsplit : forall j d, nth_error (pre ++ [x]) j = Some d ->
                       nth_error pre j = Some d
                       \/ (j = length pre /\ d = x)).
    { intros j d Hj. destruct (Nat.lt_ge_cases j (length pre)) as [Hin|Hout].
      - left. rewrite nth_error_app1 in Hj by exact Hin. exact Hj.
      - right. rewrite nth_error_app2 in Hj by exact Hout.
        destruct (j - length pre)%nat as [|k] eqn:Ek.
        + simpl in Hj. injection Hj as <-. split; [lia | reflexivity].
        + simpl in Hj. destruct k; discriminate. }
    cbn [scan_min]. replace (pre ++ x :: rest) with ((pre ++ [x]) ++ rest)
      by (rewrite <- app_assoc; reflexivity).
    replace (S (length pre)) with (length (pre ++ [x]))
      by (rewrite length_app; simpl; lia).
    destruct (Qltb x best) eqn:Ex.
    + apply Qltb_lt in Ex. apply IH.
      * rewrite nth_error_app2 by lia. rewrite Nat.sub_diag. reflexivity.
      * intros j d Hj. destruct (Hsplit j d Hj) as [Hin|[_ ->]].
        -- apply Qlt_le_weak. apply Qlt_le_trans with best; eauto.
        -- apply Qle_refl.
      * intros j d Hjlt Hj. destruct (Hsplit j d Hj) as [Hin|[-> _]].
        -- apply Qlt_le_trans with best; eauto.
        -- lia.
    + apply Qltb_ge in Ex. apply IH.
      * rewrite nth_error_app1 by exact Hlt. exact Hat.
      * intros j d Hj. destruct (Hsplit j d Hj) as [Hin|[_ ->]]; eauto.
      * intros j d Hjlt Hj. destruct (Hsplit j d Hj) as [Hin|[-> _]].
        -- eauto.
        -- lia.
Qed.

(** [np.min] is a least element, found at index [np.argmin], which is the
    first index where it occurs. *)
Lemma np_argmin_spec (distances : list Q) :
  distances <> [] ->
  nth_error distances (np_argmin distances) = Some (np_min distances)
  /\ (forall j d, nth_error distances j = Some d -> (np_min distances <= d)%Q)
  /\ (forall j d, (j < np_argmin distances)%nat ->
                  nth_error distances j = Some d -> (np_min distances < d)%Q).
Proof.
  destruct distances as [|d0 rest]; [contradiction|]. intros _.
  unfold np_argmin, np_min.
  destruct (scan_min d0 0 1 rest) as [i m] eqn:E.
  apply (scan_min_spec rest [d0] d0 0%nat i m).
  - reflexivity.
  - intros [|j] d Hj; simpl in Hj.
    + injection Hj as <-. apply Qle_refl.
    + destruct j; discriminate.
  - intros j d Hj. lia.
  - exact E.
Qed.

(** ** AttendanceSystem.recognize_face *)

Lemma load_known_faces_lengths (self : Attendance.AttendanceSystem)
  (files : list (string * option Embedding)) :
  length (Attendance.known_names self)
  = length (Attendance.known_encodings self) ->
  length (Attendance.known_names (Attendance.load_known_faces self files))
  = length (Attendance.known_encodings
              (Attendance.load_known_faces self files)).
Proof.
  revert self. induction files as [|[stem [encoding|]] files IH];
    intros self Hlen; simpl.
  - exact Hlen.
  - apply IH. simpl. rewrite !length_app. simpl. lia.
  - apply IH. exact Hlen.
Qed.

(** The names and the encodings of a system as it is created are aligned. *)
Lemma init_lengths (cfg : SystemConfig)
  (files : list (string * option Embedding)) :
  length (Attendance.known_names (Attendance.init cfg files))
  = length (Attendance.known_encodings (Attendance.init cfg files)).
Proof. apply load_known_faces_lengths. reflexivity. Qed.

Section RecognitionFacts.

Variable resize : Gray -> nat * nat -> Gray.
Variable face_distance : Embedding -> Embedding -> Q.
Variable float_sub : Q -> Q -> Q.

Abbreviation recognize_face :=
  (Attendance.recognize_face resize face_distance float_sub).

(** C4.  The result of [recognize_face], case by case.
    - No face: no name, distance 1, confidence 0.
    - Several faces: the name is "MULTIPLE_FACES", whatever the encodings.
    - One face and no encoding extracted: no name, distance 1.
    - One face with an encoding and nothing enrolled: "UNKNOWN".
    - Otherwise the reported distance is a least distance to the enrolled
      encodings, taken at the first index where it occurs; the confidence is
      one minus that distance; the name is the one enrolled at that index
      when the distance is below [recognition_threshold] and the confidence
      above [confidence_threshold], and "UNKNOWN" when not. *)
Theorem C4_recognize_face_postcondition
  (self : Attendance.AttendanceSystem) (scene : Attendance.Scene) :
  length (Attendance.known_names self)
  = length (Attendance.known_encodings self) ->
  let result := fst (recognize_face self scene) in
  match Attendance.faces scene with
  | [] =>
      RecognitionResult.name result = None
      /\ RecognitionResult.distance result = 1%Q
      /\ RecognitionResult.confidence result = 0%Q
  | _ :: _ :: _ =>
      RecognitionResult.name result = Some "MULTIPLE_FACES"%string
  | [_] =>
      match Attendance.face_encodings scene with
      | [] =>
          RecognitionResult.name result = None
          /\ RecognitionResult.distance result = 1%Q
      | face_encoding :: _ =>
          let distances :=
            map (fun known => face_distance known face_encoding)
                (Attendance.known_encodings self) in
          match Attendance.known_encodings self with
          | [] => RecognitionResult.name result = Some "UNKNOWN"%string
          | _ :: _ =>
              exists (min_index : nat) (min_distance : Q) (candidate : string),
                nth_error distances min_index = Some min_distance
                /\ (forall j d, nth_error distances j = Some d ->
                                (min_distance <= d)%Q)
                /\ (forall j d, (j < min_index)%nat ->
                                nth_error distances j = Some d ->
                                (min_distance < d)%Q)
                /\ nth_error (Attendance.known_names self) min_index
                   = Some candidate
                /\ RecognitionResult.distance result = min_distance
                /\ RecognitionResult.confidence result
                   = float_sub 1%Q min_distance
                /\ ((min_distance
                     < recognition_threshold
                         (recognition (Attendance.config self)))%Q
                    /\ (confidence_threshold
                          (recognition (Attendance.config self))
                        < float_sub 1%Q min_distance)%Q ->
                    RecognitionResult.name result = Some candidate)
                /\ (~ ((min_distance
                        < recognition_threshold
                            (recognition (Attendance.config self)))%Q
                       /\ (confidence_threshold
                             (recognition (Attendance.config self))
                           < float_sub 1%Q min_distance)%Q) ->
                    RecognitionResult.name result = Some "UNKNOWN"%string)
          end
      end
  end.
Proof.
  intros Hlen result. unfold result, Attendance.recognize_face.
  destruct (Attendance.faces scene) as [|face [|face' others]].
  - repeat split; reflexivity.
  - destruct (Liveness.detect_motion resize _ _ _) as [alive detector].
    destruct (Attendance.face_encodings scene) as [|face_encoding encodings].
    + split; reflexivity.
    + cbn [Attendance.known_encodings Attendance.set_liveness_detector
             Attendance.known_names Attendance.config].
      destruct (Attendance.known_encodings self) as [|known knowns] eqn:Eknown.
      * reflexivity.
      * rewrite <- Eknown.
        set (distances := map (fun k => face_distance k face_encoding)
                              (Attendance.known_encodings self)).
        assert (Hne : distances <> []).
        { unfold distances. rewrite Eknown. discriminate. }
        destruct (np_argmin_spec distances Hne) as (Hat & Hmin & Hfirst).
        assert (Hidx : (np_argmin distances
                        < length (Attendance.known_names self))%nat).
        { rewrite Hlen.
          assert (H : (np_argmin distances < length distances)%nat)
            by (apply nth_error_Some; rewrite Hat; discriminate).
          unfold distances in H at 2. rewrite length_map in H.
          rewrite Eknown in H. exact H. }
        destruct (nth_error (Attendance.known_names self) (np_argmin distances))
          as [candidate|] eqn:Ecand;
          [|apply nth_error_None in Ecand; lia].
        exists (np_argmin distances), (np_min distances), candidate.
        split; [exact Hat|]. split; [exact Hmin|]. split; [exact Hfirst|].
        split; [exact Ecand|].
        destruct (Qltb (np_min distances)
                    (recognition_threshold (recognition (Attendance.config self))))
          eqn:Ed;
          destruct (Qltb (confidence_threshold
                            (recognition (Attendance.config self)))
                      (float_sub 1%Q (np_min distances))) eqn:Ec;
          cbn [andb fst RecognitionResult.name RecognitionResult.distance
                 RecognitionResult.confidence];
          (split; [reflexivity|]); (split; [reflexivity|]); split;
          intros Hpass;
          try reflexivity;
          try (destruct Hpass as [Hd Hc]; apply Qltb_lt in Hd, Hc; congruence);
          try (exfalso; apply Hpass; split; apply Qltb_lt; assumption).
  - reflexivity.
Qed.

End RecognitionFacts.

Lemma C4_recognize_face_postcondition_witness :
  length (Attendance.known_names kiosk)
  = length (Attendance.known_encodings kiosk)
  /\ RecognitionResult.name
       (fst (Attendance.recognize_face resize_nearest manhattan Qminus
               kiosk alice_in_view))
     = Some "alice"%string.
Proof.
  assert (Hlen : length (Attendance.known_names kiosk)
                 = length (Attendance.known_encodings kiosk))
    by reflexivity.
  split; [exact Hlen|].
  pose proof (C4_recognize_face_postcondition resize_nearest manhattan Qminus
                kiosk alice_in_view Hlen) as H.
  cbv zeta in H.
  change (Attendance.faces alice_in_view) with [dark] in H.
  change (Attendance.face_encodings alice_in_view)
    with [[0 # 1; 0 # 1]%Q] in H.
  cbv beta iota in H.
  change (Attendance.known_encodings kiosk)
    with [[0 # 1; 0 # 1]%Q; [1 # 1; 1 # 1]%Q] in H.
  cbv beta iota in H.
  destruct H as (i & d & c & Hat & _ & _ & Hname & Hd & _ & Haccept & _).
  assert (Ed : d = (0 # 1)%Q) by (rewrite <- Hd; vm_compute; reflexivity).
  subst d.
  rewrite Haccept.
  - destruct i as [|[|i]].
    + vm_compute in Hname. symmetry. exact Hname.
    + vm_compute in Hat. discriminate Hat.
    + vm_compute in Hat. destruct i; discriminate Hat.
  - split; vm_compute; reflexivity.
Defined.

(** ** The two versions side by side *)

(** On every input that [recognize.py] survives, its detector does what the
    detector of [recognize_v2.py] does under the default configuration; it
    raises on an empty face region. *)
Lemma V1_detect_motion_agrees (resize : Gray -> nat * nat -> Gray)
  (self : Liveness.LivenessDetector) (face : option Gray) :
  V1.detect_motion resize V1.MOTION_HISTORY_SIZE self face
  = match face with
    | Some gray =>
        if Nat.eqb (size gray) 0 then None
        else Some (Liveness.detect_motion resize default_LivenessConfig
                     self face)
    | None =>
        Some (Liveness.detect_motion resize default_LivenessConfig self face)
    end.
Proof.
  destruct face as [gray|]; [|reflexivity].
  unfold V1.detect_motion, Liveness.detect_motion.
  destruct (Nat.eqb (size gray) 0); [reflexivity|].
  destruct (Nat.eqb (length (Liveness.motion_history self)) 0); reflexivity.
Qed.

(** With a window of five seconds, [mark_attendance] of [recognize.py]
    returns what that of [recognize_v2.py] returns, and raises exactly
    where the latter answers [ERROR]. *)
Lemma V1_mark_attendance_agrees
  (self : Attendance.AttendanceSystem) (file : CsvFile) (env : CallEnv)
  (name : string) (is_alive : bool) :
  duplicate_detection_window (recognition (Attendance.config self)) = 5 ->
  match V1.mark_attendance self file env name is_alive with
  | Some outcome =>
      outcome = Attendance.mark_attendance self file env name is_alive
      /\ fst (fst outcome) <> ERROR
  | None =>
      fst (fst (Attendance.mark_attendance self file env name is_alive))
      = ERROR
  end.
Proof.
  intros Hwindow.
  unfold V1.mark_attendance, Attendance.mark_attendance, read_csv, to_csv.
  rewrite Hwindow.
  destruct is_alive; cbn [negb]; [|split; [reflexivity | discriminate]].
  destruct (read_ok env); [|reflexivity].
  destruct (Attendance.find_record _ name _) as [[index record]|].
  - destruct (Attendance.punch_out_blank (Punch_Out record)).
    + destruct (write env); [split; [reflexivity | discriminate] | reflexivity..].
    + split; [reflexivity | discriminate].
  - destruct (match Attendance.last_marked self !! _ with
              | Some _ => _ | None => _ end).
    + split; [reflexivity | discriminate].
    + destruct (write env); [split; [reflexivity | discriminate] | reflexivity..].
Qed.

(** * Further properties *)

(** ** The motion window over a run of frames *)

Section WindowFacts.

Variable resize : Gray -> nat * nat -> Gray.
Variable config : LivenessConfig.

Abbreviation detect := (Liveness.detect_motion resize config).
Abbreviation feed := (Liveness.run resize config).
Abbreviation in_capacity := (Liveness.window_ok config).

Lemma run_step (self : Liveness.LivenessDetector) (f : option Gray)
  (frames : list (option Gray)) :
  feed self (f :: frames)
  = (fst (detect self f) :: fst (feed (snd (detect self f)) frames),
     snd (feed (snd (detect self f)) frames)).
Proof.
  cbn [Liveness.run].
  destruct (detect self f) as [v self']. cbn [fst snd].
  destruct (feed self' frames) as [vs self'']. reflexivity.
Qed.

Lemma run_app (self : Liveness.LivenessDetector)
  (frames more : list (option Gray)) :
  feed self (frames ++ more)
  = (fst (feed self frames) ++ fst (feed (snd (feed self frames)) more),
     snd (feed (snd (feed self frames)) more)).
Proof.
  revert self. induction frames as [|f frames IH]; intros self.
  - simpl. destruct (feed self more). reflexivity.
  - rewrite <- app_comm_cons. rewrite !run_step. rewrite IH. reflexivity.
Qed.

(** The window after an update with a non-empty patch, by cases on whether
    the old window was full. *)
Lemma detect_motion_fifo (self : Liveness.LivenessDetector) (gray : Gray) :
  1 <= motion_history_size config ->
  in_capacity self ->
  size gray <> 0%nat ->
  Liveness.motion_history (snd (detect self (Some gray)))
  = (if Z.of_nat (length (Liveness.motion_history self))
        <? motion_history_size config
     then Liveness.motion_history self
     else tl (Liveness.motion_history self)) ++ [gray].
Proof.
  intros Hcap [_ Hle] Hsize. rewrite detect_motion_window by assumption.
  destruct (Liveness.motion_history self) as [|p rest].
  - simpl. destruct (_ <? motion_history_size config); reflexivity.
  - cbn [length Nat.eqb]. rewrite length_app. cbn [length].
    cbn [length] in Hle.
    destruct (Z.of_nat (S (length rest) + 1) >? motion_history_size config)
      eqn:Eo; rewrite Z.gtb_ltb in Eo;
      destruct (Z.of_nat (S (length rest)) <? motion_history_size config)
        eqn:E; try reflexivity.
    + apply Z.ltb_lt in Eo, E. lia.
    + apply Z.ltb_ge in Eo, E. lia.
Qed.

Lemma run_window (patches : list Gray) :
  1 <= motion_history_size config ->
  Forall (fun p => size p <> 0%nat) patches ->
  forall self : Liveness.LivenessDetector,
    in_capacity self ->
    Liveness.motion_history (snd (feed self (map Some patches)))
    = drop (length (Liveness.motion_history self ++ patches)
            - Z.to_nat (motion_history_size config))
        (Liveness.motion_history self ++ patches).
Proof.
  intros Hcap Hall. induction Hall as [|p patches Hp Hall IH]; intros self Hok.
  - simpl. rewrite app_nil_r.
    destruct Hok as [_ Hle].
    replace (length (Liveness.motion_history self)
             - Z.to_nat (motion_history_size config))%nat with 0%nat by lia.
    reflexivity.
  - cbn [map]. rewrite run_step. cbn [snd].
    rewrite IH by (apply detect_motion_window_ok; assumption).
    rewrite (detect_motion_fifo self p Hcap Hok Hp).
    destruct Hok as [_ Hle].
    destruct (Z.of_nat (length (Liveness.motion_history self))
              <? motion_history_size config) eqn:E.
    + rewrite <- app_assoc. reflexivity.
    + apply Z.ltb_ge in E.
      destruct (Liveness.motion_history self) as [|x t]; cbn [length] in *;
        [lia|].
      cbn [tl]. rewrite <- !app_assoc. cbn [app length].
      replace (S (length (t ++ p :: patches))
               - Z.to_nat (motion_history_size config))%nat
        with (S (length (t ++ p :: patches)
                 - Z.to_nat (motion_history_size config)))%nat
        by (rewrite length_app; cbn [length]; lia).
      reflexivity.
Qed.

(** X1.  Fed non-empty patches from its initial state, the detector holds
    exactly the most recent [motion_history_size] of them, oldest first (all
    of them while fewer have been fed). *)
Theorem window_holds_most_recent_patches (patches : list Gray) :
  1 <= motion_history_size config ->
  Forall (fun p => size p <> 0%nat) patches ->
  Liveness.motion_history (snd (feed Liveness.init (map Some patches)))
  = drop (length patches - Z.to_nat (motion_history_size config)) patches.
Proof.
  intros Hcap Hall.
  rewrite (run_window patches Hcap Hall Liveness.init).
  - reflexivity.
  - unfold Liveness.window_ok. simpl. lia.
Qed.

End WindowFacts.

Lemma window_holds_most_recent_patches_witness :
  1 <= motion_history_size default_LivenessConfig
  /\ Forall (fun p => size p <> 0%nat)
       (repeat dark 9 ++ [bright; dark; bright])
  /\ Liveness.motion_history
       (snd (Liveness.run resize_nearest default_LivenessConfig Liveness.init
               (map Some (repeat dark 9 ++ [bright; dark; bright]))))
     = repeat dark 7 ++ [bright; dark; bright].
Proof.
  assert (Hcap : 1 <= motion_history_size default_LivenessConfig)
    by (simpl; lia).
  assert (Hall : Forall (fun p => size p <> 0%nat)
                   (repeat dark 9 ++ [bright; dark; bright]))
    by (simpl; repeat constructor; vm_compute; lia).
  split; [exact Hcap|]. split; [exact Hall|].
  exact (window_holds_most_recent_patches resize_nearest
           default_LivenessConfig _ Hcap Hall).
Defined.

(** ** When the detector can and cannot report a live face *)

Section VerdictFacts.

Variable resize : Gray -> nat * nat -> Gray.
Variable config : LivenessConfig.

Abbreviation detect' := (Liveness.detect_motion resize config).
Abbreviation feed' := (Liveness.run resize config).
Abbreviation motion := (Liveness.frame_motion resize config).

Lemma detect_short_window (self : Liveness.LivenessDetector)
  (f : option Gray) :
  motion_history_size config < 3 ->
  Liveness.is_alive self = false ->
  (length (Liveness.motion_history self) <= 2)%nat ->
  fst (detect' self f) = false
  /\ Liveness.is_alive (snd (detect' self f)) = false
  /\ (length (Liveness.motion_history (snd (detect' self f))) <= 2)%nat.
Proof.
  intros Hcap Hdead Hlen. destruct f as [gray|]; [|simpl; auto with arith].
  unfold Liveness.detect_motion.
  destruct (Nat.eqb (size gray) 0); [simpl; auto|].
  destruct (Nat.eqb (length (Liveness.motion_history self)) 0) eqn:El.
  - apply Nat.eqb_eq in El. simpl. rewrite length_app, El. simpl. auto.
  - set (appended := Liveness.motion_history self ++ [gray]).
    assert (Happ : length appended = S (length (Liveness.motion_history self)))
      by (unfold appended; rewrite length_app; simpl; lia).
    set (history := if Z.of_nat (length appended) >? motion_history_size config
                    then tl appended else appended).
    assert (Hshort : (length history <= 2)%nat).
    { unfold history.
      destruct (Z.of_nat (length appended) >? motion_history_size config) eqn:E.
      - destruct appended; simpl in *; lia.
      - rewrite Z.gtb_ltb in E. apply Z.ltb_ge in E. lia. }
    cbn [fst snd Liveness.is_alive Liveness.motion_history].
    assert (Hno : (3 <=? length history)%nat = false)
      by (apply Nat.leb_gt; lia).
    rewrite Hno. auto.
Qed.

(** X2.  With a window capacity below three the detector never reports a
    live face: from its initial state every verdict of every run of frames
    is negative. *)
Theorem capacity_below_three_never_alive (frames : list (option Gray)) :
  motion_history_size config < 3 ->
  fst (feed' Liveness.init frames) = repeat false (length frames).
Proof.
  intros Hcap.
  assert (Hgen : forall self : Liveness.LivenessDetector,
             Liveness.is_alive self = false ->
             (length (Liveness.motion_history self) <= 2)%nat ->
             fst (feed' self frames) = repeat false (length frames)).
  { induction frames as [|f frames IH]; intros self Hdead Hlen;
      [reflexivity|].
    destruct (detect_short_window self f Hcap Hdead Hlen) as (Hv & Hd & Hl).
    rewrite run_step. cbn [fst length repeat].
    rewrite Hv, (IH _ Hd Hl). reflexivity. }
  apply Hgen; [reflexivity | simpl; lia].
Qed.

Lemma detect_keeps_backing (self : Liveness.LivenessDetector) (gray : Gray) :
  verdict_backed self ->
  verdict_backed (snd (detect' self (Some gray)))
  /\ (fst (detect' self (Some gray)) = true ->
      (3 <= length (Liveness.motion_history
                      (snd (detect' self (Some gray)))))%nat).
Proof.
  unfold verdict_backed. intros Hback. unfold Liveness.detect_motion.
  destruct (Nat.eqb (size gray) 0); [simpl; split; [exact Hback | discriminate]|].
  destruct (Nat.eqb (length (Liveness.motion_history self)) 0) eqn:El.
  - apply Nat.eqb_eq in El. simpl. split; [|discriminate].
    intros Halive. specialize (Hback Halive). lia.
  - set (appended := Liveness.motion_history self ++ [gray]).
    assert (Happ : length appended = S (length (Liveness.motion_history self)))
      by (unfold appended; rewrite length_app; simpl; lia).
    set (history := if Z.of_nat (length appended) >? motion_history_size config
                    then tl appended else appended).
    assert (Hkeep : (length (Liveness.motion_history self) <= length history)%nat).
    { unfold history.
      destruct (Z.of_nat (length appended) >? motion_history_size config).
      - destruct appended; simpl in *; lia.
      - lia. }
    cbn [fst snd Liveness.is_alive Liveness.motion_history].
    destruct (3 <=? length history)%nat eqn:E3.
    + apply Nat.leb_le in E3. split; intros _; exact E3.
    + split; intros Halive; specialize (Hback Halive); lia.
Qed.

(** X3.  As long as the face is never lost (no update without a face), a
    positive verdict is returned only when the window holds at least three
    patches. *)
Theorem positive_verdict_needs_three_patches
  (patches : list Gray) (gray : Gray) :
  fst (detect' (snd (feed' Liveness.init (map Some patches))) (Some gray))
  = true ->
  (3 <= length (Liveness.motion_history
                  (snd (detect' (snd (feed' Liveness.init (map Some patches)))
                          (Some gray)))))%nat.
Proof.
  assert (Hgen : forall self : Liveness.LivenessDetector,
             verdict_backed self ->
             verdict_backed (snd (feed' self (map Some patches)))).
  { induction patches as [|p patches IH]; intros self Hback; [exact Hback|].
    cbn [map]. rewrite run_step. cbn [snd].
    apply IH. apply detect_keeps_backing. exact Hback. }
  apply detect_keeps_backing. apply Hgen.
  unfold verdict_backed. simpl. discriminate.
Qed.

End VerdictFacts.

Lemma positive_verdict_needs_three_patches_witness :
  fst (Liveness.detect_motion resize_nearest default_LivenessConfig
         (snd (Liveness.run resize_nearest default_LivenessConfig Liveness.init
                 (map Some [dark; bright])))
         (Some dark)) = true
  /\ (3 <= length
            (Liveness.motion_history
               (snd (Liveness.detect_motion resize_nearest
                       default_LivenessConfig
                       (snd (Liveness.run resize_nearest default_LivenessConfig
                               Liveness.init (map Some [dark; bright])))
                       (Some dark)))))%nat.
Proof.
  assert (H : fst (Liveness.detect_motion resize_nearest default_LivenessConfig
                     (snd (Liveness.run resize_nearest default_LivenessConfig
                             Liveness.init (map Some [dark; bright])))
                     (Some dark)) = true)
    by (vm_compute; reflexivity).
  split; [exact H|].
  exact (positive_verdict_needs_three_patches resize_nearest
           default_LivenessConfig [dark; bright] dark H).
Defined.

Lemma capacity_below_three_never_alive_witness :
  motion_history_size
    {| motion_history_size := 2; liveness_threshold := 15;
       min_face_presence := 5; motion_pixel_threshold := 10 |} < 3
  /\ fst (Liveness.run resize_nearest
            {| motion_history_size := 2; liveness_threshold := 15;
               min_face_presence := 5; motion_pixel_threshold := 10 |}
            Liveness.init
            [Some dark; Some bright; Some dark; Some bright])
     = [false; false; false; false].
Proof.
  assert (Hcap : motion_history_size
                   {| motion_history_size := 2; liveness_threshold := 15;
                      min_face_presence := 5; motion_pixel_threshold := 10 |}
                 < 3) by (simpl; lia).
  split; [exact Hcap|].
  exact (capacity_below_three_never_alive resize_nearest _
           [Some dark; Some bright; Some dark; Some bright] Hcap).
Defined.

(** ** Motion that decides the verdict *)

Section MotionFacts.

Variable resize : Gray -> nat * nat -> Gray.
Variable config : LivenessConfig.

Abbreviation detect'' := (Liveness.detect_motion resize config).
Abbreviation pair_motion := (Liveness.frame_motion resize config).

Lemma adjacent_pairs_length (window : list Gray) :
  length (adjacent_pairs window) = (length window - 1)%nat.
Proof.
  induction window as [|p [|q rest] IH]; try reflexivity.
  change (adjacent_pairs (p :: q :: rest))
    with ((p, q) :: adjacent_pairs (q :: rest)).
  cbn [length] in *. lia.
Qed.

Lemma total_motion_lower (lo : Z) (window : list Gray) :
  Forall (fun pq => lo <= pair_motion (fst pq) (snd pq))
         (adjacent_pairs window) ->
  lo * Z.of_nat (length window - 1)
  <= Liveness._calculate_total_motion resize config window.
Proof.
  rewrite total_motion_adjacent.
  induction window as [|p [|q rest] IH]; intros Hall.
  - simpl. lia.
  - simpl. lia.
  - change (adjacent_pairs (p :: q :: rest))
      with ((p, q) :: adjacent_pairs (q :: rest)) in Hall.
    inversion Hall as [|pq pairs Hpq Hrest]; subst.
    specialize (IH Hrest). rewrite adjacent_motion_step.
    rewrite <- frame_motion_pair. cbn [fst snd] in Hpq.
    cbn [length] in *.
    replace (S (S (length rest)) - 1)%nat with (S (length rest)) by lia.
    replace (S (length rest) - 1)%nat with (length rest) in IH by lia.
    lia.
Qed.

Lemma total_motion_upper (hi : Z) (window : list Gray) :
  Forall (fun pq => pair_motion (fst pq) (snd pq) <= hi)
         (adjacent_pairs window) ->
  Liveness._calculate_total_motion resize config window
  <= hi * Z.of_nat (length window - 1).
Proof.
  rewrite total_motion_adjacent.
  induction window as [|p [|q rest] IH]; intros Hall.
  - simpl. lia.
  - simpl. lia.
  - change (adjacent_pairs (p :: q :: rest))
      with ((p, q) :: adjacent_pairs (q :: rest)) in Hall.
    inversion Hall as [|pq pairs Hpq Hrest]; subst.
    specialize (IH Hrest). rewrite adjacent_motion_step.
    rewrite <- frame_motion_pair. cbn [fst snd] in Hpq.
    cbn [length] in *.
    replace (S (S (length rest)) - 1)%nat with (S (length rest)) by lia.
    replace (S (length rest) - 1)%nat with (length rest) in IH by lia.
    lia.
Qed.

Lemma Forall_weaken_pairs (P Q : Gray * Gray -> Prop) (l : list (Gray * Gray)) :
  (forall pq, P pq -> Q pq) -> Forall P l -> Forall Q l.
Proof. intros H Hall. induction Hall; constructor; auto. Qed.

(** The motion between two frames is a count of pixels of the earlier one. *)
Lemma count_above_le_length (threshold : Z) (diff : list Z) :
  0 <= count_above threshold diff <= Z.of_nat (length diff).
Proof.
  induction diff as [|d diff IH]; simpl; [lia|].
  destruct (threshold <? d); lia.
Qed.

Lemma absdiff_length (a b : list Z) : (length (absdiff a b) <= length a)%nat.
Proof.
  revert b. induction a as [|x a IH]; intros [|y b]; simpl; try lia.
  specialize (IH b). lia.
Qed.

Lemma frame_motion_bounds (p q : Gray) :
  0 <= pair_motion p q <= Z.of_nat (length (pixels p)).
Proof.
  unfold Liveness.frame_motion.
  set (q' := if negb (shape_eqb (shape p) (shape q)) then _ else q).
  pose proof (count_above_le_length (motion_pixel_threshold config)
                (absdiff (pixels p) (pixels q'))).
  pose proof (absdiff_length (pixels p) (pixels q')). lia.
Qed.

Lemma verdict_true_from_motion (self : Liveness.LivenessDetector)
  (gray : Gray) :
  size gray <> 0%nat ->
  (3 <= length (Liveness.motion_history (snd (detect'' self (Some gray)))))%nat ->
  Forall (fun pq => liveness_threshold config < pair_motion (fst pq) (snd pq))
    (adjacent_pairs (Liveness.motion_history (snd (detect'' self (Some gray))))) ->
  fst (detect'' self (Some gray)) = true.
Proof.
  intros Hsize H3 Hall.
  destruct (detect_motion_verdict resize config self gray Hsize H3) as [-> _].
  set (window := Liveness.motion_history (snd (detect'' self (Some gray)))) in *.
  assert (Hlo : (liveness_threshold config + 1) * Z.of_nat (length window - 1)
                <= Liveness._calculate_total_motion resize config window).
  { apply total_motion_lower. eapply Forall_weaken_pairs; [|exact Hall].
    intros pq H. simpl in H. lia. }
  unfold Liveness.avg_motion.
  set (total := Liveness._calculate_total_motion resize config window) in *.
  set (n := Z.of_nat (length window - 1)) in *.
  assert (Hn : 0 < n) by (unfold n; lia).
  apply Qltb_lt. apply Qlt_shift_div_l.
  - change 0%Q with (inject_Z 0). rewrite <- Zlt_Qlt. exact Hn.
  - rewrite <- inject_Z_mult. rewrite <- Zlt_Qlt. nia.
Qed.

Lemma verdict_false_from_motion (self : Liveness.LivenessDetector)
  (gray : Gray) :
  size gray <> 0%nat ->
  (3 <= length (Liveness.motion_history (snd (detect'' self (Some gray)))))%nat ->
  Forall (fun pq => pair_motion (fst pq) (snd pq) <= liveness_threshold config)
    (adjacent_pairs (Liveness.motion_history (snd (detect'' self (Some gray))))) ->
  fst (detect'' self (Some gray)) = false.
Proof.
  intros Hsize H3 Hall.
  destruct (detect_motion_verdict resize config self gray Hsize H3) as [-> _].
  set (window := Liveness.motion_history (snd (detect'' self (Some gray)))) in *.
  pose proof (total_motion_upper _ window Hall) as Hhi.
  unfold Liveness.avg_motion.
  set (total := Liveness._calculate_total_motion resize config window) in *.
  set (n := Z.of_nat (length window - 1)) in *.
  assert (Hn : 0 < n) by (unfold n; lia).
  apply Qltb_ge. apply Qle_shift_div_r.
  - change 0%Q with (inject_Z 0). rewrite <- Zlt_Qlt. exact Hn.
  - rewrite <- inject_Z_mult. rewrite <- Zle_Qle. exact Hhi.
Qed.

(** X4.  Once the window holds three patches, the verdict is positive when
    every adjacent pair of the window differs in more than
    [liveness_threshold] pixels, and negative when no pair differs in more
    than that many. *)
Theorem pairwise_motion_decides_verdict
  (self : Liveness.LivenessDetector) (gray : Gray) :
  size gray <> 0%nat ->
  (3 <= length (Liveness.motion_history (snd (detect'' self (Some gray)))))%nat ->
  (Forall (fun pq => liveness_threshold config < pair_motion (fst pq) (snd pq))
     (adjacent_pairs (Liveness.motion_history (snd (detect'' self (Some gray))))) ->
   fst (detect'' self (Some gray)) = true)
  /\ (Forall (fun pq => pair_motion (fst pq) (snd pq) <= liveness_threshold config)
        (adjacent_pairs (Liveness.motion_history (snd (detect'' self (Some gray))))) ->
      fst (detect'' self (Some gray)) = false).
Proof.
  intros Hsize H3. split.
  - apply verdict_true_from_motion; assumption.
  - apply verdict_false_from_motion; assumption.
Qed.

Lemma adjacent_pairs_from_window (P : Gray -> Prop) (window : list Gray) :
  Forall P window -> Forall (fun pq => P (fst pq)) (adjacent_pairs window).
Proof.
  induction window as [|p [|q rest] IH]; intros Hall; try constructor.
  - inversion Hall; assumption.
  - apply IH. inversion Hall; assumption.
Qed.

(** X5.  A face whose patches have no more than [liveness_threshold]
    pixels is never judged alive by an update that computes the verdict:
    the motion between two frames cannot exceed the pixel count of the
    earlier one. *)
Theorem small_patches_never_alive
  (self : Liveness.LivenessDetector) (gray : Gray) :
  size gray <> 0%nat ->
  (3 <= length (Liveness.motion_history (snd (detect'' self (Some gray)))))%nat ->
  Forall (fun p => Z.of_nat (length (pixels p)) <= liveness_threshold config)
    (Liveness.motion_history (snd (detect'' self (Some gray)))) ->
  fst (detect'' self (Some gray)) = false.
Proof.
  intros Hsize H3 Hsmall.
  apply verdict_false_from_motion; [assumption | assumption |].
  eapply Forall_weaken_pairs;
    [|exact (adjacent_pairs_from_window _ _ Hsmall)].
  intros pq H. cbv beta in H.
  pose proof (frame_motion_bounds (fst pq) (snd pq)). lia.
Qed.

End MotionFacts.

Lemma pairwise_motion_decides_verdict_witness :
  size dark <> 0%nat
  /\ (3 <= length
            (Liveness.motion_history
               (snd (Liveness.detect_motion resize_nearest
                       default_LivenessConfig
                       (snd (Liveness.run resize_nearest default_LivenessConfig
                               Liveness.init [Some dark; Some bright]))
                       (Some dark)))))%nat
  /\ fst (Liveness.detect_motion resize_nearest default_LivenessConfig
            (snd (Liveness.run resize_nearest default_LivenessConfig
                    Liveness.init [Some dark; Some bright]))
            (Some dark)) = true.
Proof.
  assert (Hsize : size dark <> 0%nat) by (vm_compute; lia).
  assert (H3 : (3 <= length
                      (Liveness.motion_history
                         (snd (Liveness.detect_motion resize_nearest
                                 default_LivenessConfig
                                 (snd (Liveness.run resize_nearest
                                         default_LivenessConfig
                                         Liveness.init [Some dark; Some bright]))
                                 (Some dark)))))%nat)
    by (vm_compute; lia).
  split; [exact Hsize|]. split; [exact H3|].
  apply (proj1 (pairwise_motion_decides_verdict resize_nearest
                  default_LivenessConfig _ dark Hsize H3)).
  vm_compute. repeat constructor.
Defined.

Lemma small_patches_never_alive_witness :
  size (uniform 3 3 0) <> 0%nat
  /\ (3 <= length
            (Liveness.motion_history
               (snd (Liveness.detect_motion resize_nearest
                       default_LivenessConfig
                       (snd (Liveness.run resize_nearest default_LivenessConfig
                               Liveness.init
                               [Some (uniform 3 3 0); Some (uniform 3 3 255)]))
                       (Some (uniform 3 3 0))))))%nat
  /\ fst (Liveness.detect_motion resize_nearest default_LivenessConfig
            (snd (Liveness.run resize_nearest default_LivenessConfig
                    Liveness.init
                    [Some (uniform 3 3 0); Some (uniform 3 3 255)]))
            (Some (uniform 3 3 0))) = false.
Proof.
  assert (Hsize : size (uniform 3 3 0) <> 0%nat) by (vm_compute; lia).
  assert (H3 : (3 <= length
                      (Liveness.motion_history
                         (snd (Liveness.detect_motion resize_nearest
                                 default_LivenessConfig
                                 (snd (Liveness.run resize_nearest
                                         default_LivenessConfig
                                         Liveness.init
                                         [Some (uniform 3 3 0);
                                          Some (uniform 3 3 255)]))
                                 (Some (uniform 3 3 0))))))%nat)
    by (vm_compute; lia).
  split; [exact Hsize|]. split; [exact H3|].
  apply (small_patches_never_alive resize_nearest default_LivenessConfig
           _ (uniform 3 3 0) Hsize H3).
  vm_compute. repeat constructor; discriminate.
Defined.

(** ** What [recognize_face] can return *)

Section RecognitionNames.

Variable resize : Gray -> nat * nat -> Gray.
Variable face_distance : Embedding -> Embedding -> Q.
Variable float_sub : Q -> Q -> Q.

(** X6.  A name returned by [recognize_face] is one of the two sentinels or
    the name of an enrolled identity. *)
Theorem recognized_name_is_enrolled
  (self : Attendance.AttendanceSystem) (scene : Attendance.Scene)
  (name : string) :
  RecognitionResult.name
    (fst (Attendance.recognize_face resize face_distance float_sub self scene))
  = Some name ->
  name = "MULTIPLE_FACES"%string \/ name = "UNKNOWN"%string
  \/ In name (Attendance.known_names self).
Proof.
  unfold Attendance.recognize_face.
  destruct (Attendance.faces scene) as [|face [|face' others]].
  - discriminate.
  - destruct (Liveness.detect_motion resize _ _ _) as [alive detector].
    destruct (Attendance.face_encodings scene) as [|face_encoding encodings];
      [discriminate|].
    cbn [Attendance.known_encodings Attendance.set_liveness_detector
           Attendance.known_names Attendance.config].
    destruct (Attendance.known_encodings self) as [|known knowns] eqn:Eknown.
    + cbn. intros H. injection H as <-. auto.
    + destruct (Qltb _ _ && Qltb _ _).
      * destruct (nth_error (Attendance.known_names self) _) as [n|] eqn:En;
          [|discriminate].
        cbn. intros H. injection H as <-.
        right. right. exact (nth_error_In _ _ En).
      * cbn. intros H. injection H as <-. auto.
  - cbn. intros H. injection H as <-. auto.
Qed.

End RecognitionNames.

Lemma recognized_name_is_enrolled_witness :
  RecognitionResult.name
    (fst (Attendance.recognize_face resize_nearest manhattan Qminus
            kiosk alice_in_view))
  = Some "alice"%string
  /\ ("alice"%string = "MULTIPLE_FACES"%string
      \/ "alice"%string = "UNKNOWN"%string
      \/ In "alice"%string (Attendance.known_names kiosk)).
Proof.
  assert (H : RecognitionResult.name
                (fst (Attendance.recognize_face resize_nearest manhattan Qminus
                        kiosk alice_in_view))
              = Some "alice"%string) by (vm_compute; reflexivity).
  split; [exact H|].
  exact (recognized_name_is_enrolled resize_nearest manhattan Qminus
           kiosk alice_in_view "alice" H).
Defined.

(** ** Thresholds of a match *)

Lemma RecognitionConfig_valid (cfg : RecognitionConfig) :
  RecognitionConfig_post_init cfg = Some cfg ->
  (0 <= recognition_threshold cfg <= 1)%Q
  /\ (0 <= confidence_threshold cfg <= 1)%Q.
Proof.
  unfold RecognitionConfig_post_init.
  destruct (Qle_bool 0 (recognition_threshold cfg)) eqn:E1;
    destruct (Qle_bool (recognition_threshold cfg) 1) eqn:E2;
    try discriminate.
  destruct (Qle_bool 0 (confidence_threshold cfg)) eqn:E3;
    destruct (Qle_bool (confidence_threshold cfg) 1) eqn:E4;
    try discriminate.
  intros _. apply Qle_bool_iff in E1, E2, E3, E4. auto.
Qed.

(** X7.  Under a configuration that passed validation, a result that names
    an identity carries the least distance, which is below
    [recognition_threshold] and hence below one, and the confidence that
    the float subtraction of that distance from one gives, which is above
    [confidence_threshold] and hence positive. *)
Theorem named_match_is_within_both_thresholds
  (resize : Gray -> nat * nat -> Gray)
  (face_distance : Embedding -> Embedding -> Q)
  (float_sub : Q -> Q -> Q)
  (self : Attendance.AttendanceSystem) (scene : Attendance.Scene)
  (name : string) :
  RecognitionConfig_post_init (recognition (Attendance.config self))
  = Some (recognition (Attendance.config self)) ->
  RecognitionResult.name
    (fst (Attendance.recognize_face resize face_distance float_sub self scene))
  = Some name ->
  name <> "UNKNOWN"%string ->
  name <> "MULTIPLE_FACES"%string ->
  let result :=
    fst (Attendance.recognize_face resize face_distance float_sub self scene) in
  RecognitionResult.confidence result
  = float_sub 1%Q (RecognitionResult.distance result)
  /\ (exists face_encoding others,
        Attendance.face_encodings scene = face_encoding :: others
        /\ RecognitionResult.distance result
           = np_min (map (fun known => face_distance known face_encoding)
                       (Attendance.known_encodings self)))
  /\ (RecognitionResult.distance result
      < recognition_threshold (recognition (Attendance.config self)))%Q
  /\ (confidence_threshold (recognition (Attendance.config self))
      < RecognitionResult.confidence result)%Q
  /\ (RecognitionResult.distance result < 1)%Q
  /\ (0 < RecognitionResult.confidence result)%Q.
Proof.
  intros Hvalid. apply RecognitionConfig_valid in Hvalid.
  destruct Hvalid as [[_ Hrt] [Hct _]].
  unfold Attendance.recognize_face.
  destruct (Attendance.faces scene) as [|face [|face' others]].
  - discriminate.
  - destruct (Liveness.detect_motion resize _ _ _) as [alive detector].
    destruct (Attendance.face_encodings scene) as [|face_encoding encodings];
      [discriminate|].
    cbn [Attendance.known_encodings Attendance.set_liveness_detector
           Attendance.known_names Attendance.config].
    destruct (Attendance.known_encodings self) as [|known knowns] eqn:Eknown.
    + cbn. intros H Hu. injection H as <-. contradiction.
    + rewrite <- Eknown.
      set (min_distance := np_min _).
      destruct (Qltb min_distance _) eqn:Ed;
        destruct (Qltb _ (float_sub 1%Q min_distance)) eqn:Ec; cbn [andb];
        try (cbn; intros H Hu; injection H as <-; contradiction).
      destruct (nth_error (Attendance.known_names self) _) as [n|];
        [|discriminate].
      cbn. intros _ _ _. apply Qltb_lt in Ed, Ec.
      split; [reflexivity|].
      split; [exists face_encoding, encodings; split; reflexivity|].
      repeat split; lra.
  - cbn. intros H _ Hm. injection H as <-. contradiction.
Qed.

Lemma named_match_is_within_both_thresholds_witness :
  RecognitionConfig_post_init (recognition (Attendance.config kiosk))
  = Some (recognition (Attendance.config kiosk))
  /\ RecognitionResult.name
       (fst (Attendance.recognize_face resize_nearest manhattan Qminus
               kiosk alice_in_view))
     = Some "alice"%string
  /\ (RecognitionResult.distance
        (fst (Attendance.recognize_face resize_nearest manhattan Qminus
                kiosk alice_in_view))
      < recognition_threshold (recognition (Attendance.config kiosk)))%Q.
Proof.
  assert (Hvalid : RecognitionConfig_post_init
                     (recognition (Attendance.config kiosk))
                   = Some (recognition (Attendance.config kiosk)))
    by (vm_compute; reflexivity).
  assert (Hname : RecognitionResult.name
                    (fst (Attendance.recognize_face resize_nearest manhattan
                            Qminus kiosk alice_in_view))
                  = Some "alice"%string) by (vm_compute; reflexivity).
  split; [exact Hvalid|]. split; [exact Hname|].
  apply (named_match_is_within_both_thresholds resize_nearest manhattan Qminus
           kiosk alice_in_view "alice" Hvalid Hname);
    vm_compute; discriminate.
Defined.

(** X8.  When exactly one face is in view and its encoding is among the
    enrolled ones, for a metric that is non-negative and zero from the
    encoding to itself and thresholds with [0 < recognition_threshold] and
    [confidence_threshold < 1], the result carries distance 0 and confidence
    1 and names the first enrolled identity at distance 0. *)
Theorem enrolled_encoding_is_recognized
  (resize : Gray -> nat * nat -> Gray)
  (face_distance : Embedding -> Embedding -> Q)
  (self : Attendance.AttendanceSystem) (scene : Attendance.Scene)
  (face : Gray) (encoding : Embedding) (others : list Embedding) :
  length (Attendance.known_names self)
  = length (Attendance.known_encodings self) ->
  Attendance.faces scene = [face] ->
  Attendance.face_encodings scene = encoding :: others ->
  In encoding (Attendance.known_encodings self) ->
  (face_distance encoding encoding == 0)%Q ->
  Forall (fun known => (0 <= face_distance known encoding)%Q)
         (Attendance.known_encodings self) ->
  (0 < recognition_threshold (recognition (Attendance.config self)))%Q ->
  (confidence_threshold (recognition (Attendance.config self)) < 1)%Q ->
  exists (index : nat) (name : string) (known : Embedding),
    nth_error (Attendance.known_names self) index = Some name
    /\ nth_error (Attendance.known_encodings self) index = Some known
    /\ (face_distance known encoding == 0)%Q
    /\ (forall j earlier, (j < index)%nat ->
          nth_error (Attendance.known_encodings self) j = Some earlier ->
          (0 < face_distance earlier encoding)%Q)
    /\ RecognitionResult.name
         (fst (Attendance.recognize_face resize face_distance Qminus self scene))
       = Some name
    /\ (RecognitionResult.distance
          (fst (Attendance.recognize_face resize face_distance Qminus
                  self scene)) == 0)%Q
    /\ (RecognitionResult.confidence
          (fst (Attendance.recognize_face resize face_distance Qminus
                  self scene)) == 1)%Q.
Proof.
  intros Hlen Hfaces Hencs Hin Hself Hnonneg Hrt Hct.
  unfold Attendance.recognize_face. rewrite Hfaces, Hencs.
  destruct (Liveness.detect_motion resize _ _ _) as [alive detector].
  cbn [Attendance.known_encodings Attendance.set_liveness_detector
         Attendance.known_names Attendance.config].
  destruct (Attendance.known_encodings self) as [|known0 knowns] eqn:Eknown;
    [contradiction|].
  rewrite <- Eknown in *.
  set (distances := map (fun k => face_distance k encoding)
                        (Attendance.known_encodings self)).
  assert (Hne : distances <> [])
    by (unfold distances; rewrite Eknown; discriminate).
  destruct (np_argmin_spec distances Hne) as (Hat & Hmin & Hfirst).
  set (index := np_argmin distances) in *.
  set (min_distance := np_min distances) in *.
  unfold distances in Hat. rewrite nth_error_map in Hat.
  destruct (nth_error (Attendance.known_encodings self) index)
    as [known|] eqn:Eat; [|discriminate].
  cbn in Hat. injection Hat as Hmin_eq.
  assert (Hlow : (0 <= min_distance)%Q).
  { rewrite <- Hmin_eq.
    exact (proj1 (List.Forall_forall _ _) Hnonneg known (nth_error_In _ _ Eat)). }
  assert (Hhigh : (min_distance <= 0)%Q).
  { destruct (In_nth_error _ _ Hin) as [j Hj].
    rewrite <- Hself. apply (Hmin j).
    unfold distances. rewrite nth_error_map, Hj. reflexivity. }
  assert (Hzero : (min_distance == 0)%Q) by (apply Qle_antisym; assumption).
  assert (Hidx : (index < length (Attendance.known_names self))%nat).
  { rewrite Hlen. apply nth_error_Some. rewrite Eat. discriminate. }
  destruct (nth_error (Attendance.known_names self) index) as [name|] eqn:En;
    [|apply nth_error_None in En; lia].
  assert (Ed : Qltb min_distance
                 (recognition_threshold (recognition (Attendance.config self)))
               = true) by (apply Qltb_lt; lra).
  assert (Ec : Qltb (confidence_threshold
                       (recognition (Attendance.config self)))
                 (1 - min_distance) = true) by (apply Qltb_lt; lra).
  rewrite Ed, Ec. cbn.
  exists index, name, known.
  split; [exact En|]. split; [exact Eat|].
  split; [rewrite Hmin_eq; exact Hzero|].
  split.
  - intros j earlier Hj Hearlier.
    apply Qle_lt_trans with min_distance; [exact Hlow|].
    apply (Hfirst j); [exact Hj|].
    unfold distances. rewrite nth_error_map, Hearlier. reflexivity.
  - split; [reflexivity|]. split; [exact Hzero | lra].
Qed.

Lemma enrolled_encoding_is_recognized_witness :
  length (Attendance.known_names kiosk)
  = length (Attendance.known_encodings kiosk)
  /\ In [0 # 1; 0 # 1]%Q (Attendance.known_encodings kiosk)
  /\ exists name : string,
       RecognitionResult.name
         (fst (Attendance.recognize_face resize_nearest manhattan Qminus
                 kiosk alice_in_view))
       = Some name.
Proof.
  assert (Hlen : length (Attendance.known_names kiosk)
                 = length (Attendance.known_encodings kiosk)) by reflexivity.
  assert (Hin : In [0 # 1; 0 # 1]%Q (Attendance.known_encodings kiosk))
    by (left; reflexivity).
  split; [exact Hlen|]. split; [exact Hin|].
  destruct (enrolled_encoding_is_recognized resize_nearest manhattan
              kiosk alice_in_view dark [0 # 1; 0 # 1]%Q [] Hlen
              eq_refl eq_refl Hin)
    as (index & name & known & _ & _ & _ & _ & Hname & _).
  - vm_compute. reflexivity.
  - vm_compute. repeat constructor; discriminate.
  - vm_compute. reflexivity.
  - vm_compute. reflexivity.
  - exists name. exact Hname.
Defined.

(** ** AttendanceSystem.get_brightness_status *)

(** X9.  Under a brightness configuration that passed validation the three
    labels split the brightness axis at the two thresholds: "Low" below
    [low_threshold], "Medium" from there up to [medium_threshold], "High"
    from [medium_threshold] on. *)
Theorem brightness_status_splits_at_thresholds
  (cfg : BrightnessConfig) (brightness : Q) :
  BrightnessConfig_post_init cfg = Some cfg ->
  (get_brightness_status cfg brightness = "Low"%string
   <-> (brightness < inject_Z (low_threshold cfg))%Q)
  /\ (get_brightness_status cfg brightness = "Medium"%string
      <-> (inject_Z (low_threshold cfg) <= brightness
           < inject_Z (medium_threshold cfg))%Q)
  /\ (get_brightness_status cfg brightness = "High"%string
      <-> (inject_Z (medium_threshold cfg) <= brightness)%Q).
Proof.
  unfold BrightnessConfig_post_init.
  destruct (low_threshold cfg >=? medium_threshold cfg) eqn:Eorder;
    [discriminate|]. intros _.
  assert (Horder : (inject_Z (low_threshold cfg)
                    < inject_Z (medium_threshold cfg))%Q).
  { rewrite <- Zlt_Qlt. rewrite Z.geb_leb in Eorder.
    apply Z.leb_gt in Eorder. exact Eorder. }
  unfold get_brightness_status.
  destruct (Qltb brightness (inject_Z (low_threshold cfg))) eqn:Elow;
    [apply Qltb_lt in Elow | apply Qltb_ge in Elow];
    (destruct (Qltb brightness (inject_Z (medium_threshold cfg))) eqn:Emed;
     [apply Qltb_lt in Emed | apply Qltb_ge in Emed]);
    (split; [|split]); (split; intros Hyp);
    try discriminate Hyp; try reflexivity; try lra;
    try (destruct Hyp; lra); try (split; lra).
Qed.

Lemma brightness_status_splits_at_thresholds_witness :
  BrightnessConfig_post_init default_BrightnessConfig
  = Some default_BrightnessConfig
  /\ get_brightness_status default_BrightnessConfig (120 # 1) = "Medium"%string.
Proof.
  assert (Hvalid : BrightnessConfig_post_init default_BrightnessConfig
                   = Some default_BrightnessConfig) by reflexivity.
  split; [exact Hvalid|].
  apply (proj2 (proj1 (proj2 (brightness_status_splits_at_thresholds
                                default_BrightnessConfig (120 # 1) Hvalid)))).
  split; vm_compute; [discriminate | reflexivity].
Defined.

(** ** The effect of one call of [mark_attendance] on the file *)

(** The three shapes of the outcome: nothing touched; a punch-in attempted
    on a key without record; a punch-out attempted on the first record of
    the key, whose [Punch_Out] is blank. *)
Lemma mark_attendance_shape
  (self : Attendance.AttendanceSystem) (file : CsvFile) (env : CallEnv)
  (name : string) (is_alive : bool) :
  exists (status : Status) (self' : Attendance.AttendanceSystem)
         (file' : CsvFile),
    Attendance.mark_attendance self file env name is_alive
    = (status, self', file')
    /\ ((self' = self /\ file' = file
         /\ status <> PUNCH_IN /\ status <> PUNCH_OUT)
        \/ (Attendance.find_record (map (map_row parse_cell) file) name
              (strftime_date (now_entry env)) = None
            /\ self'
               = Attendance.set_last_marked self
                   (<[Attendance.key_of name (strftime_date (now_entry env))
                      := now_stamp env]> (Attendance.last_marked self))
            /\ write_result env file
                 (resave file
                  ++ [punch_in_row name (strftime_date (now_entry env))
                        (strftime_time (now_entry env))])
                 PUNCH_IN status file')
        \/ (exists (index : nat) (record : Row cell),
              Attendance.find_record (map (map_row parse_cell) file) name
                (strftime_date (now_entry env)) = Some (index, record)
              /\ Attendance.punch_out_blank (Punch_Out record) = true
              /\ self'
                 = Attendance.set_last_marked self
                     (delete
                        (Attendance.key_of name (strftime_date (now_entry env)))
                        (Attendance.last_marked self))
              /\ write_result env file
                   (alter (Attendance.punch_out_row
                             (strftime_time (now_entry env))
                             "VERIFIED"%string) index (resave file))
                   PUNCH_OUT status file')).
Proof.
  unfold Attendance.mark_attendance, read_csv, to_csv, write_result.
  destruct is_alive; cbn [negb].
  2:{ eexists _, _, _. split; [reflexivity|]. left.
      repeat split; discriminate. }
  destruct (read_ok env).
  2:{ eexists _, _, _. split; [reflexivity|]. left.
      repeat split; discriminate. }
  destruct (Attendance.find_record _ name _) as [[index record]|] eqn:Efind.
  - destruct (Attendance.punch_out_blank (Punch_Out record)) eqn:Eblank.
    + destruct (write env);
        (eexists _, _, _; split; [reflexivity|]; right; right;
         exists index, record;
         do 3 (split; [first [reflexivity | assumption]|]);
         split; [reflexivity|]; first [apply punch_out_file | reflexivity]).
    + eexists _, _, _. split; [reflexivity|]. left.
      repeat split; discriminate.
  - destruct (match Attendance.last_marked self !! _ with
              | Some _ => _ | None => _ end).
    + eexists _, _, _. split; [reflexivity|]. left.
      repeat split; discriminate.
    + destruct (write env);
        (eexists _, _, _; split; [reflexivity|]; right; left;
         do 2 (split; [first [reflexivity | assumption]|]);
         split; [reflexivity|];
         first [rewrite map_app, render_read; reflexivity | reflexivity]).
Qed.

(** Where [find_record] finds its row. *)
Lemma find_record_from_lookup (name date : string) (df : DataFrame) :
  forall (i j : nat) (r : Row cell),
    Attendance.find_record_from i df name date = Some (j, r) ->
    (i <= j)%nat /\ df !! (j - i)%nat = Some r
    /\ Attendance.selects name date r = true.
Proof.
  induction df as [|x df IH]; intros i j r; simpl; [discriminate|].
  destruct (Attendance.selects name date x) eqn:E.
  - intros H. injection H as <- <-. rewrite Nat.sub_diag. auto.
  - intros H. destruct (IH _ _ _ H) as (Hle & Hat & Hsel).
    split; [lia|]. split; [|exact Hsel].
    replace (j - i)%nat with (S (j - S i)) by lia. exact Hat.
Qed.

Lemma find_record_from_none (name date : string) (df : DataFrame) (i : nat) :
  Attendance.find_record_from i df name date = None <->
  Forall (fun r => Attendance.selects name date r = false) df.
Proof.
  revert i. induction df as [|x df IH]; intros i; simpl.
  - split; [constructor | reflexivity].
  - destruct (Attendance.selects name date x) eqn:E.
    + split; [discriminate|]. intros H. inversion H; congruence.
    + rewrite IH. split; [intros H; constructor; assumption|].
      intros H. inversion H; assumption.
Qed.

(** A row that is read as a record of a key carries that key as text. *)
Lemma selects_parse (name date : string) (r : Row string) :
  Attendance.selects name date (map_row parse_cell r) = true ->
  Name r = name /\ Date r = date
  /\ is_na name = false /\ is_na date = false.
Proof.
  unfold Attendance.selects, map_row. cbn [Name Date].
  intros H. apply andb_true_iff in H. destruct H as [Hn Hd].
  assert (Hcell : forall s v, cell_eqb (parse_cell s) v = true ->
                              s = v /\ is_na v = false).
  { intros s v. unfold parse_cell.
    destruct (is_na s) eqn:E; [discriminate|].
    simpl. intros Hv. apply String.eqb_eq in Hv. subst v.
    split; [reflexivity | exact E]. }
  destruct (Hcell _ _ Hn), (Hcell _ _ Hd). auto.
Qed.

Lemma selects_resave (name date : string) (r : Row string) :
  Attendance.selects name date
    (map_row parse_cell
       (map_row (fun s => render_cell (parse_cell s)) r))
  = Attendance.selects name date (map_row parse_cell r).
Proof.
  destruct r. unfold Attendance.selects, map_row. cbn [Name Date].
  rewrite !parse_render_parse. reflexivity.
Qed.

Lemma map_lookup {A B : Type} (f : A -> B) (l : list A) (i : nat) :
  map f l !! i = option_map f (l !! i).
Proof.
  revert i. induction l as [|x l IH]; intros [|i]; simpl; try reflexivity.
  apply IH.
Qed.

Lemma kept_refl (s : string) : kept s s.
Proof. left. reflexivity. Qed.

Lemma kept_resave (s : string) : kept s (render_cell (parse_cell s)).
Proof.
  unfold kept. rewrite render_parse_cell.
  destruct (is_na s); [right; split; reflexivity | left; reflexivity].
Qed.

Lemma resave_lookup (file : CsvFile) (i : nat) (r : Row string) :
  file !! i = Some r ->
  resave file !! i
  = Some (map_row (fun s => render_cell (parse_cell s)) r).
Proof.
  intros H. unfold resave. rewrite map_lookup, H. reflexivity.
Qed.

Lemma not_torn_Torn (env : CallEnv) (remains : CsvFile) :
  not_torn env = true -> write env = Torn remains -> False.
Proof. unfold not_torn. intros H E. rewrite E in H. discriminate H. Qed.

(** X10.  Unless a write is cut short after the file has been opened, a
    call never rewrites history: every row of the file is still at its
    place afterwards; its name, date, punch-in time and confidence are as
    they were, or empty where they were spelled as a missing value; the
    same holds of the punch-out and the liveness check of a row whose
    punch-out is set; and the file grows by at most one row. *)
Theorem mark_never_rewrites_history
  (self : Attendance.AttendanceSystem) (file : CsvFile) (env : CallEnv)
  (name : string) (is_alive : bool) (i : nat) (r : Row string) :
  not_torn env = true ->
  file !! i = Some r ->
  (exists r' : Row string,
      snd (Attendance.mark_attendance self file env name is_alive) !! i
      = Some r'
      /\ kept (Name r) (Name r') /\ kept (Date r) (Date r')
      /\ kept (Punch_In r) (Punch_In r')
      /\ kept (Confidence r) (Confidence r')
      /\ (Attendance.punch_out_blank (parse_cell (Punch_Out r)) = false ->
          kept (Punch_Out r) (Punch_Out r')
          /\ kept (Liveness_Check r) (Liveness_Check r')))
  /\ (length file
      <= length (snd (Attendance.mark_attendance self file env name is_alive))
      <= S (length file))%nat.
Proof.
  intros Htorn Hat.
  assert (Hsame : exists r' : Row string,
             file !! i = Some r'
             /\ kept (Name r) (Name r') /\ kept (Date r) (Date r')
             /\ kept (Punch_In r) (Punch_In r')
             /\ kept (Confidence r) (Confidence r')
             /\ (Attendance.punch_out_blank (parse_cell (Punch_Out r)) = false ->
                 kept (Punch_Out r) (Punch_Out r')
                 /\ kept (Liveness_Check r) (Liveness_Check r'))).
  { exists r. split; [exact Hat|]. repeat split; apply kept_refl. }
  assert (Hresaved : exists r' : Row string,
             resave file !! i = Some r'
             /\ kept (Name r) (Name r') /\ kept (Date r) (Date r')
             /\ kept (Punch_In r) (Punch_In r')
             /\ kept (Confidence r) (Confidence r')
             /\ (Attendance.punch_out_blank (parse_cell (Punch_Out r)) = false ->
                 kept (Punch_Out r) (Punch_Out r')
                 /\ kept (Liveness_Check r) (Liveness_Check r'))).
  { eexists. split; [apply resave_lookup; exact Hat|].
    destruct r. cbn. repeat split; apply kept_resave. }
  destruct (mark_attendance_shape self file env name is_alive)
    as (status & self' & file' & -> & Hshape).
  cbn [snd].
  destruct Hshape as [(_ & -> & _) | [(_ & _ & Hin) | Hout]].
  - split; [exact Hsame | lia].
  - unfold write_result in Hin.
    destruct (write env) eqn:Ew.
    + destruct Hin as [_ ->].
      split; [|rewrite length_app, resave_length; simpl; lia].
      rewrite lookup_app_l
        by (rewrite resave_length; eapply lookup_lt_Some; exact Hat).
      exact Hresaved.
    + destruct Hin as [_ ->]. split; [exact Hsame | lia].
    + destruct (not_torn_Torn env _ Htorn Ew).
  - destruct Hout as (index & record & Hfind & Hblank & _ & Hfile).
    unfold write_result in Hfile.
    destruct (write env) eqn:Ew.
    2:{ destruct Hfile as [_ ->]. split; [exact Hsame | lia]. }
    2:{ destruct (not_torn_Torn env _ Htorn Ew). }
    destruct Hfile as [_ ->].
    split; [|rewrite length_alter, resave_length; lia].
    destruct (Nat.eq_dec index i) as [->|Hne].
    + rewrite list_lookup_alter_eq, (resave_lookup file i r Hat). cbn.
      eexists. split; [reflexivity|]. destruct r. cbn.
      do 4 (split; [apply kept_resave|]).
      intros Hset. exfalso.
      unfold Attendance.find_record in Hfind.
      destruct (find_record_from_lookup _ _ _ _ _ _ Hfind) as (_ & Hrow & _).
      rewrite Nat.sub_0_r, map_lookup, Hat in Hrow. cbn in Hrow.
      injection Hrow as <-. cbn in Hblank. congruence.
    + rewrite list_lookup_alter_ne by exact Hne. exact Hresaved.
Qed.

Lemma mark_never_rewrites_history_witness :
  not_torn (call_at (nine_o_clock 30) true true) = true
  /\ [punch_in_row "NA" "2024-03-05" "09:00:00"] !! 0%nat
     = Some (punch_in_row "NA" "2024-03-05" "09:00:00")
  /\ (length [punch_in_row "NA" "2024-03-05" "09:00:00"]
      <= length
           (snd (Attendance.mark_attendance kiosk
                   [punch_in_row "NA" "2024-03-05" "09:00:00"]
                   (call_at (nine_o_clock 30) true true) "bob" true))
      <= 2)%nat.
Proof.
  split; [reflexivity|]. split; [reflexivity|].
  exact (proj2 (mark_never_rewrites_history kiosk
                  [punch_in_row "NA" "2024-03-05" "09:00:00"]
                  (call_at (nine_o_clock 30) true true) "bob" true 0
                  (punch_in_row "NA" "2024-03-05" "09:00:00")
                  eq_refl eq_refl)).
Defined.

(** ** One record per name and date *)

Lemma rows_for_app (file : CsvFile) (r : Row string) (name date : string) :
  rows_for (file ++ [r]) name date
  = rows_for file name date
    ++ (if Attendance.selects name date (map_row parse_cell r)
        then [r] else []).
Proof.
  unfold rows_for. rewrite List.filter_app. reflexivity.
Qed.

Lemma rows_for_resave_length (file : CsvFile) (name date : string) :
  length (rows_for (resave file) name date)
  = length (rows_for file name date).
Proof.
  unfold rows_for, resave.
  induction file as [|x file IH]; [reflexivity|].
  cbn [map List.filter]. rewrite selects_resave.
  destruct (Attendance.selects name date (map_row parse_cell x));
    simpl; [f_equal|]; exact IH.
Qed.

Lemma rows_for_alter_length (f : Row string -> Row string) (index : nat)
  (file : CsvFile) (name date : string) :
  (forall x, Name (f x) = Name x /\ Date (f x) = Date x) ->
  length (rows_for (alter f index file) name date)
  = length (rows_for file name date).
Proof.
  intros Hf. unfold rows_for. revert index.
  assert (Hsel : forall x,
             Attendance.selects name date (map_row parse_cell (f x))
             = Attendance.selects name date (map_row parse_cell x)).
  { intros x. unfold Attendance.selects, map_row. cbn [Name Date].
    destruct (Hf x) as [-> ->]. reflexivity. }
  induction file as [|x file IH]; intros [|index]; simpl; try reflexivity.
  - rewrite Hsel.
    destruct (Attendance.selects name date (map_row parse_cell x));
      reflexivity.
  - destruct (Attendance.selects name date (map_row parse_cell x));
      simpl; [f_equal|]; apply IH.
Qed.

Lemma rows_for_none (file : CsvFile) (name date : string) :
  Attendance.find_record (map (map_row parse_cell) file) name date = None ->
  rows_for file name date = [].
Proof.
  intros Hfind. unfold Attendance.find_record in Hfind.
  apply find_record_from_none in Hfind. unfold rows_for.
  induction file as [|x file IH]; [reflexivity|].
  cbn [map] in Hfind. inversion Hfind as [|? ? Hx Hrest]; subst.
  simpl. rewrite Hx. apply IH. exact Hrest.
Qed.

(** X11.  Unless a write is cut short after the file has been opened, a
    file in which no name is read with two records on one date keeps that
    property through every call of [mark_attendance]. *)
Theorem mark_keeps_one_row_per_day
  (self : Attendance.AttendanceSystem) (file : CsvFile) (env : CallEnv)
  (name : string) (is_alive : bool) :
  not_torn env = true ->
  one_row_per_day file ->
  one_row_per_day (snd (Attendance.mark_attendance self file env name is_alive)).
Proof.
  intros Htorn Hone.
  destruct (mark_attendance_shape self file env name is_alive)
    as (status & self' & file' & -> & Hshape).
  cbn [snd].
  destruct Hshape as [(_ & -> & _) | [(Hfind & _ & Hin) | Hout]].
  - exact Hone.
  - unfold write_result in Hin. destruct (write env) eqn:Ew.
    2:{ destruct Hin as [_ ->]. exact Hone. }
    2:{ destruct (not_torn_Torn env _ Htorn Ew). }
    destruct Hin as [_ ->].
    intros n d. rewrite rows_for_app, length_app, rows_for_resave_length.
    destruct (Attendance.selects n d _) eqn:E.
    + apply selects_parse in E. cbn [punch_in_row Name Date] in E.
      destruct E as (<- & <- & _).
      rewrite (rows_for_none file name _ Hfind). simpl. lia.
    + specialize (Hone n d). simpl. lia.
  - destruct Hout as (index & record & _ & _ & _ & Hfile).
    unfold write_result in Hfile. destruct (write env) eqn:Ew.
    2:{ destruct Hfile as [_ ->]. exact Hone. }
    2:{ destruct (not_torn_Torn env _ Htorn Ew). }
    destruct Hfile as [_ ->].
    intros n d. rewrite rows_for_alter_length, rows_for_resave_length.
    + exact (Hone n d).
    + intros []. split; reflexivity.
Qed.

Lemma mark_keeps_one_row_per_day_witness :
  not_torn (call_at (nine_o_clock 30) true true) = true
  /\ one_row_per_day [punch_in_row "alice" "2024-03-05" "09:00:00"]
  /\ one_row_per_day
       (snd (Attendance.mark_attendance kiosk
               [punch_in_row "alice" "2024-03-05" "09:00:00"]
               (call_at (nine_o_clock 30) true true) "bob" true)).
Proof.
  assert (Hone : one_row_per_day
                   [punch_in_row "alice" "2024-03-05" "09:00:00"]).
  { intros n d. unfold rows_for. cbn [List.filter].
    destruct (Attendance.selects n d _); simpl; lia. }
  split; [reflexivity|]. split; [exact Hone|].
  exact (mark_keeps_one_row_per_day kiosk
           [punch_in_row "alice" "2024-03-05" "09:00:00"]
           (call_at (nine_o_clock 30) true true) "bob" true eq_refl Hone).
Defined.

(** ** Keys do not interfere *)

Lemma string_length_append (s t : string) :
  String.length (s +:+ t) = (String.length s + String.length t)%nat.
Proof. induction s as [|c s IH]; simpl; [reflexivity | rewrite IH; reflexivity]. Qed.

Lemma append_inj_same_suffix_length (s1 s2 t1 t2 : string) :
  String.length t1 = String.length t2 ->
  s1 +:+ t1 = s2 +:+ t2 -> s1 = s2 /\ t1 = t2.
Proof.
  intros Hlen. revert s2.
  induction s1 as [|c s1 IH]; intros [|c2 s2] H.
  - simpl in H. auto.
  - apply (f_equal String.length) in H.
    rewrite !string_length_append in H. simpl in H. lia.
  - apply (f_equal String.length) in H.
    rewrite !string_length_append in H. simpl in H. lia.
  - simpl in H. injection H as -> H. destruct (IH _ H) as [-> ->]. auto.
Qed.

Lemma strftime_date_length (d : datetime) :
  String.length (strftime_date d) = 10%nat.
Proof. reflexivity. Qed.

Lemma key_of_strftime_inj (name1 name2 : string) (d1 d2 : datetime) :
  Attendance.key_of name1 (strftime_date d1)
  = Attendance.key_of name2 (strftime_date d2) ->
  name1 = name2 /\ strftime_date d1 = strftime_date d2.
Proof.
  unfold Attendance.key_of. intros H.
  apply append_inj_same_suffix_length in H.
  - destruct H as [-> H]. split; [reflexivity|].
    exact (f_equal (fun s => match s with
                             | String _ t => t
                             | EmptyString => EmptyString
                             end) H).
  - rewrite !string_length_append, !strftime_date_length. reflexivity.
Qed.

(** X12.  Two calls share a debounce key only if they are for the same name
    on the same date: the key formed from a name and a formatted date
    (four-digit year) determines both. *)
Theorem debounce_key_determines_name_and_date
  (name1 name2 : string) (d1 d2 : datetime) :
  Attendance.key_of name1 (strftime_date d1)
  = Attendance.key_of name2 (strftime_date d2) ->
  name1 = name2 /\ strftime_date d1 = strftime_date d2.
Proof. apply key_of_strftime_inj. Qed.

Lemma debounce_key_determines_name_and_date_witness :
  Attendance.key_of "alice" (strftime_date (nine_o_clock 0))
  = Attendance.key_of "alice" (strftime_date (nine_o_clock 30))
  /\ strftime_date (nine_o_clock 0) = strftime_date (nine_o_clock 30).
Proof.
  assert (H : Attendance.key_of "alice" (strftime_date (nine_o_clock 0))
              = Attendance.key_of "alice" (strftime_date (nine_o_clock 30)))
    by reflexivity.
  split; [exact H|].
  exact (proj2 (debounce_key_determines_name_and_date _ _ _ _ H)).
Defined.

Lemma selects_same_row (name1 date1 name2 date2 : string) (r : Row cell) :
  Attendance.selects name1 date1 r = true ->
  Attendance.selects name2 date2 r = true ->
  name1 = name2 /\ date1 = date2.
Proof.
  unfold Attendance.selects. intros H1 H2.
  apply andb_true_iff in H1, H2. destruct H1 as [Hn1 Hd1], H2 as [Hn2 Hd2].
  assert (Hcell : forall c v w, cell_eqb c v = true -> cell_eqb c w = true ->
                                v = w).
  { intros [|s] v w; simpl; [discriminate|].
    intros Hv Hw. apply String.eqb_eq in Hv, Hw. congruence. }
  split; eapply Hcell; eassumption.
Qed.

Lemma find_record_from_alter_any (name date : string)
  (f : Row cell -> Row cell) (df : DataFrame) :
  (forall x, Name (f x) = Name x /\ Date (f x) = Date x) ->
  forall i k : nat,
    Attendance.find_record_from i (alter f k df) name date
    = match Attendance.find_record_from i df name date with
      | Some (j, r) => Some (j, if Nat.eqb j (i + k) then f r else r)
      | None => None
      end.
Proof.
  intros Hf. induction df as [|x df IH]; intros i k; [reflexivity|].
  destruct k as [|k].
  - change (alter f 0%nat (x :: df)) with (f x :: df).
    cbn [Attendance.find_record_from].
    assert (Hsel : Attendance.selects name date (f x)
                   = Attendance.selects name date x).
    { unfold Attendance.selects. destruct (Hf x) as [-> ->]. reflexivity. }
    rewrite Hsel. destruct (Attendance.selects name date x).
    + rewrite Nat.add_0_r, Nat.eqb_refl. reflexivity.
    + destruct (Attendance.find_record_from (S i) df name date)
        as [[j r]|] eqn:E; [|reflexivity].
      destruct (find_record_from_lookup _ _ _ _ _ _ E) as (Hle & _).
      replace (Nat.eqb j (i + 0)) with false
        by (symmetry; apply Nat.eqb_neq; lia).
      reflexivity.
  - change (alter f (S k) (x :: df)) with (x :: alter f k df).
    cbn [Attendance.find_record_from].
    destruct (Attendance.selects name date x).
    + replace (Nat.eqb i (i + S k)) with false
        by (symmetry; apply Nat.eqb_neq; lia).
      reflexivity.
    + rewrite IH. replace (S i + k)%nat with (i + S k)%nat by lia.
      reflexivity.
Qed.

Lemma ledger_state_resave (file : CsvFile) (name date : string) :
  ledger_state (resave file) name date = ledger_state file name date.
Proof. unfold ledger_state. rewrite read_resave. reflexivity. Qed.

(** The state of a key is not changed by appending a row of another key. *)
Lemma ledger_state_app_other (file : CsvFile) (name date time_str : string)
  (name' date' : string) :
  (name', date') <> (name, date) ->
  ledger_state (file ++ [punch_in_row name date time_str]) name' date'
  = ledger_state file name' date'.
Proof.
  intros Hne. unfold ledger_state, Attendance.find_record.
  rewrite map_app. cbn [map]. rewrite find_record_from_app.
  destruct (Attendance.find_record_from 0 _ name' date') as [[j r]|];
    [reflexivity|].
  destruct (Attendance.selects name' date' _) eqn:E; [|reflexivity].
  apply selects_parse in E. cbn [punch_in_row Name Date] in E.
  destruct E as (-> & -> & _). contradiction.
Qed.

(** Nor by a punch-out on the first record of another key. *)
Lemma ledger_state_alter_other (file : CsvFile) (name date time_str : string)
  (index : nat) (record : Row cell) (name' date' : string) :
  (name', date') <> (name, date) ->
  Attendance.find_record (map (map_row parse_cell) file) name date
  = Some (index, record) ->
  ledger_state
    (alter (Attendance.punch_out_row time_str "VERIFIED"%string) index file)
    name' date'
  = ledger_state file name' date'.
Proof.
  intros Hne Hfind. unfold ledger_state, Attendance.find_record in *.
  rewrite (map_alter_commute (map_row parse_cell) _
             (Attendance.punch_out_row (parse_cell time_str)
                (parse_cell "VERIFIED")))
    by apply parse_punch_out.
  rewrite find_record_from_alter_any by (intros []; split; reflexivity).
  destruct (Attendance.find_record_from 0 _ name' date') as [[j r]|] eqn:E;
    [|reflexivity].
  destruct (Nat.eqb j (0 + index)) eqn:Ej; [|reflexivity].
  apply Nat.eqb_eq in Ej. simpl in Ej. subst j. exfalso.
  destruct (find_record_from_lookup _ _ _ _ _ _ E) as (_ & Hr & Hsel').
  destruct (find_record_from_lookup _ _ _ _ _ _ Hfind) as (_ & Hrec & Hsel).
  rewrite Hr in Hrec. injection Hrec as ->.
  destruct (selects_same_row _ _ _ _ _ Hsel' Hsel) as [-> ->].
  contradiction.
Qed.

Lemma find_record_resave (file : CsvFile) (name date : string) :
  Attendance.find_record (map (map_row parse_cell) (resave file)) name date
  = Attendance.find_record (map (map_row parse_cell) file) name date.
Proof. rewrite read_resave. reflexivity. Qed.

(** X13.  Unless the write is cut short after the file has been opened, a
    call for one name leaves every other key alone: the state of any other
    (name, date), as it is read from the file, is what it was, and so is
    the entry of [last_marked] under any key other than [name_date]. *)
Theorem mark_leaves_other_keys_alone
  (self : Attendance.AttendanceSystem) (file : CsvFile) (env : CallEnv)
  (name : string) (is_alive : bool) (name' date' other_key : string) :
  not_torn env = true ->
  (name', date') <> (name, strftime_date (now_entry env)) ->
  other_key <> name +:+ "_" +:+ strftime_date (now_entry env) ->
  ledger_state (snd (Attendance.mark_attendance self file env name is_alive))
    name' date'
  = ledger_state file name' date'
  /\ Attendance.last_marked
       (snd (fst (Attendance.mark_attendance self file env name is_alive)))
       !! other_key
     = Attendance.last_marked self !! other_key.
Proof.
  intros Htorn Hpair Hkey.
  destruct (mark_attendance_shape self file env name is_alive)
    as (status & self' & file' & -> & Hshape).
  cbn [fst snd].
  destruct Hshape as [(-> & -> & _) | [(_ & -> & Hin) | Hout]].
  - split; reflexivity.
  - split.
    + unfold write_result in Hin. destruct (write env) eqn:Ew.
      * destruct Hin as [_ ->].
        rewrite ledger_state_app_other by exact Hpair.
        apply ledger_state_resave.
      * destruct Hin as [_ ->]. reflexivity.
      * destruct (not_torn_Torn env _ Htorn Ew).
    + cbn. apply lookup_insert_ne. unfold Attendance.key_of. congruence.
  - destruct Hout as (index & record & Hfind & _ & -> & Hfile). split.
    + unfold write_result in Hfile. destruct (write env) eqn:Ew.
      * destruct Hfile as [_ ->].
        rewrite <- find_record_resave in Hfind.
        rewrite (ledger_state_alter_other (resave file) name
                   (strftime_date (now_entry env))
                   (strftime_time (now_entry env)) index record
                   name' date' Hpair Hfind).
        apply ledger_state_resave.
      * destruct Hfile as [_ ->]. reflexivity.
      * destruct (not_torn_Torn env _ Htorn Ew).
    + cbn. apply lookup_delete_ne. unfold Attendance.key_of. congruence.
Qed.

Lemma mark_leaves_other_keys_alone_witness :
  not_torn (call_at (nine_o_clock 30) true true) = true
  /\ ("alice"%string, "2024-03-05"%string)
     <> ("bob"%string,
         strftime_date (now_entry (call_at (nine_o_clock 30) true true)))
  /\ ledger_state
       (snd (Attendance.mark_attendance kiosk
               [punch_in_row "alice" "2024-03-05" "09:00:00"]
               (call_at (nine_o_clock 30) true true) "bob" true))
       "alice" "2024-03-05"
     = ledger_state [punch_in_row "alice" "2024-03-05" "09:00:00"]
         "alice" "2024-03-05".
Proof.
  assert (Hpair : ("alice"%string, "2024-03-05"%string)
                  <> ("bob"%string,
                      strftime_date
                        (now_entry (call_at (nine_o_clock 30) true true))))
    by (vm_compute; discriminate).
  split; [reflexivity|]. split; [exact Hpair|].
  apply (mark_leaves_other_keys_alone kiosk
           [punch_in_row "alice" "2024-03-05" "09:00:00"]
           (call_at (nine_o_clock 30) true true) "bob" true
           "alice" "2024-03-05" "alice_2024-03-05" eq_refl Hpair).
  vm_compute. discriminate.
Defined.

(** ** Sessions *)

Lemma mark_all_step (self : Attendance.AttendanceSystem) (file : CsvFile)
  (env : CallEnv) (name : string) (is_alive : bool)
  (calls : list (CallEnv * string * bool)) :
  Attendance.mark_all self file ((env, name, is_alive) :: calls)
  = (fst (fst (Attendance.mark_attendance self file env name is_alive))
       :: fst (fst (Attendance.mark_all
                      (snd (fst (Attendance.mark_attendance
                                   self file env name is_alive)))
                      (snd (Attendance.mark_attendance
                              self file env name is_alive))
                      calls)),
     snd (fst (Attendance.mark_all
                 (snd (fst (Attendance.mark_attendance
                              self file env name is_alive)))
                 (snd (Attendance.mark_attendance self file env name is_alive))
                 calls)),
     snd (Attendance.mark_all
            (snd (fst (Attendance.mark_attendance self file env name is_alive)))
            (snd (Attendance.mark_attendance self file env name is_alive))
            calls)).
Proof.
  cbn [Attendance.mark_all].
  destruct (Attendance.mark_attendance self file env name is_alive)
    as [[status self'] file']. cbn [fst snd].
  destruct (Attendance.mark_all self' file' calls) as [[statuses self''] file''].
  reflexivity.
Qed.

(** [DUPLICATE] is answered only for a key that has a debounce entry and no
    record. *)
Lemma mark_duplicate_inv
  (self self' : Attendance.AttendanceSystem) (file file' : CsvFile)
  (env : CallEnv) (name : string) (is_alive : bool) :
  Attendance.mark_attendance self file env name is_alive
  = (DUPLICATE, self', file') ->
  ledger_state file name (strftime_date (now_entry env)) = NoRecord
  /\ is_Some (Attendance.last_marked self
                !! Attendance.key_of name (strftime_date (now_entry env))).
Proof.
  unfold Attendance.mark_attendance, read_csv, to_csv, ledger_state.
  destruct is_alive; [|discriminate]. cbn [negb].
  destruct (read_ok env); [|discriminate].
  destruct (Attendance.find_record _ name _) as [[index record]|].
  - destruct (Attendance.punch_out_blank (Punch_Out record));
      [destruct (write env)|]; discriminate.
  - destruct (Attendance.last_marked self !! _) as [last|].
    + intros _. split; [reflexivity | eexists; reflexivity].
    + destruct (write env); discriminate.
Qed.

Lemma mark_keeps_debounce_backed
  (self : Attendance.AttendanceSystem) (file : CsvFile) (env : CallEnv)
  (name : string) (is_alive : bool) :
  is_na name = false ->
  write env = Written ->
  debounce_backed self file ->
  debounce_backed
    (snd (fst (Attendance.mark_attendance self file env name is_alive)))
    (snd (Attendance.mark_attendance self file env name is_alive)).
Proof.
  intros Hname Hwrite Hback.
  destruct (mark_attendance_shape self file env name is_alive)
    as (status & self' & file' & -> & Hshape).
  cbn [fst snd].
  destruct Hshape as [(-> & -> & _) | [(Hfind & -> & Hin) | Hout]].
  - exact Hback.
  - unfold write_result in Hin. rewrite Hwrite in Hin. destruct Hin as [_ ->].
    intros n d Hn Hsome. cbn in Hsome.
    change (n +:+ "_" +:+ strftime_date d)
      with (Attendance.key_of n (strftime_date d)) in Hsome.
    destruct (decide (Attendance.key_of name (strftime_date (now_entry env))
                      = Attendance.key_of n (strftime_date d))) as [Heq|Hne].
    + destruct (key_of_strftime_inj _ _ _ _ Heq) as [<- <-].
      rewrite (punch_in_reaches_PunchedIn file env name Hname);
        [discriminate|].
      unfold ledger_state. rewrite Hfind. reflexivity.
    + rewrite lookup_insert_ne in Hsome by exact Hne.
      rewrite ledger_state_app_other, ledger_state_resave;
        [exact (Hback n d Hn Hsome)|].
      intros Hpair. apply Hne.
      pose proof (f_equal fst Hpair) as Hn'.
      pose proof (f_equal snd Hpair) as Hd'.
      cbn [fst snd] in Hn', Hd'. rewrite Hn', Hd'. reflexivity.
  - destruct Hout as (index & record & Hfind & _ & -> & Hfile).
    unfold write_result in Hfile. rewrite Hwrite in Hfile.
    destruct Hfile as [_ ->].
    intros n d Hn Hsome. cbn in Hsome.
    change (n +:+ "_" +:+ strftime_date d)
      with (Attendance.key_of n (strftime_date d)) in Hsome.
    destruct (decide (Attendance.key_of name (strftime_date (now_entry env))
                      = Attendance.key_of n (strftime_date d))) as [Heq|Hne].
    + rewrite Heq, lookup_delete_eq in Hsome. destruct Hsome; discriminate.
    + rewrite lookup_delete_ne in Hsome by exact Hne.
      rewrite <- find_record_resave in Hfind.
      rewrite (ledger_state_alter_other (resave file) name
                 (strftime_date (now_entry env))
                 (strftime_time (now_entry env)) index record
                 n (strftime_date d));
        [rewrite ledger_state_resave; exact (Hback n d Hn Hsome)
        | | exact Hfind].
      intros Hpair. apply Hne.
      pose proof (f_equal fst Hpair) as Hn'.
      pose proof (f_equal snd Hpair) as Hd'.
      cbn [fst snd] in Hn', Hd'. rewrite Hn', Hd'. reflexivity.
Qed.

(** X14.  As long as every write goes through, the debounce never fires:
    in a session of calls for names that are read back as text, started
    with every debounce entry backed by a record on file (in particular
    with no entry at all), no call is answered [DUPLICATE]. *)
Theorem no_duplicate_while_writes_succeed
  (calls : list (CallEnv * string * bool)) :
  forall (self : Attendance.AttendanceSystem) (file : CsvFile),
    debounce_backed self file ->
    Forall (fun call => is_na (snd (fst call)) = false
                        /\ write (fst (fst call)) = Written) calls ->
    ~ In DUPLICATE (fst (fst (Attendance.mark_all self file calls))).
Proof.
  induction calls as [|[[env name] is_alive] calls IH];
    intros self file Hback Hcalls.
  - simpl. tauto.
  - inversion Hcalls as [|? ? [Hname Hwrite] Hrest]; subst.
    cbn [fst snd] in Hname, Hwrite.
    rewrite mark_all_step. cbn [fst In]. intros [Hdup|Hlater].
    + destruct (Attendance.mark_attendance self file env name is_alive)
        as [[status self'] file'] eqn:Emark.
      cbn [fst] in Hdup. subst status.
      destruct (mark_duplicate_inv _ _ _ _ _ _ _ Emark) as [Hstate Hsome].
      exact (Hback name (now_entry env) Hname Hsome Hstate).
    + eapply IH; [|exact Hrest|exact Hlater].
      apply mark_keeps_debounce_backed; assumption.
Qed.

Lemma no_duplicate_while_writes_succeed_witness :
  debounce_backed kiosk []
  /\ ~ In DUPLICATE
       (fst (fst (Attendance.mark_all kiosk []
                    [(call_at (nine_o_clock 0) true true, "alice"%string, true);
                     (call_at (nine_o_clock 1) true true, "alice"%string, true);
                     (call_at (nine_o_clock 2) true true, "bob"%string, true)]))).
Proof.
  assert (Hback : debounce_backed kiosk []).
  { intros n d _ Hsome. cbn in Hsome. rewrite lookup_empty in Hsome.
    destruct Hsome; discriminate. }
  split; [exact Hback|].
  apply (no_duplicate_while_writes_succeed _ kiosk [] Hback).
  repeat constructor.
Defined.

(** X15.  One person's day: on a date without record for a name that is
    read back as text, with the debounce lapsed and the file readable and
    written throughout, repeated calls for that name are answered
    [PUNCH_IN], then [PUNCH_OUT], then [ALREADY_MARKED] every time. *)
Theorem day_cycle_of_one_name
  (self : Attendance.AttendanceSystem) (file : CsvFile) (name : string)
  (first second : CallEnv) (later : list CallEnv) :
  is_na name = false ->
  Forall (same_day_call (strftime_date (now_entry first)))
         (first :: second :: later) ->
  ledger_state file name (strftime_date (now_entry first)) = NoRecord ->
  debounce_lapsed self first name (strftime_date (now_entry first)) ->
  fst (fst (Attendance.mark_all self file
              (map (fun env => (env, name, true)) (first :: second :: later))))
  = PUNCH_IN :: PUNCH_OUT :: repeat ALREADY_MARKED (length later).
Proof.
  intros Hname Hcalls Hstate Hlapsed.
  inversion Hcalls as [|? ? (Hr1 & Hw1 & _) Hcalls']; subst.
  inversion Hcalls' as [|? ? (Hr2 & Hw2 & Hd2) Hlater]; subst.
  cbn [map]. rewrite mark_all_step.
  rewrite (mark_new_record self file first name Hr1 Hstate Hlapsed).
  unfold write_ok. rewrite Hw1.
  cbn [fst snd]. f_equal.
  pose proof (punch_in_reaches_PunchedIn file first name Hname Hstate) as Hin.
  set (opened := resave file ++ [_]) in *.
  assert (Hin2 : ledger_state opened name (strftime_date (now_entry second))
                 = PunchedIn) by (rewrite Hd2; exact Hin).
  destruct (ledger_state_found _ second name PunchedIn Hin2 ltac:(discriminate))
    as (index & record & Hfind & Hblank).
  rewrite mark_all_step.
  rewrite (mark_open_record _ _ second name index record Hr2 Hfind Hblank).
  unfold write_ok. rewrite Hw2.
  cbn [fst snd]. f_equal.
  pose proof (punch_out_reaches_PunchedOut _ second name index record Hfind)
    as Hout.
  set (closed := alter _ index _) in *.
  rewrite Hd2 in Hout.
  match goal with
  | |- context [Attendance.mark_all ?sys closed _] => generalize sys
  end.
  clear - Hlater Hout.
  induction Hlater as [|env later (Hr & _ & Hd) Hlater IH]; intros sys;
    [reflexivity|].
  cbn [map]. rewrite mark_all_step.
  rewrite <- Hd in Hout.
  rewrite (mark_closed_record sys closed env name Hr Hout).
  cbn [fst snd length repeat]. f_equal. rewrite Hd in Hout. apply IH.
Qed.

Lemma day_cycle_of_one_name_witness :
  is_na "alice" = false
  /\ fst (fst (Attendance.mark_all kiosk []
                 (map (fun env => (env, "alice"%string, true))
                    [call_at (nine_o_clock 0) true true;
                     call_at (nine_o_clock 1) true true;
                     call_at (nine_o_clock 20) true true;
                     call_at (nine_o_clock 40) true true])))
     = [PUNCH_IN; PUNCH_OUT; ALREADY_MARKED; ALREADY_MARKED].
Proof.
  split; [reflexivity|].
  apply (day_cycle_of_one_name kiosk [] "alice"
           (call_at (nine_o_clock 0) true true)
           (call_at (nine_o_clock 1) true true)
           [call_at (nine_o_clock 20) true true;
            call_at (nine_o_clock 40) true true] eq_refl).
  - repeat constructor.
  - reflexivity.
  - vm_compute. exact I.
Defined.

(** ** The key handler and the loop of [main] *)

(** With liveness established the answer is never [REJECTED_SPOOF]. *)
Lemma mark_alive_not_spoof
  (self self' : Attendance.AttendanceSystem) (file file' : CsvFile)
  (env : CallEnv) (name : string) :
  Attendance.mark_attendance self file env name true
  = (REJECTED_SPOOF, self', file') -> False.
Proof.
  unfold Attendance.mark_attendance. cbn [negb].
  destruct (read_csv file env); [|discriminate].
  destruct (Attendance.find_record _ _ _) as [[index record]|].
  - destruct (Attendance.punch_out_blank _);
      [destruct (to_csv _ _ _) as [[|] ?]|]; discriminate.
  - destruct (match Attendance.last_marked self !! _ with
              | Some _ => _ | None => _ end);
      [|destruct (to_csv _ _ _) as [[|] ?]]; discriminate.
Qed.

(** X16.  When the handler of key 'a' reaches [mark_attendance], the result
    names an identity other than the sentinels and is alive; hence the
    answer is never [REJECTED_SPOOF], and in every other case the handler
    leaves the system and the file alone. *)
Theorem key_handler_marks_only_live_identities
  (self : Attendance.AttendanceSystem) (file : CsvFile) (env : CallEnv)
  (result : RecognitionResult.t) :
  match fst (fst (Attendance.on_key_a self file env result)) with
  | Some status =>
      status <> REJECTED_SPOOF
      /\ RecognitionResult.is_alive result = true
      /\ exists name : string,
           RecognitionResult.name result = Some name
           /\ name <> EmptyString
           /\ name <> "UNKNOWN"%string
           /\ name <> "MULTIPLE_FACES"%string
           /\ Attendance.on_key_a self file env result
              = (Some status,
                 snd (fst (Attendance.mark_attendance self file env name true)),
                 snd (Attendance.mark_attendance self file env name true))
  | None => Attendance.on_key_a self file env result = (None, self, file)
  end.
Proof.
  unfold Attendance.on_key_a.
  destruct (RecognitionResult.name result) as [name|]; [|reflexivity].
  destruct (String.eqb name "") eqn:Eempty; [reflexivity|].
  destruct (String.eqb name "UNKNOWN") eqn:Eunknown; [reflexivity|].
  destruct (String.eqb name "MULTIPLE_FACES") eqn:Emultiple; [reflexivity|].
  destruct (RecognitionResult.is_alive result); [|reflexivity].
  cbn [negb orb andb].
  destruct (Attendance.mark_attendance self file env name true)
    as [[status self'] file'] eqn:Hmark.
  cbn [fst snd].
  apply String.eqb_neq in Eempty, Eunknown, Emultiple.
  split.
  - intros ->. exact (mark_alive_not_spoof _ _ _ _ _ _ Hmark).
  - split; [reflexivity|]. exists name. rewrite Hmark.
    repeat (split; [first [reflexivity | assumption]|]). reflexivity.
Qed.

(** The handler either calls [mark_attendance] for an acceptable name, or
    does nothing. *)
Lemma key_handler_cases
  (self : Attendance.AttendanceSystem) (file : CsvFile) (env : CallEnv)
  (result : RecognitionResult.t) :
  (exists name : string,
      RecognitionResult.name result = Some name
      /\ name <> "UNKNOWN"%string /\ name <> "MULTIPLE_FACES"%string
      /\ snd (fst (Attendance.on_key_a self file env result))
         = snd (fst (Attendance.mark_attendance self file env name true))
      /\ snd (Attendance.on_key_a self file env result)
         = snd (Attendance.mark_attendance self file env name true))
  \/ (snd (fst (Attendance.on_key_a self file env result)) = self
      /\ snd (Attendance.on_key_a self file env result) = file).
Proof.
  unfold Attendance.on_key_a.
  destruct (RecognitionResult.name result) as [name|]; [|right; auto].
  destruct (String.eqb name "") eqn:Eempty; [right; auto|].
  destruct (String.eqb name "UNKNOWN") eqn:Eunknown; [right; auto|].
  destruct (String.eqb name "MULTIPLE_FACES") eqn:Emultiple; [right; auto|].
  destruct (RecognitionResult.is_alive result); [|right; auto].
  cbn [negb orb andb]. left. exists name.
  apply String.eqb_neq in Eunknown, Emultiple.
  destruct (Attendance.mark_attendance self file env name true)
    as [[status self'] file']. auto.
Qed.

Section LoopFacts.

Variable resize : Gray -> nat * nat -> Gray.
Variable face_distance : Embedding -> Embedding -> Q.
Variable float_sub : Q -> Q -> Q.

Abbreviation recognize :=
  (Attendance.recognize_face resize face_distance float_sub).
Abbreviation iteration := (main_iteration resize face_distance float_sub).

(** [recognize_face] changes nothing of the system but the detector. *)
Lemma recognize_face_keeps_enrollment
  (self : Attendance.AttendanceSystem) (scene : Attendance.Scene) :
  Attendance.known_names (snd (recognize self scene))
  = Attendance.known_names self
  /\ Attendance.last_marked (snd (recognize self scene))
     = Attendance.last_marked self
  /\ Attendance.config (snd (recognize self scene)) = Attendance.config self.
Proof.
  unfold Attendance.recognize_face.
  destruct (Attendance.faces scene) as [|face [|face' others]]; auto.
  destruct (Liveness.detect_motion resize _ _ _) as [alive detector].
  destruct (Attendance.face_encodings scene); [auto|].
  cbn [Attendance.known_encodings Attendance.set_liveness_detector
         Attendance.known_names Attendance.config].
  destruct (Attendance.known_encodings self); [auto|].
  destruct (Qltb _ _ && Qltb _ _); [|auto].
  destruct (nth_error _ _); auto.
Qed.

(** The names that [recognize_face] can give to the key handler. *)
Lemma recognize_face_name_cases
  (self : Attendance.AttendanceSystem) (scene : Attendance.Scene)
  (name : string) :
  RecognitionResult.name (fst (recognize self scene)) = Some name ->
  name <> "UNKNOWN"%string -> name <> "MULTIPLE_FACES"%string ->
  In name (Attendance.known_names self)
  /\ exists face : Gray, Attendance.faces scene = [face].
Proof.
  unfold Attendance.recognize_face.
  destruct (Attendance.faces scene) as [|face [|face' others]].
  - discriminate.
  - destruct (Liveness.detect_motion resize _ _ _) as [alive detector].
    destruct (Attendance.face_encodings scene) as [|face_encoding encodings];
      [discriminate|].
    cbn [Attendance.known_encodings Attendance.set_liveness_detector
           Attendance.known_names Attendance.config].
    destruct (Attendance.known_encodings self) as [|known knowns].
    + cbn. intros H Hu. injection H as <-. contradiction.
    + destruct (Qltb _ _ && Qltb _ _).
      * destruct (nth_error (Attendance.known_names self) _) as [n|] eqn:En;
          [|discriminate].
        cbn. intros H _ _. injection H as <-.
        split; [exact (nth_error_In _ _ En) | eexists; reflexivity].
      * cbn. intros H Hu. injection H as <-. contradiction.
  - cbn. intros H _ Hm. injection H as <-. contradiction.
Qed.

(** X17.  An iteration of the main loop changes the ledger file only on
    key 'a' with exactly one face in view, and then only in a call for the
    name of an enrolled identity: the file is written back with the
    punch-in row of that name added, or with the punch-out set on a row of
    that name, or the write is cut short and the file holds what had been
    written. *)
Theorem loop_writes_only_enrolled_names
  (self : Attendance.AttendanceSystem) (file : CsvFile) (env : CallEnv)
  (scene : Attendance.Scene) (key : Z) :
  snd (iteration self file env scene key) <> file ->
  key = 97
  /\ (exists face : Gray, Attendance.faces scene = [face])
  /\ exists name : string,
       In name (Attendance.known_names self)
       /\ (snd (iteration self file env scene key)
           = resave file
             ++ [punch_in_row name (strftime_date (now_entry env))
                   (strftime_time (now_entry env))]
           \/ (exists (index : nat) (row : Row string),
                 file !! index = Some row /\ Name row = name
                 /\ snd (iteration self file env scene key)
                    = alter (Attendance.punch_out_row
                               (strftime_time (now_entry env))
                               "VERIFIED"%string) index (resave file))
           \/ (exists remains : CsvFile,
                 write env = Torn remains
                 /\ snd (iteration self file env scene key) = remains)).
Proof.
  unfold main_iteration.
  pose proof (recognize_face_keeps_enrollment self scene) as (Hnames & _ & _).
  pose proof (recognize_face_name_cases self scene) as Hcases.
  destruct (recognize self scene) as [result self1]. cbn [fst snd] in *.
  destruct (key =? 97) eqn:Ekey.
  2:{ destruct (key =? 114); [|destruct (key =? 113)];
        intros H; contradiction. }
  apply Z.eqb_eq in Ekey.
  pose proof (key_handler_cases self1 file env result) as Hhandler.
  destruct (Attendance.on_key_a self1 file env result)
    as [[status self2] file2]. cbn [fst snd] in *.
  destruct Hhandler as [(name & Hname & Hu & Hm & Hself & Hfile) | [_ ->]];
    [|intros H; contradiction].
  intros Hchanged. subst file2.
  destruct (Hcases name Hname Hu Hm) as [Hin Hface].
  split; [exact Ekey|]. split; [exact Hface|].
  exists name. split; [exact Hin|].
  destruct (mark_attendance_shape self1 file env name true)
    as (st & self' & file' & Hmark & Hshape).
  rewrite Hmark in *. cbn [snd] in *.
  destruct Hshape as [(_ & -> & _) | [(_ & _ & Hpin) | Hout]].
  - contradiction.
  - unfold write_result in Hpin. destruct (write env) as [| |remains].
    + destruct Hpin as [_ ->]. left. reflexivity.
    + destruct Hpin as [_ ->]. contradiction.
    + destruct Hpin as [_ ->]. right. right. exists remains. auto.
  - destruct Hout as (index & record & Hfind & _ & _ & Hfile).
    unfold write_result in Hfile. destruct (write env) as [| |remains].
    2:{ destruct Hfile as [_ ->]. contradiction. }
    2:{ destruct Hfile as [_ ->]. right. right. exists remains. auto. }
    destruct Hfile as [_ ->].
    right. left. unfold Attendance.find_record in Hfind.
    destruct (find_record_from_lookup _ _ _ _ _ _ Hfind) as (_ & Hrow & Hsel).
    rewrite Nat.sub_0_r, map_lookup in Hrow.
    destruct (file !! index) as [row|] eqn:Erow; [|discriminate].
    cbn in Hrow. injection Hrow as <-.
    apply selects_parse in Hsel. destruct Hsel as (Hn & _).
    exists index, row. auto.
Qed.

End LoopFacts.

Lemma loop_writes_only_enrolled_names_witness :
  snd (main_iteration resize_nearest manhattan Qminus kiosk_watching []
         (call_at (nine_o_clock 0) true true) alice_in_view 97) <> []
  /\ exists name : string,
       In name (Attendance.known_names kiosk_watching)
       /\ snd (main_iteration resize_nearest manhattan Qminus kiosk_watching []
                 (call_at (nine_o_clock 0) true true) alice_in_view 97)
          = [punch_in_row name "2024-03-05" "09:00:00"].
Proof.
  assert (Hchanged :
    snd (main_iteration resize_nearest manhattan Qminus kiosk_watching []
           (call_at (nine_o_clock 0) true true) alice_in_view 97) <> [])
    by (vm_compute; discriminate).
  split; [exact Hchanged|].
  destruct (proj2 (proj2 (loop_writes_only_enrolled_names resize_nearest
                            manhattan Qminus kiosk_watching []
                            (call_at (nine_o_clock 0) true true)
                            alice_in_view 97 Hchanged)))
    as (name & Hin & [Hfile | [(index & row & Hrow & _) | (remains & Hw & _)]]).
  - exists name. split; [exact Hin | exact Hfile].
  - destruct index; discriminate Hrow.
  - discriminate Hw.
Defined.

(** ** register_v2.py: sample validation and the capture loop *)

Section RegistrationFacts.

Variable face_distance : Embedding -> Embedding -> Q.

Lemma np_min_ge (threshold : Q) (distances : list Q) :
  distances <> [] ->
  (Qltb (np_min distances) threshold = false
   <-> Forall (fun d => (threshold <= d)%Q) distances).
Proof.
  intros Hne. destruct (np_argmin_spec distances Hne) as (Hat & Hmin & _).
  rewrite Qltb_ge. split.
  - intros Hle. apply List.Forall_forall. intros d Hd.
    destruct (In_nth_error _ _ Hd) as [j Hj].
    apply Qle_trans with (np_min distances); [exact Hle | exact (Hmin j d Hj)].
  - intros Hall.
    exact (proj1 (List.Forall_forall _ _) Hall _ (nth_error_In _ _ Hat)).
Qed.

Lemma last_three_nonempty {A : Type} (x : A) (l : list A) :
  Register.last_three (x :: l) <> [].
Proof.
  unfold Register.last_three. intros H.
  apply (f_equal (@length A)) in H. rewrite length_drop in H.
  cbn [length] in H. lia.
Qed.

Lemma validate_accepts (face_location : Z * Z * Z * Z)
  (face_encoding : Embedding) (previous_encodings : list Embedding) :
  fst (Register.validate face_distance face_location face_encoding
         previous_encodings) = true
  <-> (Register.FACE_SIZE_MIN
       <= snd (fst (fst face_location)) - snd face_location
       /\ Register.FACE_SIZE_MIN
          <= snd (fst face_location) - fst (fst (fst face_location)))
      /\ Forall (fun previous =>
                   (Register.DUPLICATE_THRESHOLD
                    <= face_distance previous face_encoding)%Q)
                (Register.last_three previous_encodings).
Proof.
  destruct face_location as [[[top right'] bottom] left'].
  unfold Register.validate. cbn [fst snd].
  destruct (right' - left' <? Register.FACE_SIZE_MIN) eqn:Ew;
    [apply Z.ltb_lt in Ew | apply Z.ltb_ge in Ew].
  { cbn. split; [discriminate | intros [[H _] _]; lia]. }
  destruct (bottom - top <? Register.FACE_SIZE_MIN) eqn:Eh;
    [apply Z.ltb_lt in Eh | apply Z.ltb_ge in Eh].
  { cbn. split; [discriminate | intros [[_ H] _]; lia]. }
  cbn [orb].
  destruct previous_encodings as [|p previous].
  { cbn. split; [intros _; split; [split; assumption | constructor] | reflexivity]. }
  set (recent := Register.last_three (p :: previous)).
  assert (Hne : map (fun q => face_distance q face_encoding) recent <> []).
  { intros H. apply map_eq_nil in H.
    exact (last_three_nonempty p previous H). }
  assert (Hlen : (0 <? length (map (fun q => face_distance q face_encoding)
                                   recent))%nat = true).
  { apply Nat.ltb_lt.
    destruct (map (fun q => face_distance q face_encoding) recent);
      [contradiction | simpl; lia]. }
  rewrite Hlen. cbn [andb].
  pose proof (np_min_ge Register.DUPLICATE_THRESHOLD _ Hne) as Hmin.
  rewrite List.Forall_map in Hmin.
  destruct (Qltb (np_min _) Register.DUPLICATE_THRESHOLD); cbn [fst].
  - split; [discriminate|]. intros [_ Hall].
    apply Hmin in Hall. discriminate.
  - split; [|reflexivity]. intros _.
    split; [split; assumption | apply Hmin; reflexivity].
Qed.

(** X18.  [validate] accepts a sample exactly when the face box is at least
    50 pixels wide and 50 high and the encoding is no nearer than the float
    [0.15] (the double 5404319552844595 / 2^55, just below 15/100) to each
    of the last three encodings kept; earlier ones are not looked at. *)
Theorem validate_accepts_large_distinct_samples
  (top right' bottom left' : Z) (face_encoding : Embedding)
  (previous_encodings : list Embedding) :
  fst (Register.validate face_distance (top, right', bottom, left')
         face_encoding previous_encodings) = true
  <-> (50 <= right' - left' /\ 50 <= bottom - top)
      /\ Forall (fun previous =>
                   (5404319552844595 # 36028797018963968
                    <= face_distance previous face_encoding)%Q)
                (Register.last_three previous_encodings).
Proof. apply (validate_accepts (top, right', bottom, left')). Qed.

(** X19.  [is_good_face_sample] of register.py accepts exactly the samples
    that [validate] of register_v2.py accepts. *)
Theorem is_good_face_sample_agrees_with_validate
  (face_location : Z * Z * Z * Z) (face_encoding : Embedding)
  (previous_encodings : list Embedding) :
  fst (RegisterV1.is_good_face_sample face_distance face_location
         face_encoding previous_encodings)
  = fst (Register.validate face_distance face_location face_encoding
           previous_encodings).
Proof.
  destruct face_location as [[[top right'] bottom] left'].
  unfold RegisterV1.is_good_face_sample, Register.validate.
  change Register.FACE_SIZE_MIN with 50.
  destruct ((right' - left' <? 50) || (bottom - top <? 50)); [reflexivity|].
  destruct previous_encodings as [|p previous]; [reflexivity|].
  cbn [length Nat.ltb Nat.leb].
  change Register.DUPLICATE_THRESHOLD with double_0_15.
  destruct (_ && Qltb _ _); reflexivity.
Qed.

Variable brightness_config : BrightnessConfig.

Abbreviation capture_step :=
  (Register.capture_step face_distance brightness_config).
Abbreviation capture_loop :=
  (Register.capture_loop face_distance brightness_config).

Abbreviation capture_ok := (capture_invariant face_distance).

Lemma well_spread_snoc (kept : list Embedding) (e : Embedding) :
  well_spread face_distance kept ->
  Forall (fun previous =>
            (Register.DUPLICATE_THRESHOLD <= face_distance previous e)%Q)
         (Register.last_three kept) ->
  well_spread face_distance (kept ++ [e]).
Proof.
  intros Hkept Hnew k e' Hk.
  destruct (Nat.lt_ge_cases k (length kept)) as [Hin|Hout].
  - rewrite lookup_app_l in Hk by exact Hin.
    rewrite take_app_le by lia. exact (Hkept k e' Hk).
  - assert (k = length kept).
    { apply lookup_lt_Some in Hk. rewrite length_app in Hk. simpl in Hk. lia. }
    subst k. rewrite list_lookup_middle in Hk by reflexivity.
    injection Hk as <-.
    rewrite take_app_length. exact Hnew.
Qed.

Lemma capture_step_ok (st : Register.Registration) (c : Register.Capture) :
  capture_ok st -> capture_ok (snd (capture_step st c)).
Proof.
  unfold capture_invariant. intros (Hcount & Hmax & Hspread).
  unfold Register.capture_step.
  destruct (negb (Register.ret c)); [repeat split; assumption|].
  destruct (Register.capture_key c =? 115).
  2:{ destruct (Register.capture_key c =? 113); repeat split; assumption. }
  destruct (Register.capture_faces c) as [|face [|face' faces]];
    try (repeat split; assumption).
  destruct (Register.quality_samples st >=? Register.MAX_SAMPLES) eqn:Efull;
    [repeat split; assumption|].
  destruct (Register.capture_encodings c) as [|face_encoding encodings];
    [repeat split; assumption|].
  pose proof (validate_accepts face face_encoding (Register.encodings st))
    as Hvalid.
  destruct (Register.validate face_distance face face_encoding
              (Register.encodings st)) as [is_valid message].
  cbn [fst] in Hvalid.
  destruct is_valid; [|repeat split; assumption].
  cbn [snd Register.encodings Register.quality_samples].
  rewrite Z.geb_leb in Efull. apply Z.leb_gt in Efull.
  split; [rewrite length_app; simpl; lia|]. split; [lia|].
  apply well_spread_snoc; [exact Hspread|].
  exact (proj2 (proj1 Hvalid eq_refl)).
Qed.

Lemma capture_loop_ok (frames : list Register.Capture) :
  capture_ok (capture_loop Register.start frames).
Proof.
  assert (Hgen : forall st, capture_ok st -> capture_ok (capture_loop st frames)).
  { induction frames as [|c frames IH]; intros st Hok; [exact Hok|].
    cbn [Register.capture_loop].
    pose proof (capture_step_ok st c Hok) as Hstep.
    destruct (capture_step st c) as [go_on st']. cbn [snd] in Hstep.
    destruct go_on; [apply IH|]; exact Hstep. }
  apply (Hgen Register.start).
  split; [reflexivity|]. split; [unfold Register.MAX_SAMPLES; simpl; lia|].
  intros k e Hk. destruct k; discriminate Hk.
Qed.

(** X20.  Whatever the camera delivers and whatever keys are pressed, the
    capture loop of [register_face] keeps at most 30 samples, counts them
    exactly in [quality_samples], and keeps each encoding no nearer than
    the float [0.15] (the double 5404319552844595 / 2^55) to each of the
    three kept before it. *)
Theorem capture_loop_keeps_spread_samples (frames : list Register.Capture) :
  Register.quality_samples (capture_loop Register.start frames)
  = Z.of_nat (length (Register.encodings (capture_loop Register.start frames)))
  /\ Register.quality_samples (capture_loop Register.start frames) <= 30
  /\ forall (k : nat) (e : Embedding),
       Register.encodings (capture_loop Register.start frames) !! k = Some e ->
       Forall (fun previous =>
                 (5404319552844595 # 36028797018963968
                  <= face_distance previous e)%Q)
              (Register.last_three
                 (take k (Register.encodings
                            (capture_loop Register.start frames)))).
Proof. exact (capture_loop_ok frames). Qed.

Variable np_mean : list Embedding -> Embedding.

Abbreviation register_face :=
  (Register.register_face face_distance brightness_config np_mean).

(** X21.  [register_face] touches no file of the encodings directory but
    the one named after the name typed, stripped of white space.  It
    answers [True] only when it has written the mean of the kept encodings
    there.  And it answers [True], or changes the directory at all, only
    for a non-empty name, with the camera open and between 15 and 30
    samples kept, and, where the name was registered already, on the
    answer "y" or "Y". *)
Theorem register_face_saves_only_enough_samples
  (directory : gmap string (option Embedding)) (typed_name response : string)
  (camera_opens : bool) (frames : list Register.Capture)
  (save : Register.SaveOutcome) :
  let outcome :=
    register_face directory typed_name response camera_opens frames save in
  let kept := Register.encodings (capture_loop Register.start frames) in
  let encoding_file := strip typed_name +:+ ".npy" in
  (forall other : string,
      other <> encoding_file -> snd outcome !! other = directory !! other)
  /\ (fst outcome = true ->
      snd outcome = <[encoding_file := Some (np_mean kept)]> directory)
  /\ (fst outcome = true \/ snd outcome <> directory ->
      strip typed_name <> EmptyString
      /\ camera_opens = true
      /\ (15 <= length kept <= 30)%nat
      /\ (is_Some (directory !! encoding_file) ->
          response = "y"%string \/ response = "Y"%string)).
Proof.
  cbv zeta. unfold Register.register_face.
  assert (Hidle : forall d : gmap string (option Embedding),
            (forall other : string,
                other <> strip typed_name +:+ ".npy" ->
                snd (false, d) !! other = d !! other)
            /\ (fst (false, d) = true ->
                snd (false, d)
                = <[strip typed_name +:+ ".npy"
                    := Some (np_mean (Register.encodings
                                        (capture_loop Register.start frames)))]>
                    d)
            /\ (fst (false, d) = true \/ snd (false, d) <> d ->
                strip typed_name <> EmptyString
                /\ camera_opens = true
                /\ (15 <= length (Register.encodings
                                    (capture_loop Register.start frames))
                    <= 30)%nat
                /\ (is_Some (d !! (strip typed_name +:+ ".npy")) ->
                    response = "y"%string \/ response = "Y"%string))).
  { intros d. cbn [fst snd]. split; [reflexivity|].
    split; [discriminate|]. intros [H|H]; [discriminate | contradiction]. }
  destruct (String.eqb (strip typed_name) "") eqn:Ename; [apply Hidle|].
  apply String.eqb_neq in Ename.
  assert (Hyes : forall old : option Embedding,
            directory !! (strip typed_name +:+ ".npy") = Some old ->
            lowers_to_y response = true ->
            is_Some (directory !! (strip typed_name +:+ ".npy")) ->
            response = "y"%string \/ response = "Y"%string).
  { intros old _ Hy _. unfold lowers_to_y in Hy.
    apply orb_true_iff in Hy. destruct Hy as [Hy|Hy];
      apply String.eqb_eq in Hy; auto. }
  assert (Hanswer :
            match directory !! (strip typed_name +:+ ".npy") with
            | Some _ => negb (lowers_to_y response)
            | None => false
            end = false ->
            is_Some (directory !! (strip typed_name +:+ ".npy")) ->
            response = "y"%string \/ response = "Y"%string).
  { destruct (directory !! (strip typed_name +:+ ".npy")) as [old|] eqn:Eold.
    - intros Hneg. apply negb_false_iff in Hneg.
      exact (Hyes old eq_refl Hneg).
    - intros _ [x Hx]. discriminate Hx. }
  destruct (match directory !! (strip typed_name +:+ ".npy") with
            | Some _ => negb (lowers_to_y response)
            | None => false
            end) eqn:Easked; [apply Hidle|].
  specialize (Hanswer eq_refl).
  destruct camera_opens; [|apply Hidle]. cbn [negb].
  pose proof (capture_loop_ok frames) as (Hcount & Hmax & _).
  destruct (Register.quality_samples _ <? Register.MIN_SAMPLES) eqn:Emin;
    [apply Hidle|].
  apply Z.ltb_ge in Emin.
  unfold Register.MIN_SAMPLES, Register.MAX_SAMPLES in *.
  assert (Hfacts :
            strip typed_name <> EmptyString
            /\ true = true
            /\ (15 <= length (Register.encodings
                                (capture_loop Register.start frames))
                <= 30)%nat
            /\ (is_Some (directory !! (strip typed_name +:+ ".npy")) ->
                response = "y"%string \/ response = "Y"%string)).
  { split; [exact Ename|]. split; [reflexivity|]. split; [lia | exact Hanswer]. }
  destruct save; cbn [fst snd]; [| apply Hidle | |].
  - split; [intros other Hother; apply lookup_insert_ne; congruence|].
    split; [reflexivity|]. intros _. exact Hfacts.
  - split; [intros other Hother; apply lookup_insert_ne; congruence|].
    split; [discriminate|]. intros _. exact Hfacts.
  - split; [intros other Hother; apply lookup_insert_ne; congruence|].
    split; [discriminate|]. intros _. exact Hfacts.
Qed.

End RegistrationFacts.

(** ** Loading the enrolled identities *)

Lemma load_known_faces_loaded (files : list (string * option Embedding)) :
  forall self : Attendance.AttendanceSystem,
    Attendance.known_names (Attendance.load_known_faces self files)
    = Attendance.known_names self ++ map fst (loaded files)
    /\ Attendance.known_encodings (Attendance.load_known_faces self files)
       = Attendance.known_encodings self ++ map snd (loaded files).
Proof.
  induction files as [|[stem [encoding|]] files IH]; intros self; simpl.
  - rewrite !app_nil_r. auto.
  - destruct (IH {| Attendance.config := Attendance.config self;
                    Attendance.known_encodings :=
                      Attendance.known_encodings self ++ [encoding];
                    Attendance.known_names :=
                      Attendance.known_names self ++ [stem];
                    Attendance.liveness_detector :=
                      Attendance.liveness_detector self;
                    Attendance.last_marked := Attendance.last_marked self |})
      as [Hn He].
    rewrite Hn, He. cbn. rewrite <- !app_assoc. auto.
  - apply IH.
Qed.

(** X22.  A system as created holds, in the order of the directory, the
    name and the encoding of every file that loaded, name and encoding at
    the same index; files that fail to load leave no trace. *)
Theorem init_pairs_names_with_encodings (cfg : SystemConfig)
  (files : list (string * option Embedding)) :
  combine (Attendance.known_names (Attendance.init cfg files))
          (Attendance.known_encodings (Attendance.init cfg files))
  = loaded files
  /\ length (Attendance.known_names (Attendance.init cfg files))
     = length (Attendance.known_encodings (Attendance.init cfg files)).
Proof.
  unfold Attendance.init.
  destruct (load_known_faces_loaded files
              {| Attendance.config := cfg;
                 Attendance.known_encodings := [];
                 Attendance.known_names := [];
                 Attendance.liveness_detector := Liveness.init;
                 Attendance.last_marked := ∅ |}) as [-> ->].
  cbn [Attendance.known_names Attendance.known_encodings app].
  split; [|rewrite !length_map; reflexivity].
  induction (loaded files) as [|[n e] l IH]; [reflexivity|].
  cbn. rewrite IH. reflexivity.
Qed.

(** Appending ".npy" adds nothing to what is left after removal. *)
Lemma remove_npy_chars_suffix (n : nat) :
  forall l : list ascii,
    (length l <= n)%nat ->
    remove_npy_chars (l ++ ["."; "n"; "p"; "y"]%char) = remove_npy_chars l.
Proof.
  induction n as [|n IH]; intros l Hlen.
  - destruct l; [reflexivity | simpl in Hlen; lia].
  - destruct l as [|c1 [|c2 [|c3 [|c4 r4]]]].
    + reflexivity.
    + cbn [app remove_npy_chars].
      repeat match goal with
             | |- context [Ascii.eqb ?c ?d] => is_var c; destruct (Ascii.eqb c d)
             end; reflexivity.
    + cbn [app remove_npy_chars].
      repeat match goal with
             | |- context [Ascii.eqb ?c ?d] => is_var c; destruct (Ascii.eqb c d)
             end; reflexivity.
    + cbn [app remove_npy_chars].
      repeat match goal with
             | |- context [Ascii.eqb ?c ?d] => is_var c; destruct (Ascii.eqb c d)
             end; reflexivity.
    + cbn [app remove_npy_chars].
      destruct (Ascii.eqb c1 "." && Ascii.eqb c2 "n"
                && Ascii.eqb c3 "p" && Ascii.eqb c4 "y").
      * apply IH. simpl in Hlen. lia.
      * f_equal. apply (IH (c2 :: c3 :: c4 :: r4)). simpl in *. lia.
Qed.

Lemma list_ascii_of_string_app (a b : string) :
  list_ascii_of_string (a +:+ b)
  = list_ascii_of_string a ++ list_ascii_of_string b.
Proof.
  induction a as [|c a IH]; [reflexivity|].
  simpl. rewrite <- IH. reflexivity.
Qed.

Lemma string_of_list_ascii_app (a b : list ascii) :
  string_of_list_ascii (a ++ b)
  = string_of_list_ascii a +:+ string_of_list_ascii b.
Proof.
  induction a as [|c a IH]; [reflexivity|].
  simpl. rewrite IH. reflexivity.
Qed.

Lemma remove_npy_suffix (user : string) :
  remove_npy (user +:+ ".npy") = remove_npy user.
Proof.
  unfold remove_npy. rewrite list_ascii_of_string_app.
  change (list_ascii_of_string ".npy") with ["."; "n"; "p"; "y"]%char.
  rewrite (remove_npy_chars_suffix (length (list_ascii_of_string user)));
    [reflexivity | lia].
Qed.

Lemma endswith_npy_suffix (user : string) :
  endswith_npy (user +:+ ".npy") = true.
Proof.
  unfold endswith_npy. rewrite list_ascii_of_string_app.
  change (list_ascii_of_string ".npy") with ["."; "n"; "p"; "y"]%char.
  rewrite rev_app_distr. reflexivity.
Qed.

(** One step of the scan: an occurrence at the head is dropped, any other
    character is kept. *)
Lemma remove_npy_chars_cons (c : ascii) (r : list ascii) :
  (exists r4, r = ["n"; "p"; "y"]%char ++ r4 /\ c = "."%char
              /\ remove_npy_chars (c :: r) = remove_npy_chars r4)
  \/ ((forall r4, c :: r <> ["."; "n"; "p"; "y"]%char ++ r4)
      /\ remove_npy_chars (c :: r) = c :: remove_npy_chars r).
Proof.
  destruct r as [|c2 [|c3 [|c4 r4]]];
    try (right; split; [intros r4' H; discriminate H | reflexivity]).
  cbn [remove_npy_chars].
  destruct (Ascii.eqb_spec c ".") as [->|N1];
    [destruct (Ascii.eqb_spec c2 "n") as [->|N2];
     [destruct (Ascii.eqb_spec c3 "p") as [->|N3];
      [destruct (Ascii.eqb_spec c4 "y") as [->|N4]|]|]|];
    cbn [andb];
    try (right; split; [intros r4' H; injection H; intros; congruence
                       | reflexivity]).
  left. exists r4. auto.
Qed.

Lemma remove_npy_chars_length (n : nat) :
  forall l : list ascii,
    (length l <= n)%nat -> (length (remove_npy_chars l) <= length l)%nat.
Proof.
  induction n as [|n IH]; intros l Hlen.
  - destruct l; [simpl; lia | simpl in Hlen; lia].
  - destruct l as [|c r]; [simpl; lia|].
    destruct (remove_npy_chars_cons c r) as [(r4 & -> & -> & ->)|[_ ->]].
    + cbn in Hlen |- *. specialize (IH r4). lia.
    + cbn in Hlen |- *. specialize (IH r). lia.
Qed.

Lemma remove_npy_chars_occurrence (a : list ascii) :
  forall b : list ascii,
    (length (remove_npy_chars (a ++ ["."; "n"; "p"; "y"]%char ++ b))
     < length (a ++ ["."; "n"; "p"; "y"]%char ++ b))%nat.
Proof.
  induction a as [|c a IH]; intros b.
  - destruct (remove_npy_chars_cons "." (["n"; "p"; "y"]%char ++ b))
      as [(r4 & E & _ & Hr)|[N _]].
    + cbn [app] in E, Hr |- *. rewrite Hr. injection E as <-.
      pose proof (remove_npy_chars_length (length b) b). cbn [length]. lia.
    + exfalso. apply (N b). reflexivity.
  - destruct (remove_npy_chars_cons c (a ++ ["."; "n"; "p"; "y"]%char ++ b))
      as [(r4 & E & _ & Hr)|[_ Hr]].
    + cbn [app] in E, Hr |- *. rewrite Hr.
      pose proof (remove_npy_chars_length (length r4) r4).
      cbn [length]. rewrite E. cbn [length]. lia.
    + cbn [app] in Hr |- *. rewrite Hr.
      cbn [length]. specialize (IH b). cbn [app] in IH. lia.
Qed.

Lemma remove_npy_chars_fixed (n : nat) :
  forall l : list ascii,
    (length l <= n)%nat ->
    (forall a b, l <> a ++ ["."; "n"; "p"; "y"]%char ++ b) ->
    remove_npy_chars l = l.
Proof.
  induction n as [|n IH]; intros l Hlen Hno.
  - destruct l; [reflexivity | simpl in Hlen; lia].
  - destruct l as [|c r]; [reflexivity|].
    destruct (remove_npy_chars_cons c r) as [(r4 & -> & -> & _)|[_ ->]].
    + exfalso. apply (Hno [] r4). reflexivity.
    + f_equal. apply IH; [simpl in Hlen; lia|].
      intros a b ->. apply (Hno (c :: a) b). reflexivity.
Qed.

Lemma remove_npy_fixed_iff (user : string) :
  remove_npy user = user
  <-> forall a b : string, user <> a +:+ ".npy" +:+ b.
Proof.
  unfold remove_npy. split.
  - intros Hfix a b ->.
    rewrite !list_ascii_of_string_app in Hfix.
    change (list_ascii_of_string ".npy") with ["."; "n"; "p"; "y"]%char in Hfix.
    pose proof (remove_npy_chars_occurrence
                  (list_ascii_of_string a) (list_ascii_of_string b)) as Hlt.
    apply (f_equal list_ascii_of_string) in Hfix.
    rewrite list_ascii_of_string_of_list_ascii in Hfix.
    rewrite !list_ascii_of_string_app in Hfix.
    change (list_ascii_of_string ".npy") with ["."; "n"; "p"; "y"]%char in Hfix.
    rewrite Hfix in Hlt. lia.
  - intros Hno.
    rewrite (remove_npy_chars_fixed (length (list_ascii_of_string user)));
      [apply string_of_list_ascii_of_string | lia |].
    intros a b E.
    apply (Hno (string_of_list_ascii a) (string_of_list_ascii b)).
    rewrite <- (string_of_list_ascii_of_string user), E.
    rewrite !string_of_list_ascii_app. reflexivity.
Qed.

(** X23.  The file [register.py] writes for a user is one that
    recognize.py loads, under the user's name with every ".npy" removed
    from it: the name comes back as registered exactly when it contains
    no ".npy". *)
Theorem V1_registered_name_round_trip (user : string) :
  endswith_npy (user +:+ ".npy") = true
  /\ remove_npy (user +:+ ".npy") = remove_npy user
  /\ (remove_npy (user +:+ ".npy") = user
      <-> forall a b : string, user <> a +:+ ".npy" +:+ b).
Proof.
  split; [apply endswith_npy_suffix|].
  split; [apply remove_npy_suffix|].
  rewrite remove_npy_suffix. apply remove_npy_fixed_iff.
Qed.

Lemma V1_load_loop_listing (listing : list (string * option Embedding)) :
  forall self : Attendance.AttendanceSystem,
    V1_load_loop self listing
    = Attendance.load_known_faces self (V1_listing listing).
Proof.
  unfold V1_listing.
  induction listing as [|[file content] listing IH]; intros self;
    [reflexivity|].
  cbn [V1_load_loop List.filter fst].
  destruct (endswith_npy file); [|apply IH].
  cbn [map fst snd Attendance.load_known_faces].
  destruct content as [encoding|]; apply IH.
Qed.

(** X24.  recognize.py loads what recognize_v2.py loads from the files
    whose name ends in ".npy", each under its name with every ".npy"
    removed; a missing directory leaves the system as it is. *)
Theorem V1_load_known_faces_agrees (self : Attendance.AttendanceSystem)
  (listing : list (string * option Embedding)) :
  V1_load_known_faces self (Some listing)
  = Attendance.load_known_faces self (V1_listing listing)
  /\ V1_load_known_faces self None = self.
Proof.
  split; [apply V1_load_loop_listing | reflexivity].
Qed.

(** ** recognize.py and recognize_v2.py over a session *)

Lemma mark_attendance_config
  (self : Attendance.AttendanceSystem) (file : CsvFile) (env : CallEnv)
  (name : string) (is_alive : bool) :
  Attendance.config
    (snd (fst (Attendance.mark_attendance self file env name is_alive)))
  = Attendance.config self.
Proof.
  destruct (mark_attendance_shape self file env name is_alive)
    as (status & self' & file' & -> & Hshape).
  cbn [fst snd].
  destruct Hshape as [(-> & _)|[(_ & -> & _)|(index & record & _ & _ & -> & _)]];
    reflexivity.
Qed.

(** X25.  Over a run of frames the detector of recognize.py raises when one
    of the frames carries an empty face region; otherwise it returns the
    verdicts and ends in the state of the detector of recognize_v2.py under
    the default configuration. *)
Theorem V1_run_agrees (resize : Gray -> nat * nat -> Gray)
  (frames : list (option Gray)) :
  forall self : Liveness.LivenessDetector,
    V1_run resize self frames
    = if existsb empty_patch frames then None
      else Some (Liveness.run resize default_LivenessConfig self frames).
Proof.
  induction frames as [|f frames IH]; intros self; [reflexivity|].
  cbn [V1_run existsb Liveness.run].
  rewrite V1_detect_motion_agrees.
  destruct f as [gray|]; cbn [empty_patch orb].
  - destruct (Nat.eqb (size gray) 0); cbn [orb]; [reflexivity|].
    destruct (Liveness.detect_motion resize default_LivenessConfig self
                (Some gray)) as [v self'].
    rewrite IH. destruct (existsb empty_patch frames); [reflexivity|].
    destruct (Liveness.run resize default_LivenessConfig self' frames).
    reflexivity.
  - destruct (Liveness.detect_motion resize default_LivenessConfig self None)
      as [v self'].
    rewrite IH. destruct (existsb empty_patch frames); [reflexivity|].
    destruct (Liveness.run resize default_LivenessConfig self' frames).
    reflexivity.
Qed.

Lemma V1_mark_all_agrees (calls : list (CallEnv * string * bool)) :
  forall (self : Attendance.AttendanceSystem) (file : CsvFile),
    duplicate_detection_window (recognition (Attendance.config self)) = 5 ->
    V1_mark_all self file calls
    = if existsb is_ERROR (fst (fst (Attendance.mark_all self file calls)))
      then None
      else Some (Attendance.mark_all self file calls).
Proof.
  induction calls as [|[[env name] is_alive] calls IH]; intros self file Hw;
    [reflexivity|].
  cbn [V1_mark_all Attendance.mark_all].
  pose proof (V1_mark_attendance_agrees self file env name is_alive Hw) as H1.
  pose proof (mark_attendance_config self file env name is_alive) as Hc.
  destruct (V1.mark_attendance self file env name is_alive)
    as [[[status self'] file']|].
  - destruct H1 as [E Hne]. rewrite <- E in Hc |- *. cbn [fst snd] in Hne, Hc.
    rewrite (IH self' file') by (rewrite Hc; exact Hw).
    destruct (Attendance.mark_all self' file' calls) as [[statuses s''] f''].
    cbn [fst snd existsb].
    destruct status; cbn [is_ERROR orb]; try reflexivity;
      try (destruct (existsb is_ERROR statuses); reflexivity).
    exfalso. apply Hne. reflexivity.
  - destruct (Attendance.mark_attendance self file env name is_alive)
      as [[status self'] file'].
    cbn [fst snd] in H1. subst status.
    destruct (Attendance.mark_all self' file' calls) as [[statuses s''] f''].
    reflexivity.
Qed.

(** X26.  With a window of five seconds, a session of recognize.py ends in
    an exception exactly when the same session of recognize_v2.py answers
    ERROR somewhere; otherwise both give the same statuses, system and
    file. *)
Theorem V1_session_agrees (self : Attendance.AttendanceSystem)
  (file : CsvFile) (calls : list (CallEnv * string * bool)) :
  duplicate_detection_window (recognition (Attendance.config self)) = 5 ->
  V1_mark_all self file calls
  = if existsb is_ERROR (fst (fst (Attendance.mark_all self file calls)))
    then None
    else Some (Attendance.mark_all self file calls).
Proof. apply V1_mark_all_agrees. Qed.

Lemma V1_session_agrees_witness :
  V1_mark_all kiosk []
    [(call_at (nine_o_clock 0) true true, "alice"%string, true);
     (call_at (nine_o_clock 1) true true, "alice"%string, true)]
  = Some (Attendance.mark_all kiosk []
            [(call_at (nine_o_clock 0) true true, "alice"%string, true);
             (call_at (nine_o_clock 1) true true, "alice"%string, true)]).
Proof.
  rewrite (V1_session_agrees kiosk []
             [(call_at (nine_o_clock 0) true true, "alice"%string, true);
              (call_at (nine_o_clock 1) true true, "alice"%string, true)]);
    [|reflexivity].
  vm_compute. reflexivity.
Defined.
